(** * Expense-Tracker: message parser, ledger client and staged analyzer

    A shallow embedding of the core of the repository
    (src/bot/utils.py, src/sheets/client.py, src/sheets/operations.py,
    src/bot/ai_analysis.py, and the message handler of
    src/bot/handlers.py) together with the properties stated about it.

    Conventions of the embedding
    - a Python [str] is a list of characters; a character is a code point
      below 256 (the Latin-1 block of Unicode), carried by [ascii]; the
      literals of the source that hold other characters (the marks that
      open the user messages) stand as their UTF-8 bytes;
    - a Python [float] is an IEEE-754 binary64 value, carried by the
      Standard Library's [spec_float] at precision 53 and [emax] 1024;
    - [re.match] is a backtracking matcher over a small regular-expression
      syntax, with greedy repetition and numbered capture groups;
    - the external services (the web hook reached through [requests], the
      model reached through [ollama], the JSON decoder, the chat the bot
      replies to) are parameters. *)

From Stdlib Require Import Ascii String List ZArith Bool Lia DecimalString.
From Stdlib Require Import Floats.SpecFloat.
Import ListNotations.

Set Implicit Arguments.
Open Scope Z_scope.

(* ================================================================= *)
(** ** Python strings *)

Module PyStr.

Definition str := list ascii.

(** A source literal as a [str]. *)
Definition lit (s : string) : str := list_ascii_of_string s.

Definition code (c : ascii) : N := N_of_ascii c.

(** [str.isspace] on one character, for code points below 256:
    U+0009..U+000D, U+001C..U+001F, U+0020, U+0085 and U+00A0. *)
Definition isspace (c : ascii) : bool :=
  let n := code c in
  ((9 <=? n) && (n <=? 13) || (28 <=? n) && (n <=? 32)
   || (n =? 133) || (n =? 160))%N.

(** [str.isdecimal] on one character: below 256 only the ASCII digits
    have the Unicode category Nd. *)
Definition isdecimal (c : ascii) : bool :=
  let n := code c in ((48 <=? n) && (n <=? 57))%N.

Definition newline : ascii := ascii_of_N 10.
Definition dquote : ascii := ascii_of_N 34.

Fixpoint dropwhile (p : ascii -> bool) (s : str) : str :=
  match s with
  | [] => []
  | a :: s' => if p a then dropwhile p s' else s
  end.

Fixpoint takewhile (p : ascii -> bool) (s : str) : str :=
  match s with
  | [] => []
  | a :: s' => if p a then a :: takewhile p s' else []
  end.

Definition lstrip (s : str) : str := dropwhile isspace s.
Definition rstrip (s : str) : str := rev (dropwhile isspace (rev s)).

(** [s.strip()] with no argument. *)
Definition strip (s : str) : str := rstrip (lstrip s).

(** [s.replace(a, b)] for one-character [a] and [b]. *)
Definition replace (a b : ascii) (s : str) : str :=
  map (fun c => if Ascii.eqb c a then b else c) s.

(** [s.find(c)] for a one-character needle: the index of the first
    occurrence, or -1. *)
Fixpoint find (c : ascii) (s : str) : Z :=
  match s with
  | [] => -1
  | a :: s' =>
      if Ascii.eqb a c then 0
      else let i := find c s' in if i <? 0 then -1 else i + 1
  end.

(** [s.rfind(c)] for a one-character needle: the index of the last
    occurrence, or -1. *)
Fixpoint rfind (c : ascii) (s : str) : Z :=
  match s with
  | [] => -1
  | a :: s' =>
      let i := rfind c s' in
      if 0 <=? i then i + 1
      else if Ascii.eqb a c then 0 else -1
  end.

(** A slice bound as Python normalises it: a negative bound counts from
    the end, and the result is clamped to [0, len]. *)
Definition slice_bound (len i : Z) : Z :=
  if i <? 0 then Z.max (i + len) 0 else Z.min i len.

(** [s[i:j]]. *)
Definition slice (s : str) (i j : Z) : str :=
  let len := Z.of_nat (length s) in
  let lo := slice_bound len i in
  let hi := slice_bound len j in
  firstn (Z.to_nat (hi - lo)) (skipn (Z.to_nat lo) s).

End PyStr.
Import PyStr.

(* ================================================================= *)
(** ** Regular expressions: the fragment of [re] the parser uses *)

Module Re.

(** Character classes. *)
Inductive cls :=
| Digit                      (* \d *)
| Space                      (* \s *)
| Dot                        (* .  : anything but a newline *)
| OneOf (l : list ascii).    (* [...] *)

Definition cls_match (c : cls) (a : ascii) : bool :=
  match c with
  | Digit => isdecimal a
  | Space => isspace a
  | Dot => negb (Ascii.eqb a newline)
  | OneOf l => existsb (Ascii.eqb a) l
  end.

Inductive regex :=
| Bol                          (* ^ *)
| Eol                          (* $ : at the end, or before a final newline *)
| Set1 (c : cls)               (* one character of a class *)
| Plus (c : cls)               (* c+, greedy *)
| Opt (r : regex)              (* (?:r)?, greedy *)
| Cat (r1 r2 : regex)
| Group (i : nat) (r : regex). (* capture group number i *)

(** Captured groups, most recent first. *)
Definition caps := list (nat * str).

(** A matcher state: the characters consumed so far (most recent first),
    the remaining input and the groups captured so far. *)
Definition kont := str -> str -> caps -> option caps.

(** Greedy [c+]: the longest run is tried first, then shorter ones. *)
Fixpoint plus_loop (c : cls) (k : kont) (pre s : str) (cs : caps)
  : option caps :=
  match s with
  | [] => None
  | a :: s' =>
      if cls_match c a then
        match plus_loop c k (a :: pre) s' cs with
        | Some r => Some r
        | None => k (a :: pre) s' cs
        end
      else None
  end.

Definition at_eol (s : str) : bool :=
  match s with
  | [] => true
  | [a] => Ascii.eqb a newline
  | _ => false
  end.

(** The backtracking matcher, in continuation-passing style. *)
Fixpoint rmatch (r : regex) (k : kont) (pre s : str) (cs : caps)
  : option caps :=
  match r with
  | Bol => match pre with [] => k pre s cs | _ => None end
  | Eol => if at_eol s then k pre s cs else None
  | Set1 c =>
      match s with
      | a :: s' => if cls_match c a then k (a :: pre) s' cs else None
      | [] => None
      end
  | Plus c => plus_loop c k pre s cs
  | Opt r' =>
      match rmatch r' k pre s cs with
      | Some x => Some x
      | None => k pre s cs
      end
  | Cat r1 r2 =>
      rmatch r1 (fun pre' s' cs' => rmatch r2 k pre' s' cs') pre s cs
  | Group i r' =>
      rmatch r'
        (fun pre' s' cs' =>
           k pre' s'
             ((i, rev (firstn (length pre' - length pre) pre')) :: cs'))
        pre s cs
  end.

(** [re.match(r, s)]: a match anchored at the start of [s]. *)
Definition re_match (r : regex) (s : str) : option caps :=
  rmatch r (fun _ _ cs => Some cs) [] s [].

(** [m.group(i)]. *)
Fixpoint group (i : nat) (cs : caps) : option str :=
  match cs with
  | [] => None
  | (j, w) :: cs' => if Nat.eqb i j then Some w else group i cs'
  end.

(** The relation the matcher explores: [step r st st'] when [r] can take
    the state [st] to [st']. *)
Inductive step : regex -> str * str * caps -> str * str * caps -> Prop :=
| step_Bol s cs : step Bol ([], s, cs) ([], s, cs)
| step_Eol pre s cs :
    at_eol s = true -> step Eol (pre, s, cs) (pre, s, cs)
| step_Set1 c a pre s cs :
    cls_match c a = true -> step (Set1 c) (pre, a :: s, cs) (a :: pre, s, cs)
| step_Plus c w pre s cs :
    w <> [] -> forallb (cls_match c) w = true ->
    step (Plus c) (pre, w ++ s, cs) (rev w ++ pre, s, cs)
| step_Opt_some r st st' : step r st st' -> step (Opt r) st st'
| step_Opt_none r st : step (Opt r) st st
| step_Cat r1 r2 st st1 st2 :
    step r1 st st1 -> step r2 st1 st2 -> step (Cat r1 r2) st st2
| step_Group i r pre s cs pre' s' cs' :
    step r (pre, s, cs) (pre', s', cs') ->
    step (Group i r) (pre, s, cs)
      (pre', s', (i, rev (firstn (length pre' - length pre) pre')) :: cs').

(** A head that is outside the class, or no head at all. *)
Definition stops (c : cls) (s : str) : Prop :=
  match s with [] => True | a :: _ => cls_match c a = false end.

End Re.
Import Re.

(* ================================================================= *)
(** ** Python floats as binary64 values *)

Module PyFloat.

Definition prec : Z := 53.
Definition emax : Z := 1024.

Definition float := spec_float.

(** [float(z)] for an integer [z] within the float range. *)
Definition of_Z (z : Z) : float := binary_normalize prec emax z 0 false.

(** The binary64 value nearest to [n / 10^k] (ties to even), for [n >= 0]:
    what the correctly rounded [float()] gives for a decimal literal with
    digits [n] and [k] fractional digits. *)
Definition of_decimal (n : Z) (k : nat) : float :=
  match n with
  | Z0 => S754_zero false
  | Zpos _ =>
      let '(q, e, l) :=
        SFdiv_core_binary prec emax n 0 (10 ^ Z.of_nat k) 0 in
      binary_round_aux prec emax false q e l
  | Zneg _ => S754_nan
  end.

(** [x <= y] and [x < y] on floats. *)
Definition leb (x y : float) : bool := SFleb x y.
Definition ltb (x y : float) : bool := SFltb x y.

Definition digit_value (c : ascii) : Z := Z.of_N (code c) - 48.

(** The number a run of decimal digits denotes. *)
Definition digits_value (ds : str) : Z :=
  fold_left (fun acc c => 10 * acc + digit_value c) ds 0.

(** [float(s)] for [s] a plain decimal literal: digits, optionally a dot
    and more digits, at least one digit in all.  [None] stands for
    [ValueError].  Signs, exponents, [inf]/[nan], underscores and
    surrounding blanks, which [float] also reads, are outside this
    definition: the parser never passes them (see
    [Parser.amount_always_read] below). *)
Definition py_float (s : str) : option float :=
  let ip := takewhile isdecimal s in
  let rest := dropwhile isdecimal s in
  match rest with
  | [] =>
      match ip with
      | [] => None
      | _ => Some (of_decimal (digits_value ip) 0)
      end
  | c :: fp =>
      if Ascii.eqb c "."%char && forallb isdecimal fp
         && negb (Nat.eqb (length ip + length fp) 0)
      then Some (of_decimal (digits_value (ip ++ fp)) (length fp))
      else None
  end.

End PyFloat.
Import PyFloat.

(* ================================================================= *)
(** ** src/bot/utils.py *)

Module Utils.

(** [\d+(?:[.,]\d+)?] *)
Definition number : regex :=
  Cat (Plus Digit)
      (Opt (Cat (Set1 (OneOf ["."%char; ","%char])) (Plus Digit))).

(** [r'^(\d+(?:[.,]\d+)?)\s+(.+)$'] *)
Definition pattern : regex :=
  Cat Bol
    (Cat (Group 1 number)
         (Cat (Plus Space)
              (Cat (Group 2 (Plus Dot)) Eol))).

Definition msg_empty : str := lit "‚ùå Message is empty.".
Definition msg_format : str :=
  lit "‚ùå Invalid format. Please use: `amount category` (e.g., `6.60 food`)".
Definition msg_amount : str :=
  lit "‚ùå Invalid amount. Please enter a valid number.".
Definition msg_nonpositive : str := lit "‚ùå Amount must be greater than 0.".
Definition msg_too_high : str :=
  lit "‚ùå Amount seems too high. Please check and try again.".
Definition msg_no_description : str :=
  lit "‚ùå Please provide a description for your expense.".
Definition msg_too_long : str :=
  lit "‚ùå Description is too long. Please keep it under 100 characters.".
(** The message of the outer [except Exception as e] handler. *)
Definition msg_exception (e : str) : str :=
  lit "‚ùå Error parsing message: " ++ e.

Definition is_empty (s : str) : bool :=
  match s with [] => true | _ => false end.

(** [parse_expense_message(message)]: the triple
    [(amount, category, error_message)], [None] for Python's [None]. *)
Definition parse_expense_message (message : str)
  : option float * option str * str :=
  let message := strip message in
  if is_empty message then (None, None, msg_empty) else
  match re_match pattern message with
  | None => (None, None, msg_format)
  | Some m =>
      match group 1 m, group 2 m with
      | Some amount_str, Some category =>
          let amount_str := replace ","%char "."%char amount_str in
          match py_float amount_str with
          | None => (None, None, msg_amount)
          | Some amount =>
              if leb amount (of_Z 0) then (None, None, msg_nonpositive)
              else if ltb (of_Z 1000000) amount then (None, None, msg_too_high)
              else
                let category := strip category in
                if is_empty category then (None, None, msg_no_description)
                else if Nat.ltb 100 (length category)
                     then (None, None, msg_too_long)
                     else (Some amount, Some category, [])
          end
      | _, _ =>
          (* a group that took no part in the match is [None]; calling a
             [str] method on it raises, which the outer handler reports *)
          (None, None,
           msg_exception (lit "'NoneType' object has no attribute 'replace'"))
      end
  end.

End Utils.
Import Utils.

(* ================================================================= *)
(** ** Python values, exceptions and the effect monad *)

Module Py.

(** The dynamically typed values that travel through the JSON bodies. *)
#[warnings="-register-all"]
Inductive pyval :=
| PNone
| PBool (b : bool)
| PInt (z : Z)
| PFloat (f : float)
| PStr (s : str)
| PList (l : list pyval)
| PDict (d : list (str * pyval)).

Fixpoint str_eqb (a b : str) : bool :=
  match a, b with
  | [], [] => true
  | x :: a', y :: b' => Ascii.eqb x y && str_eqb a' b'
  | _, _ => false
  end.

(** The classes of exception the code tells apart, and the rest. *)
Inductive exn_class :=
| RequestException   (* requests.exceptions.RequestException and subclasses *)
| ValueError
| JSONDecodeError    (* json.JSONDecodeError, a ValueError *)
| TypeError
| AttributeError
| KeyError
| OverflowError
| OtherError.        (* any other subclass of Exception *)

(** An exception object: its class and [str(e)]. *)
Record exn := mk_exn { exn_class_of : exn_class; exn_str : str }.

Definition is_request_exception (e : exn) : bool :=
  match exn_class_of e with RequestException => true | _ => false end.

(** The outcome of evaluating an expression: a value or a raised
    exception. *)
Inductive res (A : Type) :=
| Ok (a : A)
| Raise (e : exn).
Arguments Ok {A} a.
Arguments Raise {A} e.

(** Association-list dictionaries: the first binding of a key counts. *)
Fixpoint dict_lookup (d : list (str * pyval)) (k : str) : option pyval :=
  match d with
  | [] => None
  | (k', v) :: d' => if str_eqb k k' then Some v else dict_lookup d' k
  end.

Definition dict_remove (d : list (str * pyval)) (k : str) :=
  filter (fun kv => negb (str_eqb k (fst kv))) d.

(** [{**d1, **d2}]: the bindings of [d2] override those of [d1]. *)
Definition dict_merge (d1 d2 : list (str * pyval)) : list (str * pyval) :=
  fold_left (fun acc kv =>
               if existsb (fun kv' => str_eqb (fst kv) (fst kv')) acc
               then map (fun kv' => if str_eqb (fst kv) (fst kv')
                                    then (fst kv', snd kv) else kv') acc
               else acc ++ [kv]) d2 d1.

Definition type_name (v : pyval) : str :=
  lit match v with
      | PNone => "NoneType" | PBool _ => "bool" | PInt _ => "int"
      | PFloat _ => "float" | PStr _ => "str" | PList _ => "list"
      | PDict _ => "dict"
      end.

(** [v.get(k, default)]: only a dict has the method. *)
Definition py_get (v : pyval) (k : str) (default : pyval) : res pyval :=
  match v with
  | PDict d =>
      Ok match dict_lookup d k with Some x => x | None => default end
  | _ => Raise (mk_exn AttributeError
                  (lit "'" ++ type_name v
                   ++ lit "' object has no attribute 'get'"))
  end.

(** [v[k]] on a dict. *)
Definition py_item (v : pyval) (k : str) : res pyval :=
  match v with
  | PDict d =>
      match dict_lookup d k with
      | Some x => Ok x
      | None => Raise (mk_exn KeyError (lit "'" ++ k ++ lit "'"))
      end
  | _ => Raise (mk_exn TypeError
                  (lit "'" ++ type_name v ++ lit "' object is not subscriptable"))
  end.

Definition float_is_zero (f : float) : bool :=
  match f with S754_zero _ => true | _ => false end.

(** Truth value of a Python object, as [if v:] tests it. *)
Definition truthy (v : pyval) : bool :=
  match v with
  | PNone => false
  | PBool b => b
  | PInt z => negb (z =? 0)
  | PFloat f => negb (float_is_zero f)
  | PStr s => negb (is_empty s)
  | PList l => match l with [] => false | _ => true end
  | PDict d => match d with [] => false | _ => true end
  end.

(** [len(v)]. *)
Definition py_len (v : pyval) : res Z :=
  match v with
  | PStr s => Ok (Z.of_nat (length s))
  | PList l => Ok (Z.of_nat (length l))
  | PDict d => Ok (Z.of_nat (length d))
  | _ => Raise (mk_exn TypeError
                  (lit "object of type '" ++ type_name v ++ lit "' has no len()"))
  end.

(** The items [for x in v] visits. *)
Definition py_iter (v : pyval) : res (list pyval) :=
  match v with
  | PList l => Ok l
  | PStr s => Ok (map (fun c => PStr [c]) s)
  | PDict d => Ok (map (fun kv => PStr (fst kv)) d)
  | _ => Raise (mk_exn TypeError
                  (lit "'" ++ type_name v ++ lit "' object is not iterable"))
  end.

(** Decimal rendering of an integer, as [str(z)] and [f"{z}"] give it. *)
Definition str_of_Z (z : Z) : str :=
  lit (DecimalString.NilZero.string_of_int (Z.to_int z)).

(** [sep.join(v)]: every item must be a [str]; [i] is the index of the
    first item of [items]. *)
Fixpoint join_strs (sep : str) (i : Z) (items : list pyval) : res str :=
  match items with
  | [] => Ok []
  | PStr s :: rest =>
      match rest with
      | [] => Ok s
      | _ => match join_strs sep (i + 1) rest with
             | Ok t => Ok (s ++ sep ++ t)
             | Raise e => Raise e
             end
      end
  | v :: _ => Raise (mk_exn TypeError
                       (lit "sequence item " ++ str_of_Z i
                        ++ lit ": expected str instance, "
                        ++ type_name v ++ lit " found"))
  end.

Definition py_join (sep : str) (v : pyval) : res str :=
  match py_iter v with
  | Ok items => join_strs sep 0 items
  | Raise _ => Raise (mk_exn TypeError (lit "can only join an iterable"))
  end.

(** The integer part of a float, [None] for infinities and NaN. *)
Definition float_trunc (f : float) : option Z :=
  match f with
  | S754_zero _ => Some 0
  | S754_finite s m e =>
      let a := match e with
               | Z0 => Zpos m
               | Zpos p => Zpos m * 2 ^ Zpos p
               | Zneg p => Zpos m / 2 ^ Zpos p
               end in
      Some (if s then - a else a)
  | _ => None
  end.

End Py.
Import Py.

(* ================================================================= *)
(** ** The analyzer's data (src/bot/ai_analysis.py, dataclasses) *)

Module Data.

Record ExpenseCategory := mkCategory {
  name : pyval;
  total_amount : float;
  count : Z;
  descriptions : pyval;
  patterns : pyval
}.

Definition set_patterns (c : ExpenseCategory) (p : pyval) : ExpenseCategory :=
  mkCategory (name c) (total_amount c) (count c) (descriptions c) p.

Record AnalysisResult := mkResult {
  period : str;
  total_expenses : pyval;
  total_transactions : Z;
  categories : list ExpenseCategory;
  insights : pyval;
  recommendations : pyval;
  analysis_date : str
}.

(** A prompt, kept as the values its template is filled with: the text
    sent to the model is a function of these. *)
Inductive prompt :=
| CategorizationPrompt (lines : list (str * pyval))
    (* one "$amount - description" line per expense *)
| PatternAnalysisPrompt (cat_name : pyval) (total : str) (cnt : Z)
    (joined_descriptions : str)
| InsightsPrompt (total : str) (cnt : Z) (ncategories : nat)
    (breakdown : list (pyval * str * Z)).

(** What [requests.post] hands back. *)
Record response := mkResponse {
  status_code : Z;
  text : str;
  json : res pyval     (* the outcome of [response.json()] *)
}.

End Data.
Import Data.

(* ================================================================= *)
(** ** The outside world *)

(** Everything the code reaches outside the repository: the web hook
    behind [requests.post], the model behind [ollama.Client.chat], the
    JSON decoder, pandas, the clock and a few builtins whose text output
    the code only passes along.  [W] is the state of the world. *)
Class Externals (W : Type) := {
  requests_post : str -> pyval -> Z -> W -> res response * W;
    (* url, json payload, timeout *)
  ollama_chat : str -> prompt -> W -> res str * W;
    (* model name, prompt: response['message']['content'] *)
  json_loads : str -> pyval + str;
    (* [inr msg]: json.JSONDecodeError(msg) *)
  py_repr : pyval -> str;            (* str(v) for a v that is not a str *)
  format_2f : pyval -> res str;      (* format(v, ".2f") *)
  float_of_str : str -> option float;  (* float(s), None: ValueError *)
  int_of_str : str -> option Z;        (* int(s), None: ValueError *)
  float_sum : list float -> float;   (* sum() over a non-empty float list *)
  now : W -> str;                    (* datetime.now().strftime(...) *)
  frame : Type;                      (* pandas.DataFrame *)
  pd_DataFrame : pyval -> res frame;
  frame_columns : frame -> list str;
  frame_empty : frame -> bool;
  frame_column : frame -> str -> res (list pyval)  (* df[c].tolist() *)
}.

Module Eff.
Section Eff.
Context {W : Type} {ext : Externals W}.

(** The state threaded through the code: the world, and the prompts sent
    to the model so far (oldest first). *)
Record state := mkState { world : W; chat_log : list prompt }.

(** A computation: from a state to a value or a raised exception, and
    the state after. *)
Definition M (A : Type) : Type := state -> res A * state.

Definition ret {A} (a : A) : M A := fun st => (Ok a, st).
Definition raise {A} (e : exn) : M A := fun st => (Raise e, st).
Definition bind {A B} (m : M A) (k : A -> M B) : M B :=
  fun st => match m st with
            | (Ok a, st') => k a st'
            | (Raise e, st') => (Raise e, st')
            end.
Definition lift {A} (r : res A) : M A := fun st => (r, st).

(** [try: m  except Exception as e: h e]. *)
Definition try_except {A} (m : M A) (h : exn -> M A) : M A :=
  fun st => match m st with
            | (Ok a, st') => (Ok a, st')
            | (Raise e, st') => h e st'
            end.

(** [except Exception as e: logger.error(...); raise]. *)
Definition log_and_reraise {A} (m : M A) : M A :=
  try_except m (fun e => raise e).

Definition post (url : str) (payload : pyval) (timeout : Z) : M response :=
  fun st => let '(r, w) := requests_post url payload timeout (world st) in
            (r, mkState w (chat_log st)).

Definition chat (model : str) (p : prompt) : M str :=
  fun st => let '(r, w) := ollama_chat model p (world st) in
            (r, mkState w (chat_log st ++ [p])).

Definition clock : M str := fun st => (Ok (now (world st)), st).

End Eff.
End Eff.
Import Eff.

Declare Scope eff_scope.
Delimit Scope eff_scope with eff.
Notation "x <- m ;; k" := (bind m (fun x => k))
  (at level 61, m at next level, right associativity) : eff_scope.
Notation "' p <- m ;; k" := (bind m (fun x => let p := x in k))
  (at level 61, p pattern, m at next level, right associativity) : eff_scope.
Open Scope eff_scope.

(* ================================================================= *)
(** ** Builtins that need the externals *)

Module Builtins.
Section Builtins.
Context {W : Type} {ext : Externals W}.

(** [str(v)], also what an f-string field shows. *)
Definition py_str (v : pyval) : str :=
  match v with PStr s => s | _ => py_repr v end.

Definition is_infinity (f : float) : bool :=
  match f with S754_infinity _ => true | _ => false end.

(** [float(v)]. *)
Definition py_float_of (v : pyval) : res float :=
  match v with
  | PFloat f => Ok f
  | PInt z =>
      if is_infinity (of_Z z)
      then Raise (mk_exn OverflowError (lit "int too large to convert to float"))
      else Ok (of_Z z)
  | PBool b => Ok (of_Z (if b then 1 else 0))
  | PStr s =>
      match float_of_str s with
      | Some f => Ok f
      | None => Raise (mk_exn ValueError
                         (lit "could not convert string to float: "
                          ++ py_repr v))
      end
  | _ => Raise (mk_exn TypeError
                  (lit "float() argument must be a string or a real number, not '"
                   ++ type_name v ++ lit "'"))
  end.

(** [int(v)]. *)
Definition py_int_of (v : pyval) : res Z :=
  match v with
  | PInt z => Ok z
  | PBool b => Ok (if b then 1 else 0)
  | PFloat f =>
      match float_trunc f with
      | Some z => Ok z
      | None =>
          if is_infinity f
          then Raise (mk_exn OverflowError
                        (lit "cannot convert float infinity to integer"))
          else Raise (mk_exn ValueError
                        (lit "cannot convert float NaN to integer"))
      end
  | PStr s =>
      match int_of_str s with
      | Some z => Ok z
      | None => Raise (mk_exn ValueError
                         (lit "invalid literal for int() with base 10: "
                          ++ py_repr v))
      end
  | _ => Raise (mk_exn TypeError
                  (lit "int() argument must be a string, a bytes-like object or a real number, not '"
                   ++ type_name v ++ lit "'"))
  end.

(** [sum(x for ...)] over floats: the start value is the int 0, which is
    the result for no items. *)
Definition py_sum_floats (l : list float) : pyval :=
  match l with
  | [] => PInt 0
  | _ => PFloat (float_sum l)
  end.

(** [sum(n for ...)] over ints. *)
Definition py_sum_ints (l : list Z) : Z := fold_left Z.add l 0.

End Builtins.
End Builtins.
Import Builtins.

(* ================================================================= *)
(** ** src/sheets/client.py *)

Module Client.
Section Client.
Context {W : Type} {ext : Externals W}.

Record SimpleSheetsClient := mkClient {
  webapp_url : str;
  spreadsheet_id : str
}.

(** The dictionaries the client builds itself. *)
Definition failure_with_total (message : str) : pyval :=
  PDict [(lit "success", PBool false);
         (lit "message", PStr message);
         (lit "running_total", PInt 0)].

Definition failure (message : str) : pyval :=
  PDict [(lit "success", PBool false); (lit "message", PStr message)].

Definition request_failed_msg (e : exn) : str :=
  lit "Request failed: " ++ exn_str e.
Definition unexpected_error_msg (e : exn) : str :=
  lit "Unexpected error: " ++ exn_str e.
Definition http_error_msg (status : Z) : str :=
  lit "HTTP error " ++ str_of_Z status.
Definition apps_script_error_msg (err : pyval) : str :=
  lit "Apps Script error: " ++ py_str err.

(** The JSON payloads of the two requests. *)
Definition log_payload (amount : float) (category : str) : pyval :=
  PDict [(lit "amount", PFloat amount); (lit "category", PStr category)].

Definition call_payload (function_name : str) (params : list (str * pyval))
  : pyval :=
  PDict (dict_merge [(lit "action", PStr function_name)] params).

(** [SimpleSheetsClient.log_expense(amount, category)]. *)
Definition log_expense (self : SimpleSheetsClient)
    (amount : float) (category : str) : @M W pyval :=
  try_except
    (let payload := log_payload amount category in
     response <- post (webapp_url self) payload 10 ;;
     if status_code response =? 200 then
       result <- lift (json response) ;;
       ok <- lift (py_get result (lit "success") PNone) ;;
       if truthy ok then
         message <- lift (py_get result (lit "message")
                            (PStr (lit "Expense logged successfully"))) ;;
         total <- lift (py_get result (lit "runningTotal") (PInt 0)) ;;
         ret (PDict [(lit "success", PBool true);
                     (lit "message", message);
                     (lit "running_total", total)])
       else
         err <- lift (py_get result (lit "error")
                        (PStr (lit "Unknown error"))) ;;
         ret (failure_with_total (apps_script_error_msg err))
     else
       ret (failure_with_total (http_error_msg (status_code response))))
    (fun e =>
       if is_request_exception e
       then ret (failure_with_total (request_failed_msg e))
       else ret (failure_with_total (unexpected_error_msg e))).

(** [SimpleSheetsClient.call_apps_script_function(function_name, params)]. *)
Definition call_apps_script_function (self : SimpleSheetsClient)
    (function_name : str) (params : list (str * pyval)) : @M W pyval :=
  try_except
    (let payload := call_payload function_name params in
     response <- post (webapp_url self) payload 30 ;;
     if status_code response =? 200 then
       result <- lift (json response) ;;
       ok <- lift (py_get result (lit "success") PNone) ;;
       if truthy ok then ret result else ret result
     else
       ret (failure (http_error_msg (status_code response))))
    (fun e =>
       if is_request_exception e
       then ret (failure (request_failed_msg e))
       else ret (failure (unexpected_error_msg e))).

End Client.
End Client.
Import Client.

(* ================================================================= *)
(** ** src/sheets/operations.py *)

Module Operations.
Section Operations.
Context {W : Type} {ext : Externals W}.

Record SheetOperations := mkOps { client : SimpleSheetsClient }.

(** [SheetOperations.log_expense(amount, category)]: the triple
    [(success, message, running_total)]. *)
Definition log_expense (self : SheetOperations)
    (amount : float) (category : str) : @M W (bool * str * pyval) :=
  try_except
    (result <- Client.log_expense (client self) amount category ;;
     ok <- lift (py_item result (lit "success")) ;;
     if truthy ok then
       a <- lift (format_2f (PFloat amount)) ;;
       total <- lift (py_item result (lit "running_total")) ;;
       t <- lift (format_2f total) ;;
       let message :=
         lit "✅ Logged $" ++ a ++ lit " for " ++ category
         ++ lit ". Running total: $" ++ t in
       ret (true, message, total)
     else
       m <- lift (py_item result (lit "message")) ;;
       ret (false, lit "❌ Failed to log expense: " ++ py_str m,
            PFloat (of_Z 0)))
    (fun e =>
       ret (false, lit "❌ Error logging expense: " ++ exn_str e,
            PFloat (of_Z 0))).

(** [SheetOperations.get_expense_data_for_analysis(period)]: the triple
    [(success, message, expense_data)]. *)
Definition get_expense_data_for_analysis (self : SheetOperations)
    (period : str) : @M W (bool * pyval * pyval) :=
  try_except
    (result <- call_apps_script_function (client self)
                 (lit "getExpenseDataForAnalysis")
                 [(lit "period", PStr period)] ;;
     ok <- lift (py_get result (lit "success") PNone) ;;
     if truthy ok then
       expense_data <- lift (py_get result (lit "data") (PList [])) ;;
       n <- lift (py_len expense_data) ;;
       message <- lift (py_get result (lit "message")
                          (PStr (lit "Retrieved " ++ str_of_Z n
                                 ++ lit " expenses for " ++ period
                                 ++ lit " period"))) ;;
       ret (true, message, expense_data)
     else
       message <- lift (py_get result (lit "message")
                          (PStr (lit "Failed to get expense data"))) ;;
       ret (false, message, PList []))
    (fun e =>
       ret (false,
            PStr (lit "❌ Error getting expense data for analysis: "
                  ++ exn_str e),
            PList [])).

End Operations.
End Operations.
Import Operations.

(* ================================================================= *)
(** ** src/bot/ai_analysis.py *)

Module Analysis.
Section Analysis.
Context {W : Type} {ext : Externals W}.

Record MistralAnalyzer := mkAnalyzer {
  model_name : str;
  sheet_ops : SheetOperations
}.

Definition value_error (msg : str) : exn := mk_exn ValueError msg.

(** [for x in xs: ...] collecting results, stopping at the first raise. *)
Fixpoint map_res {A B} (f : A -> res B) (xs : list A) : res (list B) :=
  match xs with
  | [] => Ok []
  | x :: xs' =>
      match f x with
      | Raise e => Raise e
      | Ok y => match map_res f xs' with
                | Raise e => Raise e
                | Ok ys => Ok (y :: ys)
                end
      end
  end.

Definition flt (n : Z) (k : nat) : pyval := PFloat (of_decimal n k).
Definition strs (l : list string) : pyval := PList (map (fun s => PStr (lit s)) l).

(** [_create_sample_data(period)]. *)
Definition create_sample_data (period : str) : res frame :=
  pd_DataFrame
    (if str_eqb period (lit "monthly") then
       PDict [(lit "date",
               strs ["2024-01-15"; "2024-01-16"; "2024-01-17"; "2024-01-18";
                     "2024-01-19"]%string);
              (lit "amount",
               PList [flt 1250 2; flt 875 2; flt 1500 2; flt 2250 2; flt 999 2]);
              (lit "description",
               strs ["matcha latte"; "coffee"; "matcha latte"; "lunch";
                     "matcha latte"]%string);
              (lit "category",
               strs ["Food"; "Food"; "Food"; "Food"; "Food"]%string)]
     else
       PDict [(lit "date",
               strs ["2024-01-15"; "2024-02-20"; "2024-03-10"; "2024-04-05";
                     "2024-05-12"]%string);
              (lit "amount",
               PList [flt 1250 2; flt 4500 2; flt 875 2; flt 12000 2;
                      flt 1500 2]);
              (lit "description",
               strs ["matcha latte"; "gas"; "coffee"; "shopping";
                     "matcha latte"]%string);
              (lit "category",
               strs ["Food"; "Transportation"; "Food"; "Shopping";
                     "Food"]%string)]).

Definition has_column (df : frame) (c : str) : bool :=
  existsb (str_eqb c) (frame_columns df).

(** [_extract_expense_data(period)]. *)
Definition extract_expense_data (self : MistralAnalyzer) (period : str)
  : @M W frame :=
  log_and_reraise
    ('(success, message, expense_data) <-
        get_expense_data_for_analysis (sheet_ops self) period ;;
     if negb success then
       raise (value_error (lit "Failed to get expense data: "
                           ++ py_str message))
     else if negb (truthy expense_data) then
       lift (create_sample_data period)
     else
       df <- lift (pd_DataFrame expense_data) ;;
       if negb (has_column df (lit "amount"))
          || negb (has_column df (lit "description"))
       then lift (create_sample_data period)
       else ret df).

(** [_get_ai_response(prompt)]. *)
Definition get_ai_response (self : MistralAnalyzer) (p : prompt) : @M W str :=
  log_and_reraise (chat (model_name self) p).

(** [_create_categorization_prompt(descriptions, amounts)]. *)
Definition create_categorization_prompt (descs amounts : list pyval)
  : res prompt :=
  match map_res (fun ad => match format_2f (fst ad) with
                           | Ok a => Ok (a, snd ad)
                           | Raise e => Raise e
                           end) (combine amounts descs) with
  | Ok lines => Ok (CategorizationPrompt lines)
  | Raise e => Raise e
  end.

(** [_create_pattern_analysis_prompt(category)]. *)
Definition create_pattern_analysis_prompt (c : ExpenseCategory)
  : res prompt :=
  match format_2f (PFloat (total_amount c)) with
  | Raise e => Raise e
  | Ok total =>
      match py_join (lit ", ") (descriptions c) with
      | Raise e => Raise e
      | Ok joined => Ok (PatternAnalysisPrompt (name c) total (count c) joined)
      end
  end.

(** [_create_insights_prompt(categories, total_amount, total_count)]. *)
Definition create_insights_prompt (cats : list ExpenseCategory)
    (total : pyval) (total_count : Z) : res prompt :=
  match format_2f total with
  | Raise e => Raise e
  | Ok t =>
      match map_res (fun c => match format_2f (PFloat (total_amount c)) with
                              | Ok a => Ok (name c, a, count c)
                              | Raise e => Raise e
                              end) cats with
      | Raise e => Raise e
      | Ok lines => Ok (InsightsPrompt t total_count (length cats) lines)
      end
  end.

(** The slice [response[json_start:json_end]] the three parsers decode,
    or [None] when the guard [json_start == -1 or json_end == 0] holds. *)
Definition json_span (response : str) : option str :=
  let json_start := find "{"%char response in
  let json_end := rfind "}"%char response + 1 in
  if (json_start =? -1) || (json_end =? 0) then None
  else Some (slice response json_start json_end).

Definition loads (s : str) : res pyval :=
  match json_loads s with
  | inl v => Ok v
  | inr msg => Raise (mk_exn JSONDecodeError msg)
  end.

(** One iteration of the loop of [_parse_categorization_response]. *)
Definition category_of (cat_data : pyval) : res ExpenseCategory :=
  match py_get cat_data (lit "name") (PStr (lit "Unknown")) with
  | Raise e => Raise e
  | Ok n =>
  match py_get cat_data (lit "total_amount") (PInt 0) with
  | Raise e => Raise e
  | Ok ta =>
  match py_float_of ta with
  | Raise e => Raise e
  | Ok total =>
  match py_get cat_data (lit "count") (PInt 0) with
  | Raise e => Raise e
  | Ok cv =>
  match py_int_of cv with
  | Raise e => Raise e
  | Ok cnt =>
  match py_get cat_data (lit "descriptions") (PList []) with
  | Raise e => Raise e
  | Ok ds =>
  match py_get cat_data (lit "patterns") (PList []) with
  | Raise e => Raise e
  | Ok ps => Ok (mkCategory n total cnt ds ps)
  end end end end end end end.

(** [_parse_categorization_response(response)]. *)
Definition parse_categorization_response (response : str)
  : res (list ExpenseCategory) :=
  match json_span response with
  | None => Raise (value_error (lit "No JSON found in response"))
  | Some json_str =>
      match loads json_str with
      | Raise e => Raise e
      | Ok data =>
          match py_get data (lit "categories") (PList []) with
          | Raise e => Raise e
          | Ok cs =>
              match py_iter cs with
              | Raise e => Raise e
              | Ok items => map_res category_of items
              end
          end
      end
  end.

(** [_extract_patterns_from_response(response)]: every exception inside
    is caught and gives the empty list. *)
Definition extract_patterns_from_response (response : str) : pyval :=
  match json_span response with
  | None => PList []
  | Some json_str =>
      match loads json_str with
      | Raise _ => PList []
      | Ok data =>
          match py_get data (lit "patterns") (PList []) with
          | Raise _ => PList []
          | Ok ps => ps
          end
      end
  end.

(** [_parse_insights_response(response)]. *)
Definition parse_insights_response (response : str) : pyval * pyval :=
  match json_span response with
  | None => (PList [], PList [])
  | Some json_str =>
      match loads json_str with
      | Raise _ => (PList [], PList [])
      | Ok data =>
          match py_get data (lit "insights") (PList []) with
          | Raise _ => (PList [], PList [])
          | Ok ins =>
              match py_get data (lit "recommendations") (PList []) with
              | Raise _ => (PList [], PList [])
              | Ok recs => (ins, recs)
              end
          end
      end
  end.

(** [_categorize_expenses_flow(expenses_df)]. *)
Definition categorize_expenses_flow (self : MistralAnalyzer) (df : frame)
  : @M W (list ExpenseCategory) :=
  log_and_reraise
    (descs <- lift (frame_column df (lit "description")) ;;
     amounts <- lift (frame_column df (lit "amount")) ;;
     p <- lift (create_categorization_prompt descs amounts) ;;
     response <- get_ai_response self p ;;
     lift (parse_categorization_response response)).

(** The body of the loop of [_analyze_patterns_flow] for one category.
    The category object is updated in place; the list is the same list. *)
Definition analyze_patterns_one (self : MistralAnalyzer) (c : ExpenseCategory)
  : @M W ExpenseCategory :=
  if count c >? 1 then
    pattern_prompt <- lift (create_pattern_analysis_prompt c) ;;
    pattern_response <- get_ai_response self pattern_prompt ;;
    let patterns := extract_patterns_from_response pattern_response in
    ret (set_patterns c patterns)
  else ret c.

Fixpoint analyze_patterns_loop (self : MistralAnalyzer)
    (cats : list ExpenseCategory) : @M W (list ExpenseCategory) :=
  match cats with
  | [] => ret []
  | c :: rest =>
      c' <- analyze_patterns_one self c ;;
      rest' <- analyze_patterns_loop self rest ;;
      ret (c' :: rest')
  end.

(** [_analyze_patterns_flow(categories)]. *)
Definition analyze_patterns_flow (self : MistralAnalyzer)
    (cats : list ExpenseCategory) : @M W (list ExpenseCategory) :=
  log_and_reraise (analyze_patterns_loop self cats).

(** [_generate_insights_flow(categories, total_amount, total_count)]. *)
Definition generate_insights_flow (self : MistralAnalyzer)
    (cats : list ExpenseCategory) (total : pyval) (total_count : Z)
  : @M W (pyval * pyval) :=
  log_and_reraise
    (insights_prompt <- lift (create_insights_prompt cats total total_count) ;;
     insights_response <- get_ai_response self insights_prompt ;;
     ret (parse_insights_response insights_response)).

(** [analyze_expenses(period)]. *)
Definition analyze_expenses (self : MistralAnalyzer) (period : str)
  : @M W AnalysisResult :=
  log_and_reraise
    (expenses_df <- extract_expense_data self period ;;
     if frame_empty expenses_df then
       raise (value_error (lit "No expense data found for " ++ period
                           ++ lit " period"))
     else
       cats <- categorize_expenses_flow self expenses_df ;;
       cats <- analyze_patterns_flow self cats ;;
       let total := py_sum_floats (map total_amount cats) in
       let total_count := py_sum_ints (map count cats) in
       '(insights, recommendations) <-
          generate_insights_flow self cats total total_count ;;
       date <- clock ;;
       ret (mkResult period total total_count cats insights recommendations
              date)).

End Analysis.
End Analysis.
Import Analysis.

(* ================================================================= *)
(** ** The pattern-analysis stage, as the specification describes it *)

Module AnalysisSpec.
Section AnalysisSpec.
Context {W : Type} {ext : Externals W}.
Variable self : MistralAnalyzer.

(** The prompts of the categories with more than one transaction, in
    order: the model calls the stage is to make. *)
Definition pattern_prompts (cats : list ExpenseCategory) : list prompt :=
  flat_map (fun c =>
              if count c >? 1 then
                match create_pattern_analysis_prompt c with
                | Ok p => [p]
                | Raise _ => []
                end
              else []) cats.

(** A complete run of the stage: a category with at most one transaction
    passes through; one with more gets the patterns read from the model's
    reply to its own prompt, whatever the reply is. *)
Inductive patterns_run :
  list ExpenseCategory -> @state W -> list ExpenseCategory -> @state W
  -> Prop :=
| run_nil st : patterns_run [] st [] st
| run_skip c rest st rest' st' :
    count c <= 1 ->
    patterns_run rest st rest' st' ->
    patterns_run (c :: rest) st (c :: rest') st'
| run_call c rest st p reply st1 rest' st' :
    count c > 1 ->
    create_pattern_analysis_prompt c = Ok p ->
    chat (model_name self) p st = (Ok reply, st1) ->
    patterns_run rest st1 rest' st' ->
    patterns_run (c :: rest) st
      (set_patterns c (extract_patterns_from_response reply) :: rest') st'.

(** The result built from the categories that leave stage 2. *)
Definition result_of (period : str) (cats : list ExpenseCategory)
    (ins recs : pyval) (date : str) : AnalysisResult :=
  mkResult period (py_sum_floats (map total_amount cats))
    (py_sum_ints (map count cats)) cats ins recs date.

End AnalysisSpec.
End AnalysisSpec.
Import AnalysisSpec.

(* ================================================================= *)
(** ** Stage-1 response parsing, as the specification describes it *)

Module ResponseSpec.

(** Whether a text holds a brace pair: an opening brace with a closing
    brace somewhere after it. *)
Fixpoint has_brace_pair (s : str) : bool :=
  match s with
  | [] => false
  | c :: r =>
      (Ascii.eqb c "{"%char && existsb (Ascii.eqb "}"%char) r)
      || has_brace_pair r
  end.

(** A field of a decoded entry, with the value that stands for a missing
    one. *)
Definition field_or (d : list (str * pyval)) (k : str) (default : pyval)
  : pyval :=
  match dict_lookup d k with Some v => v | None => default end.

Section Entries.
Context {W : Type} {ext : Externals W}.

(** [entry_denotes entry c]: the decoded entry is an object and [c] is
    the category it describes, a missing field standing for
    name "Unknown", total_amount 0, count 0, descriptions [] and
    patterns []; the total is read as a float and the count as an int. *)
Definition entry_denotes (entry : pyval) (c : ExpenseCategory) : Prop :=
  exists d,
    entry = PDict d /\
    name c = field_or d (lit "name") (PStr (lit "Unknown")) /\
    py_float_of (field_or d (lit "total_amount") (PInt 0))
    = Ok (total_amount c) /\
    py_int_of (field_or d (lit "count") (PInt 0)) = Ok (count c) /\
    descriptions c = field_or d (lit "descriptions") (PList []) /\
    patterns c = field_or d (lit "patterns") (PList []).

End Entries.
End ResponseSpec.
Import ResponseSpec.

(* ================================================================= *)
(** ** The totals of a result, as the specification describes them *)

Module TotalsSpec.

(** The sum of the counts. *)
Definition sum_counts (l : list Z) : Z := fold_right Z.add 0 l.

(** Whether an int and a float are the same number: the float is finite
    and its value, [m * 2^e] with its sign, is the int. *)
Definition int_eq_float (x : Z) (f : float) : bool :=
  match f with
  | S754_zero _ => x =? 0
  | S754_finite s m e =>
      let v := if s then Z.neg m else Z.pos m in
      if 0 <=? e then x =? v * 2 ^ e else x * 2 ^ (- e) =? v
  | _ => false
  end.

(** [a == b] on two numbers; a NaN is equal to nothing, itself
    included. *)
Definition py_num_eq (a b : pyval) : option bool :=
  match a, b with
  | PInt x, PInt y => Some (x =? y)
  | PFloat x, PFloat y => Some (SFeqb x y)
  | PInt x, PFloat y => Some (int_eq_float x y)
  | PFloat x, PInt y => Some (int_eq_float y x)
  | _, _ => None
  end.

Definition is_nan_value (v : pyval) : bool :=
  match v with PFloat S754_nan => true | _ => false end.

Section Sums.
Context {W : Type} {ext : Externals W}.

(** The sum of the amounts, as [sum] gives it: the int 0 of the empty
    sum, the float sum otherwise. *)
Definition sum_amounts (l : list float) : pyval :=
  match l with
  | [] => PInt 0
  | _ :: _ => PFloat (float_sum l)
  end.

End Sums.
End TotalsSpec.
Import TotalsSpec.

(* ================================================================= *)
(** ** The parser's contract, in the words of the specification *)

Module ParserSpec.

(** The text [\d+([.,]\d+)?] describes. *)
Inductive amount_text : str -> Prop :=
| amount_int ds :
    ds <> [] -> forallb isdecimal ds = true -> amount_text ds
| amount_frac ds sep fs :
    ds <> [] -> forallb isdecimal ds = true ->
    sep = "."%char \/ sep = ","%char ->
    fs <> [] -> forallb isdecimal fs = true ->
    amount_text (ds ++ sep :: fs).

Definition not_newline (c : ascii) : bool := negb (Ascii.eqb c newline).

(** [expense_line s num text]: [s] matches [^\d+([.,]\d+)?\s+.+$] with
    [num] the numeric part and [text] the trailing text. *)
Inductive expense_line : str -> str -> str -> Prop :=
| expense_line_intro num ws text tl :
    amount_text num ->
    ws <> [] -> forallb isspace ws = true ->
    text <> [] -> forallb not_newline text = true ->
    tl = [] \/ tl = [newline] ->
    expense_line (num ++ ws ++ text ++ tl) num text.

(** The seven checks of the validation order. *)
Inductive check :=
| EmptyInput
| FormatError
| AmountError
| NonPositiveAmount
| AmountTooLarge
| MissingCategory
| CategoryTooLong.

Definition validation_order : list check :=
  [EmptyInput; FormatError; AmountError; NonPositiveAmount; AmountTooLarge;
   MissingCategory; CategoryTooLong].

Definition error_of (c : check) : str :=
  match c with
  | EmptyInput => msg_empty
  | FormatError => msg_format
  | AmountError => msg_amount
  | NonPositiveAmount => msg_nonpositive
  | AmountTooLarge => msg_too_high
  | MissingCategory => msg_no_description
  | CategoryTooLong => msg_too_long
  end.

(** The two captured texts of a trimmed message, when the regex matches. *)
Definition groups_of (t : str) : option (str * str) :=
  match re_match pattern t with
  | Some m =>
      match group 1 m, group 2 m with
      | Some a, Some c => Some (a, c)
      | _, _ => None
      end
  | None => None
  end.

(** The amount after separator normalization; the outer [None] is "no
    amount text", the inner one "not a number". *)
Definition amount_of (t : str) : option (option float) :=
  match groups_of t with
  | Some (a, _) => Some (py_float (replace ","%char "."%char a))
  | None => None
  end.

Definition category_of_line (t : str) : option str :=
  match groups_of t with
  | Some (_, c) => Some (strip c)
  | None => None
  end.

(** The configured ceiling. *)
Definition ceiling : float := of_Z 1000000.

(** Whether a check fails on a message, each check taken on its own. *)
Definition fails (m : str) (c : check) : bool :=
  let t := strip m in
  match c with
  | EmptyInput => is_empty t
  | FormatError =>
      match re_match pattern t with None => true | Some _ => false end
  | AmountError =>
      match amount_of t with Some None => true | _ => false end
  | NonPositiveAmount =>
      match amount_of t with Some (Some a) => leb a (of_Z 0) | _ => false end
  | AmountTooLarge =>
      match amount_of t with Some (Some a) => ltb ceiling a | _ => false end
  | MissingCategory =>
      match category_of_line t with Some c => is_empty c | None => false end
  | CategoryTooLong =>
      match category_of_line t with
      | Some c => Nat.ltb 100 (length c)
      | None => false
      end
  end.

(** The first failing check, in the validation order. *)
Definition first_failing (m : str) : option check :=
  List.find (fails m) validation_order.

(** The parser's success set. *)
Definition succeeds (m : str) : Prop :=
  exists a c, parse_expense_message m = (Some a, Some c, []).

(** The digit a decimal character stands for. *)
Definition digit_of (c : ascii) : Z :=
  match c with
  | "0" => 0 | "1" => 1 | "2" => 2 | "3" => 3 | "4" => 4
  | "5" => 5 | "6" => 6 | "7" => 7 | "8" => 8 | "9" => 9
  | _ => 0
  end%char.

(** The number a run of digits denotes, the most significant first. *)
Fixpoint positional (ds : str) : Z :=
  match ds with
  | [] => 0
  | d :: r => digit_of d * 10 ^ Z.of_nat (length r) + positional r
  end.

(** [numeric_part num n k]: the numeric part [num], its comma read as a
    decimal separator, denotes the number [n / 10^k]. *)
Inductive numeric_part : str -> Z -> nat -> Prop :=
| numeric_int ds :
    ds <> [] -> forallb isdecimal ds = true ->
    numeric_part ds (positional ds) 0
| numeric_frac ds sep fs :
    ds <> [] -> forallb isdecimal ds = true ->
    sep = "."%char \/ sep = ","%char ->
    fs <> [] -> forallb isdecimal fs = true ->
    numeric_part (ds ++ sep :: fs)
      (positional ds * 10 ^ Z.of_nat (length fs) + positional fs)
      (length fs).

(** The float nearest to [n / 10^k]: the value of the numeric part as a
    Python float. *)
Definition nearest_float (n : Z) (k : nat) : float := of_decimal n k.

End ParserSpec.
Import ParserSpec.

(* ================================================================= *)
(** ** Test doubles: a reference JSON decoder and scripted services *)

Module Doubles.

(** *** A decoder for JSON without [\u] escapes and exponents *)

Definition json_ws (c : ascii) : bool :=
  let n := code c in ((n =? 32) || (n =? 9) || (n =? 10) || (n =? 13))%N.

Definition skip_ws (s : str) : str := dropwhile json_ws s.

(** The characters of a string literal up to its closing quote. *)
Fixpoint read_string (s acc : str) : option (str * str) :=
  match s with
  | [] => None
  | c :: r =>
      if Ascii.eqb c dquote then Some (rev acc, r)
      else if Ascii.eqb c "\"%char then
        match r with
        | e :: r' =>
            let unescaped :=
              if Ascii.eqb e "n"%char then Some newline
              else if Ascii.eqb e "t"%char then Some (ascii_of_N 9)
              else if Ascii.eqb e "r"%char then Some (ascii_of_N 13)
              else if Ascii.eqb e "b"%char then Some (ascii_of_N 8)
              else if Ascii.eqb e "f"%char then Some (ascii_of_N 12)
              else if Ascii.eqb e dquote || Ascii.eqb e "\"%char
                      || Ascii.eqb e "/"%char then Some e
              else None in
            match unescaped with
            | Some u => read_string r' (u :: acc)
            | None => None
            end
        | [] => None
        end
      else if (code c <? 32)%N then None
      else read_string r (c :: acc)
  end.

Definition negate (neg : bool) (f : float) : float :=
  if neg then SFopp f else f.

(** A number: an int without a fraction, a float with one. *)
Definition read_number (s : str) : option (pyval * str) :=
  let '(neg, s1) :=
    match s with
    | c :: r => if Ascii.eqb c "-"%char then (true, r) else (false, s)
    | [] => (false, s)
    end in
  let ip := takewhile isdecimal s1 in
  let r1 := dropwhile isdecimal s1 in
  match ip with
  | [] => None
  | d :: ip' =>
      if Ascii.eqb d "0"%char && negb (is_empty ip') then None else
      match r1 with
      | c :: r2 =>
          if Ascii.eqb c "."%char then
            let fp := takewhile isdecimal r2 in
            match fp with
            | [] => None
            | _ =>
                Some (PFloat (negate neg (of_decimal (digits_value (ip ++ fp))
                                            (length fp))),
                      dropwhile isdecimal r2)
            end
          else if Ascii.eqb c "e"%char || Ascii.eqb c "E"%char then None
          else Some (PInt (if neg then - digits_value ip else digits_value ip),
                     r1)
      | [] => Some (PInt (if neg then - digits_value ip else digits_value ip),
                    r1)
      end
  end.

Fixpoint starts_with (p s : str) : option str :=
  match p, s with
  | [], _ => Some s
  | a :: p', b :: s' => if Ascii.eqb a b then starts_with p' s' else None
  | _ :: _, [] => None
  end.

(** What the decoder is in the middle of. *)
Inductive mode :=
| MValue
| MMembers (acc : list (str * pyval))
| MElements (acc : list pyval).

Fixpoint decode (fuel : nat) (m : mode) (s : str) : option (pyval * str) :=
  match fuel with
  | O => None
  | S fuel' =>
      match m with
      | MValue =>
          match skip_ws s with
          | [] => None
          | c :: r =>
              if Ascii.eqb c "{"%char then
                match skip_ws r with
                | c' :: r' =>
                    if Ascii.eqb c' "}"%char then Some (PDict [], r')
                    else decode fuel' (MMembers []) r
                | [] => None
                end
              else if Ascii.eqb c "["%char then
                match skip_ws r with
                | c' :: r' =>
                    if Ascii.eqb c' "]"%char then Some (PList [], r')
                    else decode fuel' (MElements []) r
                | [] => None
                end
              else if Ascii.eqb c dquote then
                match read_string r [] with
                | Some (t, r') => Some (PStr t, r')
                | None => None
                end
              else
                match starts_with (lit "true") (c :: r),
                      starts_with (lit "false") (c :: r),
                      starts_with (lit "null") (c :: r) with
                | Some r', _, _ => Some (PBool true, r')
                | _, Some r', _ => Some (PBool false, r')
                | _, _, Some r' => Some (PNone, r')
                | _, _, _ => read_number (c :: r)
                end
          end
      | MMembers acc =>
          match skip_ws s with
          | q :: r =>
              if Ascii.eqb q dquote then
                match read_string r [] with
                | Some (k, r1) =>
                    match skip_ws r1 with
                    | c :: r2 =>
                        if Ascii.eqb c ":"%char then
                          match decode fuel' MValue r2 with
                          | Some (v, r3) =>
                              let acc' := dict_merge acc [(k, v)] in
                              match skip_ws r3 with
                              | c' :: r4 =>
                                  if Ascii.eqb c' ","%char
                                  then decode fuel' (MMembers acc') r4
                                  else if Ascii.eqb c' "}"%char
                                       then Some (PDict acc', r4)
                                       else None
                              | [] => None
                              end
                          | None => None
                          end
                        else None
                    | [] => None
                    end
                | None => None
                end
              else None
          | [] => None
          end
      | MElements acc =>
          match decode fuel' MValue s with
          | Some (v, r1) =>
              match skip_ws r1 with
              | c :: r2 =>
                  if Ascii.eqb c ","%char
                  then decode fuel' (MElements (acc ++ [v])) r2
                  else if Ascii.eqb c "]"%char
                       then Some (PList (acc ++ [v]), r2)
                       else None
              | [] => None
              end
          | None => None
          end
      end
  end.

(** The reference decoder: the whole text must be one JSON value. *)
Definition ref_loads (s : str) : pyval + str :=
  match decode (2 * length s + 2) MValue s with
  | Some (v, r) =>
      match skip_ws r with
      | [] => inl v
      | _ => inr (lit "Extra data")
      end
  | None => inr (lit "Expecting value")
  end.

(** A text written with ['] where it has double quotes. *)
Definition quoted (s : string) : str :=
  map (fun c => if Ascii.eqb c "'"%char then dquote else c) (lit s).

(** The stage-1 response of the specification's example, and what its
    JSON part denotes. *)
Definition example_json : str :=
  quoted "{'categories':[{'name':'Food','total_amount':12.5,'count':1,'descriptions':['coffee'],'patterns':[]}]}".

Definition example_response : str :=
  lit "noise" ++ example_json ++ lit "tail".

Definition example_value : pyval :=
  PDict [(lit "categories",
          PList [PDict [(lit "name", PStr (lit "Food"));
                        (lit "total_amount", PFloat (of_decimal 125 1));
                        (lit "count", PInt 1);
                        (lit "descriptions", PList [PStr (lit "coffee")]);
                        (lit "patterns", PList [])]])].

(** *** [format(x, ".2f")] and the other builtins *)

Definition two_digits (n : Z) : str :=
  if n <? 10 then lit "0" ++ str_of_Z n else str_of_Z n.

(** The hundredths nearest to [m * 2^e], ties to even. *)
Definition hundredths (m : positive) (e : Z) : Z :=
  match e with
  | Z0 => Zpos m * 100
  | Zpos p => Zpos m * 100 * 2 ^ Zpos p
  | Zneg p =>
      let d := 2 ^ Zpos p in
      let q := (Zpos m * 100) / d in
      let r := (Zpos m * 100) mod d in
      match 2 * r ?= d with
      | Lt => q
      | Gt => q + 1
      | Eq => if Z.even q then q else q + 1
      end
  end.

Definition fixed2 (neg : bool) (h : Z) : str :=
  (if neg then lit "-" else []) ++ str_of_Z (h / 100) ++ lit "."
  ++ two_digits (h mod 100).

Definition ref_format_2f (v : pyval) : res str :=
  match v with
  | PFloat (S754_zero s) => Ok (fixed2 s 0)
  | PFloat (S754_finite s m e) => Ok (fixed2 s (hundredths m e))
  | PFloat (S754_infinity s) => Ok ((if s then lit "-" else []) ++ lit "inf")
  | PFloat S754_nan => Ok (lit "nan")
  | PInt z => Ok (fixed2 (z <? 0) (Z.abs z * 100))
  | PBool b => Ok (fixed2 false (if b then 100 else 0))
  | PStr _ =>
      Raise (mk_exn ValueError
               (lit "Unknown format code 'f' for object of type 'str'"))
  | _ => Raise (mk_exn TypeError
                  (lit "unsupported format string passed to "
                   ++ type_name v ++ lit ".__format__"))
  end.

Definition ref_repr (v : pyval) : str :=
  match v with
  | PNone => lit "None"
  | PBool b => lit (if b then "True" else "False")
  | PInt z => str_of_Z z
  | PStr s => lit "'" ++ s ++ lit "'"
  | PFloat _ => lit "<float>"
  | PList _ => lit "<list>"
  | PDict _ => lit "<dict>"
  end.

Definition ref_int_of_str (s : str) : option Z :=
  match s with
  | [] => None
  | _ => if forallb isdecimal s then Some (digits_value s) else None
  end.

(** Left-to-right addition, each sum rounded. *)
Definition ref_float_sum (l : list float) : float :=
  fold_left (SFadd prec emax) l (of_Z 0).

(** *** A table of columns standing in for a DataFrame *)

Definition table := list (str * list pyval).

Definition nan : pyval := PFloat S754_nan.

Definition ref_DataFrame (v : pyval) : res table :=
  match v with
  | PDict d =>
      map_res (fun kv => match py_iter (snd kv) with
                         | Ok items => Ok (fst kv, items)
                         | Raise e => Raise e
                         end) d
  | PList rows =>
      match rows with
      | PDict first :: _ =>
          Ok (map (fun kv =>
                     (fst kv,
                      map (fun row => match row with
                                      | PDict d =>
                                          match dict_lookup d (fst kv) with
                                          | Some x => x
                                          | None => nan
                                          end
                                      | _ => nan
                                      end) rows)) first)
      | _ => Raise (mk_exn ValueError (lit "DataFrame constructor not properly called!"))
      end
  | _ => Raise (mk_exn ValueError (lit "DataFrame constructor not properly called!"))
  end.

Definition table_column (t : table) (c : str) : res (list pyval) :=
  match List.find (fun kv => str_eqb c (fst kv)) t with
  | Some kv => Ok (snd kv)
  | None => Raise (mk_exn KeyError (lit "'" ++ c ++ lit "'"))
  end.

Definition table_empty (t : table) : bool :=
  forallb (fun kv => match snd kv with [] => true | _ => false end) t.

(** *** The services *)

(** Externals over any world, given the two services. *)
Definition doubles (W : Type)
    (post_ : str -> pyval -> Z -> W -> res response * W)
    (chat_ : str -> prompt -> W -> res str * W) : Externals W :=
  {| requests_post := post_;
     ollama_chat := chat_;
     json_loads := ref_loads;
     py_repr := ref_repr;
     format_2f := ref_format_2f;
     float_of_str := py_float;
     int_of_str := ref_int_of_str;
     float_sum := ref_float_sum;
     now := fun _ => lit "2024-01-20 10:00:00";
     frame := table;
     pd_DataFrame := ref_DataFrame;
     frame_columns := fun t => map fst t;
     frame_empty := table_empty;
     frame_column := table_column |}.

(** A scripted world: the replies the web hook and the model will give,
    in order. *)
Record script := mkScript {
  post_replies : list (res response);
  chat_replies : list (res str)
}.

Definition scripted_post (_ : str) (_ : pyval) (_ : Z) (w : script)
  : res response * script :=
  match post_replies w with
  | r :: rest => (r, mkScript rest (chat_replies w))
  | [] => (Raise (mk_exn RequestException (lit "connection refused")), w)
  end.

Definition scripted_chat (_ : str) (_ : prompt) (w : script)
  : res str * script :=
  match chat_replies w with
  | r :: rest => (r, mkScript (post_replies w) rest)
  | [] => (Raise (mk_exn OtherError (lit "model unavailable")), w)
  end.

Definition scripted : Externals script :=
  doubles scripted_post scripted_chat.

(** A 200 response with a JSON body. *)
Definition ok_response (body : pyval) : response :=
  mkResponse 200 [] (Ok body).

(** The mock backend of the round-trip property: its world is the running
    total; each logged amount is added and the new total echoed. *)
Definition echo_post (_ : str) (payload : pyval) (_ : Z) (total : float)
  : res response * float :=
  match py_get payload (lit "amount") PNone with
  | Ok (PFloat a) =>
      let total' := SFadd prec emax total a in
      (Ok (ok_response (PDict [(lit "success", PBool true);
                               (lit "runningTotal", PFloat total')])),
       total')
  | _ => (Ok (ok_response (PDict [(lit "success", PBool false);
                                  (lit "error", PStr (lit "Invalid amount"))])),
          total)
  end.

Definition echo_chat (_ : str) (_ : prompt) (total : float)
  : res str * float :=
  (Raise (mk_exn OtherError (lit "model unavailable")), total).

Definition echo_backend : Externals float := doubles echo_post echo_chat.

(** Logging a list of amounts one after the other, collecting the
    running totals returned. *)
Fixpoint log_each {W : Type} {ext : Externals W} (self : SimpleSheetsClient)
    (amounts : list float) (category : str) : @M W (list pyval) :=
  match amounts with
  | [] => ret []
  | a :: rest =>
      r <- Client.log_expense self a category ;;
      t <- lift (py_item r (lit "running_total")) ;;
      ts <- log_each self rest category ;;
      ret (t :: ts)
  end.

(** The totals a ledger starting at [total] shows after each amount. *)
Fixpoint running_sums (total : float) (amounts : list float) : list float :=
  match amounts with
  | [] => []
  | a :: rest =>
      let t := SFadd prec emax total a in t :: running_sums t rest
  end.

(** A world in which the web hook has one reply to give. *)
Definition one_reply (r : res response) : @state script :=
  mkState (mkScript [r] []) [].

(** A reply of the model, written with ['] for the double quote. *)
Definition reply (s : string) : res str := Ok (quoted s).

Definition category (n : string) (cents cnt : Z) (ps : list string)
  : ExpenseCategory :=
  mkCategory (PStr (lit n)) (of_decimal cents 2) cnt
    (PList [PStr (lit "item")]) (PList (map (fun p => PStr (lit p)) ps)).

(** Three categories with several transactions each, and a model whose
    second reply is no JSON. *)
Definition three_categories : list ExpenseCategory :=
  [category "Food" 4000 3 []; category "Transport" 4500 2 [];
   category "Shopping" 12000 4 []].

Definition one_bad_reply : @state script :=
  mkState (mkScript []
             [reply "{'patterns':['coffee daily']}";
              Ok (lit "Sorry, I cannot answer that.");
              reply "Sure: {'patterns':['weekend trips']}"]) [].

(** A whole analysis: the ledger has no rows (the sample data is used),
    the model groups them into one category, finds a pattern, and then
    gives [insights_reply]. *)
Definition stage1_reply : res str :=
  reply "Here you go: {'categories':[{'name':'Food','total_amount':68.74,'count':5,'descriptions':['matcha latte','coffee','lunch'],'patterns':[]}]}".

Definition analysis_world (insights_reply : res str) : @state script :=
  mkState
    (mkScript
       [Ok (ok_response (PDict [(lit "success", PBool true);
                                (lit "data", PList [])]))]
       [stage1_reply; reply "{'patterns':['matcha 3 times']}";
        insights_reply]) [].

(** A stage-1 reply whose single-transaction category comes with a
    pattern. *)
Definition eager_reply : str :=
  quoted "{'categories':[{'name':'Rent','total_amount':900,'count':1,'descriptions':['rent'],'patterns':['monthly']}]}".


(** A stage-1 reply with two single-transaction categories whose totals
    are beyond the largest float, one positive and one negative. *)
Definition huge : str := "1"%char :: repeat "0"%char 400 ++ lit ".0".

Definition opposite_reply : res str :=
  Ok (quoted "{'categories':[{'name':'In','total_amount':" ++ huge
      ++ quoted ",'count':1},{'name':'Out','total_amount':-" ++ huge
      ++ quoted ",'count':1}]}").

Definition opposite_world : @state script :=
  mkState
    (mkScript
       [Ok (ok_response (PDict [(lit "success", PBool true);
                                (lit "data", PList [])]))]
       [opposite_reply; reply "{'insights':[],'recommendations':[]}"]) [].

Definition quiet_world : @state script := mkState (mkScript [] []) [].

Definition the_client : SimpleSheetsClient :=
  mkClient (lit "https://script.example/exec") (lit "sheet-1").
Definition the_ops : SheetOperations := mkOps the_client.
Definition the_analyzer : MistralAnalyzer := mkAnalyzer (lit "mistral") the_ops.

End Doubles.
Import Doubles.

(* ================================================================= *)
(** ** More of Python's [str] and [re] *)

Module PyText.

(** [str.lower] on one character, for code points below 256: the ASCII
    capitals and the Latin-1 capitals U+00C0..U+00DE other than U+00D7
    move up by 32. *)
Definition lower_char (c : ascii) : ascii :=
  let n := code c in
  if ((65 <=? n) && (n <=? 90)
      || (192 <=? n) && (n <=? 222) && negb (n =? 215))%N
  then ascii_of_N (n + 32) else c.

Definition lower (s : str) : str := map lower_char s.

(** [s.startswith(p)]. *)
Fixpoint startswith (p s : str) : bool :=
  match p, s with
  | [], _ => true
  | a :: p', b :: s' => Ascii.eqb a b && startswith p' s'
  | _ :: _, [] => false
  end.

(** [s.split(sep, 1)] for a one-character separator: the text before the
    first [sep] and, when there is one, the text after it. *)
Fixpoint split_once (sep : ascii) (s : str) : list str :=
  match s with
  | [] => [[]]
  | a :: s' =>
      if Ascii.eqb a sep then [[]; s']
      else match split_once sep s' with
           | p :: rest => (a :: p) :: rest
           | [] => [[a]]
           end
  end.

(** [s.replace(a, r)] for a one-character [a] and any [r]. *)
Definition replace_with (a : ascii) (r : str) (s : str) : str :=
  flat_map (fun c => if Ascii.eqb c a then r else [c]) s.

(** [sep.join(l)] for a list of [str]. *)
Fixpoint join (sep : str) (l : list str) : str :=
  match l with
  | [] => []
  | [s] => s
  | s :: rest => s ++ sep ++ join sep rest
  end.

(** [re.sub(c+, repl, s)] for a class [c]: every maximal run of the
    class is replaced by [repl].  [in_run] tells that the character
    before belongs to a run already replaced. *)
Fixpoint sub_runs (c : cls) (repl : str) (in_run : bool) (s : str) : str :=
  match s with
  | [] => []
  | a :: s' =>
      if cls_match c a
      then (if in_run then [] else repl) ++ sub_runs c repl true s'
      else a :: sub_runs c repl false s'
  end.

Definition re_sub_plus (c : cls) (repl : str) (s : str) : str :=
  sub_runs c repl false s.

(** A literal pattern at the head of [s], under [re.IGNORECASE]: a
    character of the text matches a character of the pattern when their
    lower-case forms agree. *)
Fixpoint match_ignorecase (p s : str) : bool :=
  match p, s with
  | [], _ => true
  | a :: p', b :: s' =>
      Ascii.eqb (lower_char b) (lower_char a) && match_ignorecase p' s'
  | _ :: _, [] => false
  end.

(** [re.search(p, s, re.IGNORECASE)] for a pattern of literal characters,
    as a truth value. *)
Fixpoint search_ignorecase (p s : str) : bool :=
  match_ignorecase p s
  || match s with
     | [] => false
     | _ :: s' => search_ignorecase p s'
     end.

End PyText.
Import PyText.

(* ================================================================= *)
(** ** src/bot/utils.py: validators, sanitizer and commands *)

Module Inputs.

Definition msg_not_number : str := lit "‚ùå Amount must be a number.".
Definition msg_places : str :=
  lit "‚ùå Amount can have maximum 2 decimal places.".
Definition msg_not_text : str := lit "‚ùå Category must be text.".
Definition msg_invalid_content : str :=
  lit "‚ùå Description contains invalid content.".

(** The part of [parse_expense_message] that follows
    [amount_str, category = match.groups()]. *)
Definition after_groups (amount_str category : str)
  : option float * option str * str :=
  let amount_str := replace ","%char "."%char amount_str in
  match py_float amount_str with
  | None => (None, None, msg_amount)
  | Some amount =>
      if leb amount (of_Z 0) then (None, None, msg_nonpositive)
      else if ltb (of_Z 1000000) amount then (None, None, msg_too_high)
      else
        let category := strip category in
        if is_empty category then (None, None, msg_no_description)
        else if Nat.ltb 100 (length category)
             then (None, None, msg_too_long)
             else (Some amount, Some category, [])
  end.

(** [round(x, 2)] on a float: the exact value rounded to hundredths,
    ties to even, and read back as a float; infinities and NaN round to
    themselves. *)
Definition py_round2 (x : float) : float :=
  match x with
  | S754_finite s m e =>
      match hundredths m e with
      | Z0 => S754_zero s
      | h => negate s (of_decimal h 2)
      end
  | _ => x
  end.

(** The checks of [validate_amount] on an [int]; [round] leaves an
    [int] as it is. *)
Definition validate_int (z : Z) : bool * str :=
  if z <=? 0 then (false, msg_nonpositive)
  else if z >? 1000000 then (false, msg_too_high)
  else (true, []).

(** [validate_amount(amount)]. *)
Definition validate_amount (amount : pyval) : bool * str :=
  match amount with
  | PInt z => validate_int z
  | PBool b => validate_int (if b then 1 else 0)
  | PFloat x =>
      if leb x (of_Z 0) then (false, msg_nonpositive)
      else if ltb (of_Z 1000000) x then (false, msg_too_high)
      else if negb (SFeqb (py_round2 x) x) then (false, msg_places)
      else (true, [])
  | _ => (false, msg_not_number)
  end.

Definition harmful_patterns : list str :=
  map lit ["<script"; "javascript:"; "data:"; "vbscript:"; "onload=";
           "onerror="; "onclick="; "<iframe"; "<object"; "<embed"]%string.

(** [validate_category(category)]. *)
Definition validate_category (category : pyval) : bool * str :=
  match category with
  | PStr category =>
      if is_empty category || is_empty (strip category)
      then (false, msg_no_description)
      else if Nat.ltb 100 (length (strip category))
      then (false, msg_too_long)
      else if existsb (fun p => search_ignorecase p category) harmful_patterns
      then (false, msg_invalid_content)
      else (true, [])
  | _ => (false, msg_not_text)
  end.

(** [sanitize_text(text)]. *)
Definition sanitize_text (text : str) : str :=
  if is_empty text then [] else
  let text := replace_with ">"%char (lit "&gt;")
                (replace_with "<"%char (lit "&lt;") text) in
  let text := replace_with dquote (lit "&quot;")
                (replace_with "&"%char (lit "&amp;") text) in
  let text := replace_with "'"%char (lit "&#39;") text in
  let text := re_sub_plus Space (lit " ") text in
  strip text.

(** [extract_command_args(message)]: the pair [(command, arguments)]. *)
Definition extract_command_args (message : str) : str * str :=
  let message := strip message in
  if negb (startswith (lit "/") message) then ([], message)
  else
    let parts := split_once " "%char message in
    let command := lower (nth 0 parts []) in
    let args := if Nat.ltb 1 (length parts) then nth 1 parts [] else [] in
    (command, args).

(** [is_command(message)]. *)
Definition is_command (message : str) : bool :=
  startswith (lit "/") (strip message).

(** [get_suggested_categories()]. *)
Definition get_suggested_categories : list str :=
  map lit ["food"; "coffee"; "groceries"; "gas"; "transport";
           "entertainment"; "shopping"; "utilities"; "rent"; "insurance";
           "health"; "other"]%string.

(** [format_category_suggestions()]. *)
Definition format_category_suggestions : str :=
  lit "üí° **Suggested categories:** " ++ join (lit ", ") get_suggested_categories.

End Inputs.
Import Inputs.

(* ================================================================= *)
(** ** src/sheets/operations.py: validation *)

Module Validation.

Definition msg_nonpositive : str := lit "❌ Amount must be greater than 0.".
Definition msg_too_high : str :=
  lit "❌ Amount seems too high. Please check and try again.".
Definition msg_no_description : str :=
  lit "❌ Please provide a description for your expense.".
Definition msg_too_long : str :=
  lit "❌ Description is too long. Please keep it under 100 characters.".

(** [SheetOperations.validate_expense_data(amount, category)]. *)
Definition validate_expense_data (amount : float) (category : str)
  : bool * str :=
  if leb amount (of_Z 0) then (false, msg_nonpositive)
  else if ltb (of_Z 1000000) amount then (false, msg_too_high)
  else if is_empty category || is_empty (strip category)
  then (false, msg_no_description)
  else if Nat.ltb 100 (length (strip category)) then (false, msg_too_long)
  else (true, []).

End Validation.

(* ================================================================= *)
(** ** What the sanitizer is to achieve *)

Module SanitizerSpec.

(** The characters that must not survive. *)
Definition special (c : ascii) : bool :=
  Ascii.eqb c "<"%char || Ascii.eqb c ">"%char || Ascii.eqb c dquote
  || Ascii.eqb c "'"%char.

(** What one character of the input becomes. *)
Definition escape (c : ascii) : str :=
  if Ascii.eqb c "<"%char then lit "&amp;lt;"
  else if Ascii.eqb c ">"%char then lit "&amp;gt;"
  else if Ascii.eqb c "&"%char then lit "&amp;"
  else if Ascii.eqb c dquote then lit "&quot;"
  else if Ascii.eqb c "'"%char then lit "&#39;"
  else [c].

(** Every blank is a single space with no blank next to it;
    [after_blank] tells that the character before is a blank. *)
Fixpoint single_spaced (after_blank : bool) (s : str) : bool :=
  match s with
  | [] => true
  | a :: r =>
      if isspace a
      then negb after_blank && Ascii.eqb a " "%char && single_spaced true r
      else single_spaced false r
  end.

End SanitizerSpec.
Import SanitizerSpec.

(* ================================================================= *)
(** ** src/sheets/operations.py: the other operations *)

Module Facade.
Section Facade.
Context {W : Type} {ext : Externals W}.

Definition nl : str := [newline].

(** [SheetOperations.get_current_total()]: the triple
    [(success, message, total)]. *)
Definition get_current_total (self : SheetOperations)
  : @M W (bool * str * float) :=
  try_except
    (let message :=
       lit "💰 Check your Google Sheet for the current running total. Each expense row shows the cumulative total." in
     ret (true, message, of_Z 0))
    (fun e => ret (false, lit "❌ Error getting total: " ++ exn_str e,
                   of_Z 0)).

(** The message of [get_monthly_stats] for a month it does not send to
    the web hook; [if month:] holds for a text that is not empty. *)
Definition local_stats_message (month : option str) : str :=
  match month with
  | Some (c :: m) =>
      lit "📊 **" ++ (c :: m) ++ lit " Statistics**" ++ nl ++ nl
      ++ lit "📋 **View your Google Sheet** for detailed statistics:" ++ nl
      ++ lit "• Total expenses and amounts" ++ nl
      ++ lit "• Category breakdowns" ++ nl
      ++ lit "• Monthly trends" ++ nl
      ++ lit "• Running totals" ++ nl ++ nl
      ++ lit "💡 **Tip**: Use Google Sheets' built-in features like:" ++ nl
      ++ lit "• SUM() functions for totals" ++ nl
      ++ lit "• Pivot tables for analysis" ++ nl
      ++ lit "• Charts for visualization"
  | _ =>
      lit "📊 **All Time Statistics**" ++ nl ++ nl
      ++ lit "📋 **View your Google Sheet** for complete statistics:" ++ nl
      ++ lit "• All expenses with dates and times" ++ nl
      ++ lit "• Running totals for each entry" ++ nl
      ++ lit "• Category breakdowns" ++ nl
      ++ lit "• Spending patterns over time" ++ nl ++ nl
      ++ lit "💡 **Tip**: The Apps Script automatically:" ++ nl
      ++ lit "• Calculates running totals" ++ nl
      ++ lit "• Formats amounts as currency" ++ nl
      ++ lit "• Organizes data chronologically"
  end.

(** An optional text as a Python value. *)
Definition opt_str (s : option str) : pyval :=
  match s with Some t => PStr t | None => PNone end.

(** [month == s]. *)
Definition month_is (month : option str) (s : str) : bool :=
  match month with Some m => str_eqb m s | None => false end.

(** The statistics of a period, asked from the web hook. *)
Definition remote_stats (self : SheetOperations) (period : str)
  : @M W (bool * pyval * pyval) :=
  result <- call_apps_script_function (client self)
              (lit "getMonthlyStats") [(lit "month", PStr period)] ;;
  ok <- lift (py_get result (lit "success") PNone) ;;
  if truthy ok then
    message <- lift (py_get result (lit "message")
                       (PStr (lit "Statistics retrieved successfully"))) ;;
    stats <- lift (py_get result (lit "stats") (PDict [])) ;;
    ret (true, message, stats)
  else
    message <- lift (py_get result (lit "message")
                       (PStr (lit "Failed to get statistics"))) ;;
    ret (false, message, PDict []).

(** The [try] block of [get_monthly_stats]. *)
Definition monthly_stats_body (self : SheetOperations) (month : option str)
  : @M W (bool * pyval * pyval) :=
  if month_is month (lit "current") then remote_stats self (lit "current")
  else if month_is month (lit "annual") then remote_stats self (lit "annual")
  else
    let message := local_stats_message month in
    let stats :=
      PDict [(lit "month", opt_str month);
             (lit "message", PStr message);
             (lit "note",
              PStr (lit "Statistics are available in the Google Sheet"))] in
    ret (true, PStr message, stats).

(** [SheetOperations.get_monthly_stats(month)]: the triple
    [(success, message, stats)]. *)
Definition get_monthly_stats (self : SheetOperations) (month : option str)
  : @M W (bool * pyval * pyval) :=
  try_except (monthly_stats_body self month)
    (fun e => ret (false,
                   PStr (lit "❌ Error getting statistics: " ++ exn_str e),
                   PDict [])).

(** [SheetOperations.get_recent_expenses(limit)]: the triple
    [(success, message, expenses)]. *)
Definition get_recent_expenses (self : SheetOperations) (limit : Z)
  : @M W (bool * str * pyval) :=
  try_except
    (let message :=
       lit "📝 **Recent Expenses**" ++ nl ++ nl
       ++ lit "📋 **Check your Google Sheet** for the last "
       ++ str_of_Z limit ++ lit " expenses." ++ nl
       ++ lit "The most recent expenses appear at the bottom of the sheet."
       ++ nl ++ nl
       ++ lit "💡 **Features in your sheet**:" ++ nl
       ++ lit "• Automatic date and time stamps" ++ nl
       ++ lit "• Running totals for each entry" ++ nl
       ++ lit "• Currency formatting" ++ nl
       ++ lit "• Professional header styling" ++ nl ++ nl
       ++ lit "🔗 **Access your sheet**:" ++ nl
       ++ lit "https://docs.google.com/spreadsheets/d/"
       ++ spreadsheet_id (client self) ++ lit "/edit" in
     ret (true, message, PList []))
    (fun e => ret (false,
                   lit "❌ Error getting recent expenses: " ++ exn_str e,
                   PList [])).

(** The [try] block of [log_ai_analysis]; the message of the result is
    read for the log line only. *)
Definition log_ai_analysis_body (self : SheetOperations)
    (analysis_data : pyval) : @M W bool :=
  result <- call_apps_script_function (client self)
              (lit "logAIAnalysis") [(lit "analysisData", analysis_data)] ;;
  ok <- lift (py_get result (lit "success") PNone) ;;
  if truthy ok then
    _ <- lift (py_get result (lit "message") PNone) ;;
    ret true
  else
    _ <- lift (py_get result (lit "message") PNone) ;;
    ret false.

(** [SheetOperations.log_ai_analysis(analysis_data)]. *)
Definition log_ai_analysis (self : SheetOperations) (analysis_data : pyval)
  : @M W bool :=
  try_except (log_ai_analysis_body self analysis_data) (fun e => ret false).

End Facade.
End Facade.
Import Facade.

(* ================================================================= *)
(** ** The channels of the bot: the probe and the chat *)

(** What the handlers reach besides the web hook's POST: the GET that
    probes the web hook, and the reply to the chat the update came from
    ([update.message.reply_text]). *)
Class Channel (W : Type) := {
  requests_get : str -> Z -> W -> res response * W;   (* url, timeout *)
  reply_text : str -> W -> res unit * W
}.

Module Probe.
Section Probe.
Context {W : Type} {ext : Externals W} {chan : Channel W}.

Definition get (url : str) (timeout : Z) : @M W response :=
  fun st => let '(r, w) := requests_get url timeout (world st) in
            (r, mkState w (chat_log st)).

(** [SimpleSheetsClient.test_connection()]. *)
Definition test_connection (self : SimpleSheetsClient) : @M W bool :=
  try_except
    (response <- get (webapp_url self) 10 ;;
     if status_code response =? 200 then ret true else ret false)
    (fun e => ret false).

(** [SimpleSheetsClient.is_connected()]. *)
Definition client_is_connected (self : SimpleSheetsClient) : @M W bool :=
  test_connection self.

(** [SimpleSheetsClient.get_spreadsheet_info()]. *)
Definition get_spreadsheet_info (self : SimpleSheetsClient) : @M W pyval :=
  connected <- client_is_connected self ;;
  ret (PDict [(lit "spreadsheet_id", PStr (spreadsheet_id self));
              (lit "webapp_url", PStr (webapp_url self));
              (lit "connection_status",
               PStr (if connected then lit "connected"
                     else lit "disconnected"))]).

(** [SheetOperations.is_connected()]. *)
Definition is_connected (self : SheetOperations) : @M W bool :=
  client_is_connected (client self).

(** [SheetOperations.get_connection_info()]. *)
Definition get_connection_info (self : SheetOperations) : @M W pyval :=
  get_spreadsheet_info (client self).

End Probe.
End Probe.

(* ================================================================= *)
(** ** src/bot/handlers.py: the message handler *)

Module Handlers.
Section Handlers.
Context {W : Type} {ext : Externals W} {chan : Channel W}.

Record BotHandlers := mkHandlers {
  sheet_ops : SheetOperations;
  ai_analyzer : option MistralAnalyzer
}.

(** From src/config/settings.py. *)
Definition ERROR_INVALID_FORMAT : str :=
  lit "❌ Invalid format. Please use: `amount category` (e.g., `6.60 food`)".
Definition ERROR_SHEETS_API : str :=
  lit "❌ Error connecting to Google Sheets. Please try again later.".

Definition msg_processing : str :=
  lit "❌ Error processing your message. Please try again.".

(** [await update.message.reply_text(text)]. *)
Definition reply (text : str) : @M W unit :=
  fun st => let '(r, w) := reply_text text (world st) in
            (r, mkState w (chat_log st)).

(** [total > 0]. *)
Definition py_gt_zero (v : pyval) : res bool :=
  match v with
  | PInt z => Ok (0 <? z)
  | PBool b => Ok b
  | PFloat x => Ok (ltb (of_Z 0) x)
  | _ => Raise (mk_exn TypeError
                  (lit "'>' not supported between instances of '"
                   ++ type_name v ++ lit "' and 'int'"))
  end.

(** [handle_message(update, context)] for an update that carries a text
    message from a user: [text] is [update.message.text]. *)
Definition handle_message (self : BotHandlers) (text : str) : @M W unit :=
  try_except
    (let message_text := strip text in
     if is_command message_text then ret tt else
     connected <- Probe.is_connected (sheet_ops self) ;;
     if negb connected then reply ERROR_SHEETS_API else
     let '(amount, category, error_msg) :=
       parse_expense_message message_text in
     if negb (is_empty error_msg) then
       let suggestions := format_category_suggestions in
       reply (error_msg ++ [newline; newline] ++ suggestions)
     else
       match amount, category with
       | Some amount, Some category =>
           if float_is_zero amount || is_empty category
           then reply ERROR_INVALID_FORMAT
           else
             '(success, response_msg, total) <-
                Operations.log_expense (sheet_ops self) amount category ;;
             if success then
               _ <- reply response_msg ;;
               positive <- lift (py_gt_zero total) ;;
               if positive then reply format_category_suggestions
               else ret tt
             else reply response_msg
       | _, _ => reply ERROR_INVALID_FORMAT
       end)
    (fun e => reply msg_processing).

End Handlers.
End Handlers.

(* ================================================================= *)
(** ** A chat for the tests *)

Module ChatDouble.

(** A world with the scripted services, the answers the probe will get,
    and the replies sent to the chat so far (oldest first). *)
Record bot_world := mkBot {
  services : script;
  probes : list (res response);
  sent : list str
}.

Definition bot_post (url : str) (payload : pyval) (timeout : Z)
    (w : bot_world) : res response * bot_world :=
  let '(r, s) := scripted_post url payload timeout (services w) in
  (r, mkBot s (probes w) (sent w)).

Definition bot_chat (model : str) (p : prompt) (w : bot_world)
  : res str * bot_world :=
  let '(r, s) := scripted_chat model p (services w) in
  (r, mkBot s (probes w) (sent w)).

Definition bot_externals : Externals bot_world := doubles bot_post bot_chat.

Definition bot_get (_ : str) (_ : Z) (w : bot_world)
  : res response * bot_world :=
  match probes w with
  | r :: rest => (r, mkBot (services w) rest (sent w))
  | [] => (Raise (mk_exn RequestException (lit "connection refused")), w)
  end.

Definition bot_reply (text : str) (w : bot_world) : res unit * bot_world :=
  (Ok tt, mkBot (services w) (probes w) (sent w ++ [text])).

Definition bot_channel : Channel bot_world :=
  {| requests_get := bot_get; reply_text := bot_reply |}.

Definition the_handlers : Handlers.BotHandlers :=
  Handlers.mkHandlers the_ops None.

(** A world in which the probe succeeds once and the web hook has the
    given answers. *)
Definition online (posts : list (res response)) : @state bot_world :=
  mkState (mkBot (mkScript posts []) [Ok (mkResponse 200 [] (Ok PNone))] [])
    [].

End ChatDouble.

(* ================================================================= *)
(** * Properties *)

(** ** Strings *)

Module StrFacts.

Lemma takewhile_dropwhile (p : ascii -> bool) (s : str) :
  takewhile p s ++ dropwhile p s = s.
Proof.
  induction s as [|a s IH]; simpl; [reflexivity|].
  destruct (p a); simpl; [now rewrite IH | reflexivity].
Qed.

Lemma takewhile_all (p : ascii -> bool) (s : str) :
  forallb p (takewhile p s) = true.
Proof.
  induction s as [|a s IH]; simpl; [reflexivity|].
  destruct (p a) eqn:E; simpl; [now rewrite E | reflexivity].
Qed.

Lemma dropwhile_head (p : ascii -> bool) (s : str) a r :
  dropwhile p s = a :: r -> p a = false.
Proof.
  induction s as [|b s IH]; simpl; [discriminate|].
  destruct (p b) eqn:E; [exact IH|].
  intros H; injection H as -> _; exact E.
Qed.

Lemma dropwhile_app_all (p : ascii -> bool) (w r : str) :
  forallb p w = true -> dropwhile p (w ++ r) = dropwhile p r.
Proof.
  induction w as [|a w IH]; simpl; [reflexivity|].
  intros H; apply andb_prop in H as [-> H]; auto.
Qed.

Lemma takewhile_app_all (p : ascii -> bool) (w r : str) :
  forallb p w = true -> takewhile p (w ++ r) = w ++ takewhile p r.
Proof.
  induction w as [|a w IH]; simpl; [reflexivity|].
  intros H; apply andb_prop in H as [-> H]; now rewrite IH.
Qed.

Lemma dropwhile_stop (p : ascii -> bool) (a : ascii) (r : str) :
  p a = false -> dropwhile p (a :: r) = a :: r.
Proof. intros H; simpl; now rewrite H. Qed.

Lemma takewhile_stop (p : ascii -> bool) (a : ascii) (r : str) :
  p a = false -> takewhile p (a :: r) = [].
Proof. intros H; simpl; now rewrite H. Qed.

(** A trimmed string is empty or ends in a character that is no blank. *)
Lemma strip_last (s : str) :
  strip s = [] \/ exists p a, strip s = p ++ [a] /\ isspace a = false.
Proof.
  unfold strip, rstrip.
  destruct (dropwhile isspace (rev (lstrip s))) as [|a r] eqn:E.
  - now left.
  - right. exists (rev r), a. split; [reflexivity|].
    eapply dropwhile_head; eauto.
Qed.

(** Leading blanks do not change what [strip] gives. *)
Lemma strip_app_blank (w s : str) :
  forallb isspace w = true -> strip (w ++ s) = strip s.
Proof.
  intros H. unfold strip, lstrip. now rewrite dropwhile_app_all.
Qed.

Lemma strip_lstrip (s : str) : strip (lstrip s) = strip s.
Proof.
  rewrite <- (takewhile_dropwhile isspace s) at 2.
  rewrite strip_app_blank by apply takewhile_all. reflexivity.
Qed.

(** A string whose last character is no blank keeps it under [rstrip]. *)
Lemma rstrip_last (p : str) (a : ascii) :
  isspace a = false -> rstrip (p ++ [a]) = p ++ [a].
Proof.
  intros H. unfold rstrip. rewrite rev_app_distr. simpl. rewrite H.
  simpl. now rewrite rev_involutive.
Qed.

Lemma forallb_app_l (p : ascii -> bool) (u v : str) :
  forallb p (u ++ v) = true -> forallb p u = true.
Proof. rewrite forallb_app. intros H; now apply andb_prop in H. Qed.

Lemma forallb_app_r (p : ascii -> bool) (u v : str) :
  forallb p (u ++ v) = true -> forallb p v = true.
Proof. rewrite forallb_app. intros H; now apply andb_prop in H. Qed.

Lemma ends_with_snoc (s : str) :
  s <> [] -> exists p a, s = p ++ [a].
Proof.
  intros H. destruct (exists_last H) as (p & a & ->). now exists p, a.
Qed.

Lemma isspace_not_digit (a : ascii) :
  isspace a = true -> isdecimal a = false.
Proof.
  unfold isspace, isdecimal.
  destruct a as [[] [] [] [] [] [] [] []]; vm_compute; congruence.
Qed.

Lemma digit_not_sep (a : ascii) :
  isdecimal a = true -> a <> "."%char /\ a <> ","%char.
Proof.
  intros H; split; intros ->; vm_compute in H; discriminate.
Qed.

Lemma space_not_sep (a : ascii) :
  isspace a = true -> a <> "."%char /\ a <> ","%char.
Proof.
  intros H; split; intros ->; vm_compute in H; discriminate.
Qed.

End StrFacts.
Import StrFacts.

(** ** The matcher *)

Module ReFacts.

Lemma plus_loop_stop c k pre s cs :
  stops c s -> plus_loop c k pre s cs = None.
Proof.
  destruct s as [|a s]; simpl; [reflexivity|]. now intros ->.
Qed.

(** Greedy repetition: when the continuation accepts the longest run,
    that is the answer. *)
Lemma plus_loop_longest c k run : forall pre rest cs res,
  run <> [] -> forallb (cls_match c) run = true -> stops c rest ->
  k (rev run ++ pre) rest cs = Some res ->
  plus_loop c k pre (run ++ rest) cs = Some res.
Proof.
  induction run as [|a run IH]; intros pre rest cs res Hne Hall Hstop Hk;
    [congruence|].
  simpl in Hall. apply andb_prop in Hall as [Ha Hall].
  simpl. rewrite Ha.
  destruct run as [|b run].
  - simpl. rewrite plus_loop_stop by assumption. exact Hk.
  - rewrite (IH (a :: pre) rest cs res); try assumption; [reflexivity | discriminate |].
    simpl in Hk |- *. rewrite <- !app_assoc in Hk. simpl in Hk.
    rewrite <- app_assoc. exact Hk.
Qed.

(** Whatever the matcher returns came from the continuation, applied
    after some run of the class. *)
Lemma plus_loop_sound c k s : forall pre cs res,
  plus_loop c k pre s cs = Some res ->
  exists w s', s = w ++ s' /\ w <> [] /\ forallb (cls_match c) w = true
               /\ k (rev w ++ pre) s' cs = Some res.
Proof.
  induction s as [|a s IH]; intros pre cs res H; simpl in H; [discriminate|].
  destruct (cls_match c a) eqn:Ha; [|discriminate].
  destruct (plus_loop c k (a :: pre) s cs) as [r|] eqn:E.
  - injection H as ->.
    destruct (IH _ _ _ E) as (w & s' & -> & Hne & Hall & Hk).
    exists (a :: w), s'. repeat split.
    + discriminate.
    + simpl. now rewrite Ha.
    + simpl. rewrite <- app_assoc. exact Hk.
  - exists [a], s. repeat split; [discriminate | simpl; now rewrite Ha | exact H].
Qed.

(** Soundness of the matcher for the relation [step]. *)
Lemma rmatch_sound r : forall k pre s cs res,
  rmatch r k pre s cs = Some res ->
  exists pre' s' cs',
    step r (pre, s, cs) (pre', s', cs') /\ k pre' s' cs' = Some res.
Proof.
  induction r as [| |c|c|r IH|r1 IH1 r2 IH2|i r IH];
    intros k pre s cs res H; simpl in H.
  - destruct pre; [|discriminate].
    exists [], s, cs. split; [constructor | exact H].
  - destruct (at_eol s) eqn:E; [|discriminate].
    exists pre, s, cs. split; [now constructor | exact H].
  - destruct s as [|a s]; [discriminate|].
    destruct (cls_match c a) eqn:E; [|discriminate].
    exists (a :: pre), s, cs. split; [now constructor | exact H].
  - destruct (plus_loop_sound _ _ _ _ _ H) as (w & s' & -> & Hne & Hall & Hk).
    exists (rev w ++ pre), s', cs. split; [now constructor | exact Hk].
  - destruct (rmatch r k pre s cs) as [x|] eqn:E.
    + injection H as ->.
      destruct (IH _ _ _ _ _ E) as (pre' & s' & cs' & Hs & Hk).
      exists pre', s', cs'. split; [now apply step_Opt_some | exact Hk].
    + exists pre, s, cs. split; [apply step_Opt_none | exact H].
  - destruct (IH1 _ _ _ _ _ H) as (p1 & s1 & c1 & Hs1 & Hk1).
    destruct (IH2 _ _ _ _ _ Hk1) as (p2 & s2 & c2 & Hs2 & Hk2).
    exists p2, s2, c2. split; [eapply step_Cat; eauto | exact Hk2].
  - destruct (IH _ _ _ _ _ H) as (p1 & s1 & c1 & Hs1 & Hk1).
    eexists p1, s1, _. split; [apply step_Group; exact Hs1 | exact Hk1].
Qed.

Lemma re_match_sound r s m :
  re_match r s = Some m ->
  exists pre' s', step r ([], s, []) (pre', s', m).
Proof.
  unfold re_match. intros H.
  destruct (rmatch_sound _ _ _ _ _ H) as (pre' & s' & cs' & Hs & Hk).
  injection Hk as ->. now exists pre', s'.
Qed.

(** The text between two matcher positions. *)
Lemma captured (w pre : str) :
  rev (firstn (length (rev w ++ pre) - length pre) (rev w ++ pre)) = w.
Proof.
  rewrite length_app, Nat.add_sub.
  rewrite firstn_app, Nat.sub_diag, firstn_all. simpl.
  rewrite app_nil_r. apply rev_involutive.
Qed.

End ReFacts.
Import ReFacts.

(** ** The parser's regular expression *)

Module MatchFacts.

Lemma step_Plus_inv c pre s cs st :
  step (Plus c) (pre, s, cs) st ->
  exists w s', s = w ++ s' /\ w <> [] /\ forallb (cls_match c) w = true
               /\ st = (rev w ++ pre, s', cs).
Proof.
  intros H. inversion H; subst. now exists w, s0.
Qed.

Lemma step_number_inv pre s cs st :
  step number (pre, s, cs) st ->
  exists num s', s = num ++ s' /\ amount_text num
                 /\ st = (rev num ++ pre, s', cs).
Proof.
  unfold number. intros H.
  inversion H as [| | | | | |r1 r2 st0 st1 st2 H1 H2|]; subst; clear H.
  apply step_Plus_inv in H1 as (ds & s1 & -> & Hne & Hds & ->).
  inversion H2 as [| | | |r st0 st' H3|r st0| |]; subst; clear H2.
  - inversion H3 as [| | | | | |r1 r2 st0 st1' st2 H4 H5|]; subst; clear H3.
    inversion H4 as [| |c a pre0 s0 cs0 Ha| | | | |]; subst; clear H4.
    apply step_Plus_inv in H5 as (fs & s2 & -> & Hne2 & Hfs & ->).
    exists (ds ++ a :: fs), s2. repeat split.
    + now rewrite <- app_assoc.
    + apply amount_frac; auto.
      simpl in Ha. rewrite orb_false_r in Ha.
      apply orb_prop in Ha as [Ha|Ha]; apply Ascii.eqb_eq in Ha; auto.
    + rewrite rev_app_distr. simpl. now rewrite <- !app_assoc.
  - exists ds, s1. repeat split. now apply amount_int.
Qed.

(** What a match of [pattern] looks like. *)
Lemma pattern_inv s m :
  re_match pattern s = Some m ->
  exists num ws text tl,
    m = [(2%nat, text); (1%nat, num)] /\ s = num ++ ws ++ text ++ tl /\
    amount_text num /\ ws <> [] /\ forallb isspace ws = true /\
    text <> [] /\ forallb not_newline text = true /\ at_eol tl = true.
Proof.
  intros H. apply re_match_sound in H as (pre' & s' & H).
  unfold pattern in H.
  inversion H as [| | | | | |r1 r2 st0 st1 st2 H1 H2|]; subst; clear H.
  inversion H1; subst; clear H1.
  inversion H2 as [| | | | | |r1 r2 st0 st1 st2 H3 H4|]; subst; clear H2.
  inversion H3 as [| | | | | | |i r pre0 s0 cs0 p1 s1 c1 H5]; subst; clear H3.
  apply step_number_inv in H5 as (num & s2 & -> & Hnum & E).
  injection E as -> -> ->.
  inversion H4 as [| | | | | |r1 r2 st0 st1 st2 H6 H7|]; subst; clear H4.
  apply step_Plus_inv in H6 as (ws & s3 & -> & Hws & Hall & ->).
  inversion H7 as [| | | | | |r1 r2 st0 st1 st2 H8 H9|]; subst; clear H7.
  inversion H8 as [| | | | | | |i r pre0 s0 cs0 p1 s1 c1 H10]; subst; clear H8.
  apply step_Plus_inv in H10 as (text & s4 & -> & Htext & Hall2 & E).
  injection E as -> -> ->.
  inversion H9 as [|p0 s0 c0 Heol| | | | | |]; subst; clear H9.
  exists num, ws, text, s'. repeat split; auto.
  now rewrite !captured.
Qed.

(** The tail [\s+(.+)$] on blanks followed by a text that ends in a
    character that is no blank. *)
Lemma tail_match pre cs ws text :
  ws <> [] -> forallb isspace ws = true ->
  forallb not_newline text = true ->
  (exists p a, text = p ++ [a] /\ isspace a = false) ->
  rmatch (Cat (Plus Space) (Cat (Group 2 (Plus Dot)) Eol))
    (fun _ _ c => Some c) pre (ws ++ text) cs
  = Some ((2%nat, lstrip text) :: cs).
Proof.
  intros Hws Hall Hnl (p & a & Ht & Ha).
  set (w2 := takewhile isspace text).
  set (r0 := lstrip text).
  assert (Esplit : text = w2 ++ r0)
    by (symmetry; apply takewhile_dropwhile).
  assert (Hr0 : r0 <> []).
  { unfold r0, lstrip. rewrite Ht. intros E.
    assert (forallb isspace (p ++ [a]) = true).
    { rewrite <- (takewhile_dropwhile isspace (p ++ [a])), E, app_nil_r.
      apply takewhile_all. }
    apply forallb_app_r in H. simpl in H. rewrite Ha in H. discriminate. }
  assert (Hstop : stops Space r0).
  { unfold r0, lstrip. destruct (dropwhile isspace text) eqn:E; simpl; auto.
    eapply dropwhile_head; eauto. }
  assert (Hnl0 : forallb (cls_match Dot) r0 = true).
  { rewrite Esplit in Hnl. apply forallb_app_r in Hnl. exact Hnl. }
  simpl. rewrite Esplit, app_assoc.
  apply plus_loop_longest.
  - destruct ws; [congruence | discriminate].
  - rewrite forallb_app. apply andb_true_intro. split; [exact Hall|].
    apply takewhile_all.
  - exact Hstop.
  - rewrite <- (app_nil_r r0) at 1.
    apply plus_loop_longest; auto.
    + simpl. auto.
    + simpl. rewrite captured. reflexivity.
Qed.

Lemma sep_not_digit sep :
  sep = "."%char \/ sep = ","%char -> isdecimal sep = false.
Proof. intros [-> | ->]; reflexivity. Qed.

(** The numeric part, followed by a blank. *)
Lemma number_match (k : kont) pre cs num w rest res :
  amount_text num -> isspace w = true ->
  k (rev num ++ pre) (w :: rest) cs = Some res ->
  rmatch number k pre (num ++ w :: rest) cs = Some res.
Proof.
  intros Hnum Hw Hk. unfold number.
  assert (Hwd : isdecimal w = false) by now apply isspace_not_digit.
  destruct Hnum as [ds Hne Hds | ds sep fs Hne Hds Hsep Hne2 Hfs].
  - simpl. apply plus_loop_longest; auto.
    simpl. destruct (space_not_sep _ Hw) as [N1 N2].
    apply Ascii.eqb_neq in N1, N2. rewrite N1, N2. simpl. exact Hk.
  - simpl. rewrite <- app_assoc. simpl.
    apply plus_loop_longest; auto.
    + simpl. now apply sep_not_digit.
    + cbn [rmatch cls_match].
      assert ((sep =? ".")%char || ((sep =? ",")%char || false) = true) as ->.
      { destruct Hsep as [-> | ->]; reflexivity. }
      rewrite (@plus_loop_longest Digit k fs (sep :: rev ds ++ pre)
                 (w :: rest) cs res); auto.
      rewrite rev_app_distr in Hk. simpl in Hk.
      rewrite <- !app_assoc in Hk. exact Hk.
Qed.

(** Completeness of the matcher on lines of the expected shape. *)
Lemma match_expense_line num ws text :
  amount_text num -> ws <> [] -> forallb isspace ws = true ->
  forallb not_newline text = true ->
  (exists p a, text = p ++ [a] /\ isspace a = false) ->
  re_match pattern (num ++ ws ++ text)
  = Some [(2%nat, lstrip text); (1%nat, num)].
Proof.
  intros Hnum Hws Hall Hnl Hlast.
  unfold re_match, pattern. cbn [rmatch].
  destruct ws as [|w ws']; [congruence|].
  simpl in Hall. apply andb_prop in Hall as [Hw Hall'].
  change ((w :: ws') ++ text) with (w :: ws' ++ text).
  apply number_match; auto.
  rewrite captured.
  change (w :: ws' ++ text) with ((w :: ws') ++ text).
  apply (tail_match (rev num ++ []) [(1%nat, num)]); auto.
  simpl. now rewrite Hw.
Qed.

End MatchFacts.
Import MatchFacts.

(** ** Amounts, comparisons and trimmed lines *)

Module ParserLemmas.

Lemma replace_digits (ds : str) :
  forallb isdecimal ds = true -> replace ","%char "."%char ds = ds.
Proof.
  induction ds as [|d ds IH]; simpl; [reflexivity|].
  intros H. apply andb_prop in H as [Hd H].
  destruct (digit_not_sep _ Hd) as [_ N]. apply Ascii.eqb_neq in N.
  rewrite N. now rewrite (IH H).
Qed.

Lemma replace_amount num :
  amount_text num ->
  (exists ds, ds <> [] /\ forallb isdecimal ds = true /\
              replace ","%char "."%char num = ds) \/
  (exists ds fs, ds <> [] /\ forallb isdecimal ds = true /\ fs <> [] /\
                 forallb isdecimal fs = true /\
                 replace ","%char "."%char num = ds ++ "."%char :: fs).
Proof.
  intros [ds Hne Hds | ds sep fs Hne Hds Hsep Hne2 Hfs].
  - left. exists ds. now rewrite replace_digits.
  - right. exists ds, fs. repeat split; auto.
    unfold replace. rewrite map_app. simpl.
    fold (replace ","%char "."%char ds). fold (replace ","%char "."%char fs).
    rewrite !replace_digits by assumption.
    destruct Hsep as [-> | ->]; reflexivity.
Qed.

Lemma takewhile_id (p : ascii -> bool) (s : str) :
  forallb p s = true -> takewhile p s = s.
Proof.
  intros H. rewrite <- (app_nil_r s) at 1.
  rewrite takewhile_app_all by assumption. apply app_nil_r.
Qed.

Lemma dropwhile_nil (p : ascii -> bool) (s : str) :
  forallb p s = true -> dropwhile p s = [].
Proof.
  intros H. rewrite <- (app_nil_r s) at 1.
  now rewrite dropwhile_app_all by assumption.
Qed.

(** The text the regex captures as the amount is always read by
    [float]: the invalid-amount branch cannot be taken. *)
Lemma py_float_amount num :
  amount_text num ->
  exists a, py_float (replace ","%char "."%char num) = Some a.
Proof.
  intros H. destruct (replace_amount H)
    as [(ds & Hne & Hds & ->) | (ds & fs & Hne & Hds & Hne2 & Hfs & ->)];
    unfold py_float.
  - rewrite dropwhile_nil, takewhile_id by assumption.
    destruct ds; [congruence | eauto].
  - rewrite dropwhile_app_all by assumption.
    rewrite dropwhile_stop by reflexivity.
    rewrite takewhile_app_all by assumption.
    rewrite takewhile_stop by reflexivity. rewrite app_nil_r.
    change (Ascii.eqb "." ".") with true. rewrite Hfs. simpl andb.
    destruct ds as [|d ds]; [congruence|]. simpl. eauto.
Qed.

Lemma compare_antisym (x y : float) :
  SFcompare y x = option_map CompOpp (SFcompare x y).
Proof.
  destruct x as [sx|sx| |sx mx ex], y as [sy|sy| |sy my ey]; simpl;
    try reflexivity;
    try (destruct sx; reflexivity);
    try (destruct sy; reflexivity);
    try (destruct sx, sy; reflexivity).
  f_equal. rewrite (Z.compare_antisym ex ey).
  rewrite !Pos.compare_cont_spec. simpl.
  rewrite (Pos.compare_antisym mx my).
  destruct sx, sy; simpl; try reflexivity;
    destruct (ex ?= ey); simpl; try reflexivity;
    destruct (mx ?= my)%positive; reflexivity.
Qed.

Lemma ltb_not_leb (x y : float) : ltb x y = true -> leb y x = false.
Proof.
  unfold ltb, leb, SFltb, SFleb. rewrite (compare_antisym x y).
  destruct (SFcompare x y) as [[]|]; simpl; congruence.
Qed.

Lemma leb_not_ltb (x y : float) : leb x y = true -> ltb y x = false.
Proof.
  unfold ltb, leb, SFltb, SFleb. rewrite (compare_antisym x y).
  destruct (SFcompare x y) as [[]|]; simpl; congruence.
Qed.

Lemma at_eol_cases tl : at_eol tl = true -> tl = [] \/ tl = [newline].
Proof.
  destruct tl as [|a [|b tl]]; simpl; intros H; auto; [|discriminate].
  apply Ascii.eqb_eq in H. subst. now right.
Qed.

Lemma lstrip_keeps_last (p : str) (a : ascii) :
  isspace a = false -> exists q, lstrip (p ++ [a]) = q ++ [a].
Proof.
  intros Ha. unfold lstrip. induction p as [|b p IH]; simpl.
  - rewrite Ha. now exists [].
  - destruct (isspace b); [exact IH|]. now exists (b :: p).
Qed.

Lemma strip_keeps_last (p : str) (a : ascii) :
  isspace a = false -> exists q, strip (p ++ [a]) = q ++ [a].
Proof.
  intros Ha. unfold strip.
  destruct (@lstrip_keeps_last p a Ha) as (q & ->).
  exists q. now apply rstrip_last.
Qed.

Lemma snoc_not_nil (q : str) (a : ascii) : q ++ [a] <> [].
Proof. destruct q; discriminate. Qed.

(** In a trimmed line of the expected shape nothing follows the text,
    and the text ends in a character that is no blank. *)
Lemma trimmed_line m num ws text tl :
  strip m = num ++ ws ++ text ++ tl ->
  text <> [] -> tl = [] \/ tl = [newline] ->
  tl = [] /\ exists p a, text = p ++ [a] /\ isspace a = false.
Proof.
  intros E Htext Htl.
  destruct (strip_last m) as [E0 | (p & a & Ep & Ha)].
  - rewrite E0 in E. symmetry in E.
    apply app_eq_nil in E as [_ E]. apply app_eq_nil in E as [_ E].
    apply app_eq_nil in E as [E _]. congruence.
  - rewrite Ep in E. destruct Htl as [-> | ->].
    + split; [reflexivity|].
      destruct (ends_with_snoc Htext) as (t' & b & ->).
      rewrite app_nil_r in E. rewrite !app_assoc in E.
      apply app_inj_tail in E as [_ ->]. now exists t', b.
    + exfalso. rewrite !app_assoc in E.
      apply app_inj_tail in E as [_ ->]. discriminate.
Qed.

End ParserLemmas.
Import ParserLemmas.

(** ** The message parser (src/bot/utils.py) *)

Module Parser.

(** What the matcher gives on a trimmed message. *)
Lemma trimmed_match m mm :
  re_match pattern (strip m) = Some mm ->
  exists num ws text,
    mm = [(2%nat, text); (1%nat, num)] /\ strip m = num ++ ws ++ text /\
    amount_text num /\ ws <> [] /\ forallb isspace ws = true /\
    forallb not_newline text = true /\
    exists p a, text = p ++ [a] /\ isspace a = false.
Proof.
  intros H.
  apply pattern_inv in H
    as (num & ws & text & tl & -> & E & Hnum & Hws & Hall & Htext & Hnl & Heol).
  apply at_eol_cases in Heol.
  destruct (@trimmed_line m num ws text tl E Htext Heol) as (-> & Hlast).
  rewrite app_nil_r in E. exists num, ws, text. repeat split; auto.
Qed.

(** The success branch: the float read from the amount text passes both
    bounds and the trimmed text is short enough. *)
Lemma parse_reads (m num text : str) (a : float) :
  expense_line (strip m) num text ->
  py_float (replace ","%char "."%char num) = Some a ->
  ltb (of_Z 0) a = true ->
  leb a ceiling = true ->
  (length (strip text) <= 100)%nat ->
  parse_expense_message m = (Some a, Some (strip text), []).
Proof.
  intros Hline Ha Hpos Hceil Hlen.
  inversion Hline as [num' ws text' tl Hnum Hws Hall Htext Hnl Htl E]; subst.
  symmetry in E.
  destruct (@trimmed_line m num ws text tl E Htext Htl) as (-> & Hlast).
  rewrite app_nil_r in E.
  unfold parse_expense_message. rewrite E.
  assert (Hne : is_empty (num ++ ws ++ text) = false).
  { destruct Hnum as [ds ? ?|ds ? ? ? ? ? ? ?]; destruct ds; simpl; congruence. }
  rewrite Hne, (match_expense_line Hnum Hws Hall Hnl Hlast). cbn [group Nat.eqb].
  rewrite Ha. rewrite (@ltb_not_leb _ _ Hpos).
  fold ceiling. rewrite (@leb_not_ltb _ _ Hceil), strip_lstrip.
  destruct Hlast as (p & c & -> & Hc).
  destruct (@strip_keeps_last p c Hc) as (q & Eq).
  rewrite Eq in *. destruct (q ++ [c]) eqn:Eqc.
  - now destruct q.
  - simpl is_empty. cbv iota.
    apply Nat.ltb_ge in Hlen. now rewrite Hlen.
Qed.

Lemma digit_value_of (c : ascii) :
  isdecimal c = true -> digit_value c = digit_of c.
Proof.
  destruct c as [[|] [|] [|] [|] [|] [|] [|] [|]];
    try discriminate; intros _; reflexivity.
Qed.

Lemma fold_digits (ds : str) (acc : Z) :
  forallb isdecimal ds = true ->
  fold_left (fun a c => 10 * a + digit_value c) ds acc
  = acc * 10 ^ Z.of_nat (length ds) + positional ds.
Proof.
  revert acc. induction ds as [|d ds IH]; intros acc H.
  - cbn [fold_left length positional]. change (10 ^ Z.of_nat 0) with 1. lia.
  - apply andb_prop in H as [Hd H].
    cbn [fold_left length positional].
    rewrite (IH _ H), (@digit_value_of d Hd).
    rewrite Nat2Z.inj_succ, Z.pow_succ_r by lia. ring.
Qed.

Lemma digits_value_positional (ds : str) :
  forallb isdecimal ds = true -> digits_value ds = positional ds.
Proof.
  intros H. unfold digits_value. rewrite (@fold_digits ds 0 H). lia.
Qed.

Lemma digits_value_app (ds fs : str) :
  forallb isdecimal ds = true -> forallb isdecimal fs = true ->
  digits_value (ds ++ fs)
  = positional ds * 10 ^ Z.of_nat (length fs) + positional fs.
Proof.
  intros Hd Hf. unfold digits_value. rewrite fold_left_app.
  rewrite (@fold_digits fs _ Hf). f_equal. f_equal.
  now apply digits_value_positional.
Qed.

(** A numeric part is a text the regex's amount group describes. *)
Lemma numeric_part_text (num : str) (n : Z) (k : nat) :
  numeric_part num n k -> amount_text num.
Proof.
  intros [ds Hne Hds | ds sep fs Hne Hds Hsep Hne2 Hfs].
  - now apply amount_int.
  - now apply amount_frac.
Qed.

(** Every text of the amount group denotes a number. *)
Lemma amount_text_numeric (num : str) :
  amount_text num -> exists n k, numeric_part num n k.
Proof.
  intros [ds Hne Hds | ds sep fs Hne Hds Hsep Hne2 Hfs].
  - eexists. eexists. now apply numeric_int.
  - eexists. eexists. now apply numeric_frac.
Qed.

(** [float] reads the numeric part, comma turned into a dot, as the
    float nearest to the number it denotes. *)
Lemma py_float_numeric (num : str) (n : Z) (k : nat) :
  numeric_part num n k ->
  py_float (replace ","%char "."%char num) = Some (nearest_float n k).
Proof.
  unfold nearest_float.
  intros [ds Hne Hds | ds sep fs Hne Hds Hsep Hne2 Hfs]; unfold py_float.
  - rewrite (@replace_digits ds Hds).
    rewrite dropwhile_nil, takewhile_id by assumption.
    destruct ds as [|d ds]; [congruence|].
    now rewrite (@digits_value_positional (d :: ds) Hds).
  - assert (E : replace ","%char "."%char (ds ++ sep :: fs)
                = ds ++ "."%char :: fs).
    { unfold replace. rewrite map_app. cbn [map].
      fold (replace ","%char "."%char ds). fold (replace ","%char "."%char fs).
      rewrite (@replace_digits ds Hds), (@replace_digits fs Hfs).
      now destruct Hsep as [-> | ->]. }
    rewrite E.
    rewrite dropwhile_app_all by assumption.
    rewrite dropwhile_stop by reflexivity.
    rewrite takewhile_app_all by assumption.
    rewrite takewhile_stop by reflexivity. rewrite app_nil_r.
    change (Ascii.eqb "." ".") with true. rewrite Hfs. cbn [andb].
    rewrite (@digits_value_app ds fs Hds Hfs).
    destruct ds as [|d ds]; [congruence|]. reflexivity.
Qed.

(** C1 (as amended).  A message that, once trimmed, matches
    [^\d+([.,]\d+)?\s+.+$] with numeric part [num] and trailing text
    [text], where [num], its comma read as a decimal separator, denotes
    [n / 10^k], and the float nearest to that number is greater than 0
    and at most 1,000,000, and whose trimmed text has at most 100
    characters, parses to exactly that float, the trimmed text unchanged,
    and the empty error message. *)
Theorem parse_success (m num text : str) (n : Z) (k : nat) :
  expense_line (strip m) num text ->
  numeric_part num n k ->
  ltb (of_Z 0) (nearest_float n k) = true ->
  leb (nearest_float n k) ceiling = true ->
  (length (strip text) <= 100)%nat ->
  parse_expense_message m
  = (Some (nearest_float n k), Some (strip text), []).
Proof.
  intros Hline Hnum Hpos Hceil Hlen.
  apply (@parse_reads m num text (nearest_float n k)); try assumption.
  now apply py_float_numeric.
Qed.

Lemma parse_success_witness :
  parse_expense_message (lit "6,60 food")
  = (Some (S754_finite false 7430939385161318 (-50)), Some (lit "food"), []).
Proof.
  apply (@parse_success (lit "6,60 food") (lit "6,60") (lit "food") 660 2).
  - apply (@expense_line_intro (lit "6,60") (lit " ") (lit "food") []).
    + apply (@amount_frac (lit "6") ","%char (lit "60"));
        solve [discriminate | reflexivity | now right].
    + discriminate.
    + reflexivity.
    + discriminate.
    + reflexivity.
    + now left.
  - apply (@numeric_frac (lit "6") ","%char (lit "60"));
      solve [discriminate | reflexivity | now right].
  - reflexivity.
  - reflexivity.
  - simpl. lia.
Defined.

(** C1, as stated, fails for a numeric part that is positive but nearer
    to 0 than to any other float: "0." followed by 330 zeros and a 1
    denotes 1 / 10^331, greater than 0 and below the ceiling, the
    message has the required form and a one-character text, and the
    parser answers that the amount must be greater than 0. *)
Lemma positive_amount_rejected :
  exists num text n k,
    expense_line
      (strip (lit "0." ++ repeat "0"%char 330 ++ lit "1 x")) num text /\
    numeric_part num n k /\
    0 < n /\ n <= 1000000 * 10 ^ Z.of_nat k /\
    (length (strip text) <= 100)%nat /\
    parse_expense_message (lit "0." ++ repeat "0"%char 330 ++ lit "1 x")
    = (None, None, msg_nonpositive).
Proof.
  exists (lit "0." ++ repeat "0"%char 330 ++ lit "1"), (lit "x"), 1, 331%nat.
  split; [|split; [|split; [|split; [|split]]]].
  - change (strip (lit "0." ++ repeat "0"%char 330 ++ lit "1 x"))
      with ((lit "0." ++ repeat "0"%char 330 ++ lit "1")
            ++ lit " " ++ lit "x" ++ []).
    apply expense_line_intro;
      try solve [discriminate | reflexivity | now left].
    apply (@amount_frac (lit "0") "."%char (repeat "0"%char 330 ++ lit "1"));
      solve [discriminate | reflexivity | now left].
  - pose proof (@numeric_frac (lit "0") "."%char
                  (repeat "0"%char 330 ++ lit "1")) as H.
    vm_compute in H. vm_compute. apply H;
      solve [discriminate | reflexivity | now left].
  - lia.
  - apply Z.leb_le. vm_compute. reflexivity.
  - simpl. lia.
  - vm_compute. reflexivity.
Qed.


Example parse_6_60_food :
  parse_expense_message (lit "6.60 food")
  = (Some (of_decimal 660 2), Some (lit "food"), []).
Proof. reflexivity. Qed.

(** Whatever the regex captures as the amount, [float] reads: the
    invalid-amount error is never the answer. *)
Lemma amount_always_read (m : str) (mm : caps) :
  re_match pattern (strip m) = Some mm ->
  exists g1 a,
    group 1%nat mm = Some g1 /\ amount_text g1 /\
    py_float (replace ","%char "."%char g1) = Some a.
Proof.
  intros H. apply trimmed_match in H
    as (num & ws & text & -> & _ & Hnum & _).
  destruct (py_float_amount Hnum) as (a & Ha).
  now exists num, a.
Qed.

Lemma error_of_nonempty c : error_of c <> [].
Proof. destruct c; discriminate. Qed.

(** Every result of the parser is a success triple or one of the seven
    errors, the one of the first check that fails. *)
Lemma parse_by_checks (m : str) :
  match first_failing m with
  | Some c => parse_expense_message m = (None, None, error_of c)
  | None => succeeds m
  end.
Proof.
  unfold first_failing, validation_order, succeeds, parse_expense_message.
  cbn [List.find fails].
  destruct (is_empty (strip m)) eqn:Eempty; [reflexivity|].
  unfold amount_of, category_of_line, groups_of.
  destruct (re_match pattern (strip m)) as [mm|] eqn:Ematch; [|reflexivity].
  apply trimmed_match in Ematch
    as (num & ws & text & -> & E & Hnum & Hws & Hall & Hnl & Hlast).
  cbn [group Nat.eqb].
  destruct (py_float (replace ","%char "."%char num)) as [a|] eqn:Ea;
    [|reflexivity].
  destruct (leb a (of_Z 0)) eqn:Epos; [reflexivity|].
  fold ceiling. destruct (ltb ceiling a) eqn:Ehigh; [reflexivity|].
  destruct (is_empty (strip text)) eqn:Ecat; [reflexivity|].
  destruct (Nat.ltb 100 (length (strip text))) eqn:Elen; [reflexivity|].
  now exists a, (strip text).
Qed.

(** C2.  A message outside the success set gets no amount, no category
    and a non-empty error message, the one of the first failing check in
    the order: empty message, no regex match, non-numeric amount, amount
    at most 0, amount above 1,000,000, empty category, category longer
    than 100; and a message with a failing check is outside the success
    set.  "food" gets the invalid-format error and "1000001.00 rent" the
    amount-too-high error. *)
Theorem parse_failure_order :
  (forall m, ~ succeeds m ->
     exists c, first_failing m = Some c /\
               parse_expense_message m = (None, None, error_of c) /\
               error_of c <> []) /\
  (forall m c, first_failing m = Some c -> ~ succeeds m) /\
  validation_order =
    [EmptyInput; FormatError; AmountError; NonPositiveAmount;
     AmountTooLarge; MissingCategory; CategoryTooLong] /\
  parse_expense_message (lit "food") = (None, None, msg_format) /\
  parse_expense_message (lit "1000001.00 rent") = (None, None, msg_too_high).
Proof.
  split; [|split; [|split; [|split]]]; try reflexivity.
  - intros m Hfail. pose proof (parse_by_checks m) as H.
    destruct (first_failing m) as [c|]; [|contradiction].
    exists c. repeat split; [exact H | apply error_of_nonempty].
  - intros m c Hc (a & cat & Hs). pose proof (parse_by_checks m) as H.
    rewrite Hc, Hs in H. discriminate.
Qed.

Lemma parse_failure_order_witness :
  exists c, first_failing (lit "-5.00 food") = Some c /\
            parse_expense_message (lit "-5.00 food")
            = (None, None, error_of c) /\ error_of c <> [].
Proof.
  apply (proj1 parse_failure_order (lit "-5.00 food")).
  intros (a & cat & H). vm_compute in H. discriminate.
Defined.

(** C10.  The empty-category error is never returned: on a trimmed
    message the captured category is a suffix of the message, so it ends
    where the message ends and keeps a character that is no blank under
    [strip]; the check for an empty category never fails first. *)
Theorem category_never_missing :
  (forall m g1 g2, groups_of (strip m) = Some (g1, g2) ->
     strip g2 <> [] /\ exists p, strip m = p ++ g2) /\
  (forall m, snd (parse_expense_message m) <> msg_no_description) /\
  (forall m, first_failing m <> Some MissingCategory).
Proof.
  assert (G : forall m g1 g2, groups_of (strip m) = Some (g1, g2) ->
     strip g2 <> [] /\ exists p, strip m = p ++ g2).
  { intros m g1 g2 H. unfold groups_of in H.
    destruct (re_match pattern (strip m)) as [mm|] eqn:Ematch; [|discriminate].
    apply trimmed_match in Ematch
      as (num & ws & text & -> & E & Hnum & Hws & Hall & Hnl & p & a & -> & Ha).
    cbn [group Nat.eqb] in H. injection H as <- <-.
    split.
    - destruct (@strip_keeps_last p a Ha) as (q & ->). apply snoc_not_nil.
    - exists (num ++ ws). now rewrite <- app_assoc. }
  assert (F : forall m, first_failing m <> Some MissingCategory).
  { intros m H. unfold first_failing, validation_order in H.
    apply find_some in H as [_ H]. cbn [fails] in H.
    unfold category_of_line in H.
    destruct (groups_of (strip m)) as [[g1 g2]|] eqn:Eg; [|discriminate].
    destruct (G _ _ _ Eg) as [N _]. destruct (strip g2); [congruence|discriminate]. }
  split; [exact G | split; [|exact F]].
  intros m. pose proof (parse_by_checks m) as H. pose proof (F m) as Fm.
  destruct (first_failing m) as [c|].
  - rewrite H. simpl. destruct c; try discriminate. congruence.
  - destruct H as (a & cat & ->). discriminate.
Qed.

Lemma category_never_missing_witness :
  strip (lit "food") <> [] /\
  exists p, strip (lit "6.60 food") = p ++ lit "food".
Proof.
  apply (proj1 category_never_missing (lit "6.60 food") (lit "6.60")).
  reflexivity.
Defined.

(** A positive literal below half the smallest float reads as 0.0 and is
    rejected as not positive. *)
Example tiny_amount_rejected :
  parse_expense_message (lit "0." ++ repeat "0"%char 330 ++ lit "1 x")
  = (None, None, msg_nonpositive).
Proof. vm_compute. reflexivity. Qed.

(** A literal just above the ceiling reads as 1000000.0 and is accepted. *)
Example rounded_to_ceiling_accepted :
  parse_expense_message (lit "1000000.00000000001 rent")
  = (Some ceiling, Some (lit "rent"), []).
Proof. vm_compute. reflexivity. Qed.

End Parser.

(** ** The effect monad *)

Module EffFacts.

Section EffFacts.
Context {W : Type} {ext : Externals W}.

Lemma bind_ok {A B} (m : @M W A) (k : A -> M B) st a st1 :
  m st = (Ok a, st1) -> bind m k st = k a st1.
Proof. unfold bind. now intros ->. Qed.

Lemma bind_raise {A B} (m : @M W A) (k : A -> M B) st e st1 :
  m st = (Raise e, st1) -> bind m k st = (Raise e, st1).
Proof. unfold bind. now intros ->. Qed.

Lemma bind_ok_inv {A B} (m : @M W A) (k : A -> M B) st b st2 :
  bind m k st = (Ok b, st2) ->
  exists a st1, m st = (Ok a, st1) /\ k a st1 = (Ok b, st2).
Proof.
  unfold bind. destruct (m st) as [[a|e] st1]; [eauto | discriminate].
Qed.

Lemma bind_lift_ok {A B} (r : res A) (k : A -> @M W B) st a :
  r = Ok a -> bind (lift r) k st = k a st.
Proof. now intros ->. Qed.

Lemma log_and_reraise_id {A} (m : @M W A) st : log_and_reraise m st = m st.
Proof.
  unfold log_and_reraise, try_except, raise.
  now destruct (m st) as [[a|e] st1].
Qed.

Lemma post_ok url payload timeout st r w :
  requests_post url payload timeout (world st) = (r, w) ->
  post url payload timeout st = (r, mkState w (chat_log st)).
Proof. unfold post. now intros ->. Qed.

End EffFacts.

End EffFacts.
Import EffFacts.

(** ** The ledger client and facade (src/sheets) *)

Module Ledger.

Section ClientFacts.
Context {W : Type} {ext : Externals W}.
Variable self : SimpleSheetsClient.

(** The success path of [log_expense]. *)
Lemma log_expense_ok amount category st resp w d :
  requests_post (webapp_url self) (log_payload amount category) 10 (world st)
    = (Ok resp, w) ->
  status_code resp = 200 ->
  json resp = Ok (PDict d) ->
  truthy (match dict_lookup d (lit "success") with
          | Some x => x | None => PNone end) = true ->
  Client.log_expense self amount category st
  = (Ok (PDict [(lit "success", PBool true);
                (lit "message",
                 match dict_lookup d (lit "message") with
                 | Some x => x
                 | None => PStr (lit "Expense logged successfully")
                 end);
                (lit "running_total",
                 match dict_lookup d (lit "runningTotal") with
                 | Some x => x | None => PInt 0 end)]),
     mkState w (chat_log st)).
Proof.
  intros Hpost Hstatus Hjson Hok.
  unfold Client.log_expense, try_except.
  rewrite (bind_ok _ _ _ (post_ok _ _ _ st Hpost)).
  rewrite Hstatus. cbn [Z.eqb Pos.eqb].
  rewrite Hjson. unfold bind, lift, ret. cbn [py_get].
  now rewrite Hok.
Qed.

Lemma log_expense_app_failure amount category st resp w d :
  requests_post (webapp_url self) (log_payload amount category) 10 (world st)
    = (Ok resp, w) ->
  status_code resp = 200 ->
  json resp = Ok (PDict d) ->
  truthy (match dict_lookup d (lit "success") with
          | Some x => x | None => PNone end) = false ->
  Client.log_expense self amount category st
  = (Ok (failure_with_total
           (apps_script_error_msg
              (match dict_lookup d (lit "error") with
               | Some x => x | None => PStr (lit "Unknown error") end))),
     mkState w (chat_log st)).
Proof.
  intros Hpost Hstatus Hjson Hok.
  unfold Client.log_expense, try_except.
  rewrite (bind_ok _ _ _ (post_ok _ _ _ st Hpost)).
  rewrite Hstatus. cbn [Z.eqb Pos.eqb].
  rewrite Hjson. unfold bind, lift, ret. cbn [py_get].
  now rewrite Hok.
Qed.

Lemma log_expense_http_error amount category st resp w :
  requests_post (webapp_url self) (log_payload amount category) 10 (world st)
    = (Ok resp, w) ->
  status_code resp <> 200 ->
  Client.log_expense self amount category st
  = (Ok (failure_with_total (http_error_msg (status_code resp))),
     mkState w (chat_log st)).
Proof.
  intros Hpost Hstatus.
  unfold Client.log_expense, try_except.
  rewrite (bind_ok _ _ _ (post_ok _ _ _ st Hpost)).
  apply Z.eqb_neq in Hstatus. now rewrite Hstatus.
Qed.

Lemma log_expense_request_failed amount category st e w :
  requests_post (webapp_url self) (log_payload amount category) 10 (world st)
    = (Raise e, w) ->
  is_request_exception e = true ->
  Client.log_expense self amount category st
  = (Ok (failure_with_total (request_failed_msg e)), mkState w (chat_log st)).
Proof.
  intros Hpost He.
  unfold Client.log_expense, try_except.
  rewrite (bind_raise _ _ _ (post_ok _ _ _ st Hpost)).
  now rewrite He.
Qed.

Lemma call_app_result function_name params st resp w d :
  requests_post (webapp_url self) (call_payload function_name params) 30
    (world st) = (Ok resp, w) ->
  status_code resp = 200 ->
  json resp = Ok (PDict d) ->
  call_apps_script_function self function_name params st
  = (Ok (PDict d), mkState w (chat_log st)).
Proof.
  intros Hpost Hstatus Hjson.
  unfold call_apps_script_function, try_except.
  rewrite (bind_ok _ _ _ (post_ok _ _ _ st Hpost)).
  rewrite Hstatus. cbn [Z.eqb Pos.eqb].
  rewrite Hjson. unfold bind, lift, ret. cbn [py_get].
  now destruct (truthy _).
Qed.

Lemma call_http_error function_name params st resp w :
  requests_post (webapp_url self) (call_payload function_name params) 30
    (world st) = (Ok resp, w) ->
  status_code resp <> 200 ->
  call_apps_script_function self function_name params st
  = (Ok (failure (http_error_msg (status_code resp))),
     mkState w (chat_log st)).
Proof.
  intros Hpost Hstatus.
  unfold call_apps_script_function, try_except.
  rewrite (bind_ok _ _ _ (post_ok _ _ _ st Hpost)).
  apply Z.eqb_neq in Hstatus. now rewrite Hstatus.
Qed.

Lemma call_request_failed function_name params st e w :
  requests_post (webapp_url self) (call_payload function_name params) 30
    (world st) = (Raise e, w) ->
  is_request_exception e = true ->
  call_apps_script_function self function_name params st
  = (Ok (failure (request_failed_msg e)), mkState w (chat_log st)).
Proof.
  intros Hpost He.
  unfold call_apps_script_function, try_except.
  rewrite (bind_raise _ _ _ (post_ok _ _ _ st Hpost)).
  now rewrite He.
Qed.

(** The three message shapes start with different letters. *)
Lemma shapes_distinct (e : exn) (status : Z) (err : pyval) :
  request_failed_msg e <> http_error_msg status /\
  request_failed_msg e <> apps_script_error_msg err /\
  http_error_msg status <> apps_script_error_msg err.
Proof.
  unfold request_failed_msg, http_error_msg, apps_script_error_msg.
  repeat split; cbn; discriminate.
Qed.

(** Every path of the client ends in a returned dictionary. *)
Lemma log_expense_returns amount category st :
  exists v st', Client.log_expense self amount category st = (Ok v, st').
Proof.
  unfold Client.log_expense, try_except.
  match goal with |- context [bind ?m ?k st] =>
    destruct (bind m k st) as [[v|e] st'] end; [eauto|].
  destruct (is_request_exception e); unfold ret; eauto.
Qed.

Lemma call_returns function_name params st :
  exists v st',
    call_apps_script_function self function_name params st = (Ok v, st').
Proof.
  unfold call_apps_script_function, try_except.
  match goal with |- context [bind ?m ?k st] =>
    destruct (bind m k st) as [[v|e] st'] end; [eauto|].
  destruct (is_request_exception e); unfold ret; eauto.
Qed.

End ClientFacts.

Section FacadeFacts.
Context {W : Type} {ext : Externals W}.
Variable self : SheetOperations.

Lemma facade_log_expense_returns amount category st :
  exists v st', Operations.log_expense self amount category st = (Ok v, st').
Proof.
  unfold Operations.log_expense, try_except.
  match goal with |- context [bind ?m ?k st] =>
    destruct (bind m k st) as [[v|e] st'] end; unfold ret; eauto.
Qed.

Lemma get_expense_data_returns period st :
  exists v st',
    get_expense_data_for_analysis self period st = (Ok v, st').
Proof.
  unfold get_expense_data_for_analysis, try_except.
  match goal with |- context [bind ?m ?k st] =>
    destruct (bind m k st) as [[v|e] st'] end; unfold ret; eauto.
Qed.

End FacadeFacts.

Section RoundTrip.

Lemma echo_log_expense (prev a : float) (category : str) log :
  Client.log_expense (ext:=echo_backend) the_client a category
    (mkState prev log)
  = (Ok (PDict [(lit "success", PBool true);
                (lit "message", PStr (lit "Expense logged successfully"));
                (lit "running_total", PFloat (SFadd prec emax prev a))]),
     mkState (SFadd prec emax prev a) log).
Proof. reflexivity. Qed.

Lemma echo_log_each (amounts : list float) (category : str) log :
  forall prev,
    log_each (ext:=echo_backend) the_client amounts category
      (mkState prev log)
    = (Ok (map PFloat (running_sums prev amounts)),
       mkState (fold_left (SFadd prec emax) amounts prev) log).
Proof.
  induction amounts as [|a rest IH]; intros prev; [reflexivity|].
  cbn [log_each running_sums fold_left map].
  rewrite (bind_ok _ _ _ (echo_log_expense prev a category log)).
  rewrite (bind_lift_ok _ _ (a:=PFloat (SFadd prec emax prev a)))
    by reflexivity.
  rewrite (bind_ok _ _ _ (IH _)). reflexivity.
Qed.

End RoundTrip.

(** C7.  When the POST returns status 200 with a JSON body whose
    [success] is true and whose [runningTotal] is [t], [log_expense]
    returns [success = True] and the running total [t] itself, with the
    world as the backend left it; against the mock backend that adds each
    amount to its total, every call returns the previous total plus the
    amount, and a series of calls returns the running sums. *)
Theorem running_total_from_backend :
  (forall (W : Type) (ext : Externals W) (self : SimpleSheetsClient)
          amount category st resp w d t,
     requests_post (webapp_url self) (log_payload amount category) 10
       (world st) = (Ok resp, w) ->
     status_code resp = 200 ->
     json resp = Ok (PDict d) ->
     dict_lookup d (lit "success") = Some (PBool true) ->
     dict_lookup d (lit "runningTotal") = Some t ->
     exists message,
       Client.log_expense self amount category st
       = (Ok (PDict [(lit "success", PBool true);
                     (lit "message", message);
                     (lit "running_total", t)]),
          mkState w (chat_log st))) /\
  (forall prev a category log,
     Client.log_expense (ext:=echo_backend) the_client a category
       (mkState prev log)
     = (Ok (PDict [(lit "success", PBool true);
                   (lit "message", PStr (lit "Expense logged successfully"));
                   (lit "running_total", PFloat (SFadd prec emax prev a))]),
        mkState (SFadd prec emax prev a) log)) /\
  (forall amounts category log prev,
     log_each (ext:=echo_backend) the_client amounts category
       (mkState prev log)
     = (Ok (map PFloat (running_sums prev amounts)),
        mkState (fold_left (SFadd prec emax) amounts prev) log)).
Proof.
  split; [|split].
  - intros W ext self amount category st resp w d t Hpost Hstatus Hjson Hs Ht.
    eexists.
    rewrite (log_expense_ok self amount category st Hpost Hstatus Hjson)
      by now rewrite Hs.
    now rewrite Ht.
  - exact echo_log_expense.
  - exact echo_log_each.
Qed.

Lemma running_total_from_backend_witness :
  exists message,
    Client.log_expense (ext:=scripted) the_client (of_decimal 660 2)
      (lit "food")
      (one_reply (Ok (ok_response
         (PDict [(lit "success", PBool true);
                 (lit "runningTotal", PFloat (of_decimal 4210 2))]))))
    = (Ok (PDict [(lit "success", PBool true);
                  (lit "message", message);
                  (lit "running_total", PFloat (of_decimal 4210 2))]),
       mkState (mkScript [] []) []).
Proof.
  apply (proj1 running_total_from_backend script scripted the_client
           (of_decimal 660 2) (lit "food")
           (one_reply (Ok (ok_response
              (PDict [(lit "success", PBool true);
                      (lit "runningTotal", PFloat (of_decimal 4210 2))]))))
           (ok_response
              (PDict [(lit "success", PBool true);
                      (lit "runningTotal", PFloat (of_decimal 4210 2))]))
           (mkScript [] [])
           [(lit "success", PBool true);
            (lit "runningTotal", PFloat (of_decimal 4210 2))]
           (PFloat (of_decimal 4210 2)));
    reflexivity.
Defined.

(** C8 (as amended).  For [log_expense] and [call_apps_script_function]:
    a request exception gives [success = False] and the message
    "Request failed: " followed by the exception text; a status other
    than 200 gives [success = False] and "HTTP error " followed by the
    status; a 200 response whose body has a false [success] gives, from
    [log_expense], [success = False] and "Apps Script error: " followed
    by the backend's error text, and from [call_apps_script_function] the
    backend's body itself, unchanged.  The three message shapes are
    pairwise distinct. *)
Theorem failure_layers (W : Type) (ext : Externals W)
    (self : SimpleSheetsClient) :
  (forall amount category st e w,
     requests_post (webapp_url self) (log_payload amount category) 10
       (world st) = (Raise e, w) ->
     is_request_exception e = true ->
     Client.log_expense self amount category st
     = (Ok (failure_with_total (request_failed_msg e)),
        mkState w (chat_log st))) /\
  (forall function_name params st e w,
     requests_post (webapp_url self) (call_payload function_name params) 30
       (world st) = (Raise e, w) ->
     is_request_exception e = true ->
     call_apps_script_function self function_name params st
     = (Ok (failure (request_failed_msg e)), mkState w (chat_log st))) /\
  (forall amount category st resp w,
     requests_post (webapp_url self) (log_payload amount category) 10
       (world st) = (Ok resp, w) ->
     status_code resp <> 200 ->
     Client.log_expense self amount category st
     = (Ok (failure_with_total (http_error_msg (status_code resp))),
        mkState w (chat_log st))) /\
  (forall function_name params st resp w,
     requests_post (webapp_url self) (call_payload function_name params) 30
       (world st) = (Ok resp, w) ->
     status_code resp <> 200 ->
     call_apps_script_function self function_name params st
     = (Ok (failure (http_error_msg (status_code resp))),
        mkState w (chat_log st))) /\
  (forall amount category st resp w d,
     requests_post (webapp_url self) (log_payload amount category) 10
       (world st) = (Ok resp, w) ->
     status_code resp = 200 ->
     json resp = Ok (PDict d) ->
     dict_lookup d (lit "success") = Some (PBool false) ->
     Client.log_expense self amount category st
     = (Ok (failure_with_total
              (apps_script_error_msg
                 (match dict_lookup d (lit "error") with
                  | Some x => x
                  | None => PStr (lit "Unknown error")
                  end))),
        mkState w (chat_log st))) /\
  (forall function_name params st resp w d,
     requests_post (webapp_url self) (call_payload function_name params) 30
       (world st) = (Ok resp, w) ->
     status_code resp = 200 ->
     json resp = Ok (PDict d) ->
     dict_lookup d (lit "success") = Some (PBool false) ->
     call_apps_script_function self function_name params st
     = (Ok (PDict d), mkState w (chat_log st))) /\
  (forall e status err,
     request_failed_msg e <> http_error_msg status /\
     request_failed_msg e <> apps_script_error_msg err /\
     http_error_msg status <> apps_script_error_msg err).
Proof.
  repeat match goal with |- _ /\ _ => split end.
  - intros; eapply log_expense_request_failed; eauto.
  - intros; eapply call_request_failed; eauto.
  - intros; eapply log_expense_http_error; eauto.
  - intros; eapply call_http_error; eauto.
  - intros amount category st resp w d Hpost Hstatus Hjson Hs.
    eapply log_expense_app_failure; eauto. now rewrite Hs.
  - intros; eapply call_app_result; eauto.
  - apply shapes_distinct.
Qed.

Lemma failure_layers_witness :
  Client.log_expense (ext:=scripted) the_client (of_decimal 660 2)
    (lit "food")
    (one_reply (Raise (mk_exn RequestException (lit "timed out"))))
  = (Ok (failure_with_total (lit "Request failed: timed out")),
     mkState (mkScript [] []) []).
Proof.
  apply (proj1 (failure_layers scripted the_client)
           (of_decimal 660 2) (lit "food")
           (one_reply (Raise (mk_exn RequestException (lit "timed out"))))
           (mk_exn RequestException (lit "timed out")) (mkScript [] []));
    reflexivity.
Defined.

(** C8, as stated, fails for [call_apps_script_function]: a status 500
    and a 200 response whose body says "HTTP error 500" come back as the
    same dictionary, so the returned result does not tell the HTTP layer
    from the application layer. *)
Lemma call_layers_not_told_apart :
  fst (call_apps_script_function (ext:=scripted) the_client
         (lit "getMonthlyStats") [(lit "month", PStr (lit "current"))]
         (one_reply (Ok (mkResponse 500 (lit "Internal Server Error")
                           (Raise (mk_exn RequestException (lit "no JSON")))))))
  = Ok (failure (lit "HTTP error 500")) /\
  fst (call_apps_script_function (ext:=scripted) the_client
         (lit "getMonthlyStats") [(lit "month", PStr (lit "current"))]
         (one_reply (Ok (ok_response
            (PDict [(lit "success", PBool false);
                    (lit "message", PStr (lit "HTTP error 500"))])))))
  = Ok (failure (lit "HTTP error 500")).
Proof. split; reflexivity. Qed.

End Ledger.

(** ** The staged analyzer (src/bot/ai_analysis.py) *)

Module Analyzer.

Lemma find_app (c : ascii) (pre rest : str) :
  ~ In c pre -> find c (pre ++ c :: rest) = Z.of_nat (length pre).
Proof.
  induction pre as [|a pre IH]; intros Hn; simpl.
  - now rewrite Ascii.eqb_refl.
  - assert (a <> c) by (intros ->; apply Hn; now left).
    apply Ascii.eqb_neq in H. rewrite H.
    rewrite IH by (intros Hin; apply Hn; now right).
    destruct (Z.of_nat (length pre) <? 0) eqn:E; [apply Z.ltb_lt in E|]; lia.
Qed.

Lemma find_absent (c : ascii) (s : str) : ~ In c s -> find c s = -1.
Proof.
  induction s as [|a s IH]; intros Hn; simpl; [reflexivity|].
  assert (a <> c) by (intros ->; apply Hn; now left).
  apply Ascii.eqb_neq in H. rewrite H.
  rewrite IH by (intros Hin; apply Hn; now right). reflexivity.
Qed.

Lemma rfind_absent (c : ascii) (s : str) : ~ In c s -> rfind c s = -1.
Proof.
  induction s as [|a s IH]; intros Hn; simpl; [reflexivity|].
  assert (a <> c) by (intros ->; apply Hn; now left).
  apply Ascii.eqb_neq in H. rewrite H.
  rewrite IH by (intros Hin; apply Hn; now right). reflexivity.
Qed.

Lemma rfind_app (c : ascii) (pre post : str) :
  ~ In c post -> rfind c (pre ++ c :: post) = Z.of_nat (length pre).
Proof.
  intros Hn. induction pre as [|a pre IH]; simpl.
  - rewrite rfind_absent by assumption. simpl. now rewrite Ascii.eqb_refl.
  - rewrite IH.
    destruct (0 <=? Z.of_nat (length pre)) eqn:E; [|apply Z.leb_gt in E]; lia.
Qed.

(** The slice the parsers decode runs from the first opening brace to
    the last closing brace. *)
Lemma json_span_braces (pre mid post : str) :
  ~ In "{"%char pre -> ~ In "}"%char post ->
  json_span (pre ++ "{"%char :: mid ++ "}"%char :: post)
  = Some ("{"%char :: mid ++ ["}"%char]).
Proof.
  intros Hpre Hpost. unfold json_span.
  rewrite find_app by assumption.
  replace (pre ++ "{"%char :: mid ++ "}"%char :: post)
    with ((pre ++ "{"%char :: mid) ++ "}"%char :: post)
    by (rewrite <- app_assoc; reflexivity).
  rewrite rfind_app by assumption.
  destruct (Z.of_nat (length pre) =? -1) eqn:E1; [apply Z.eqb_eq in E1; lia|].
  destruct (Z.of_nat (length (pre ++ "{"%char :: mid)) + 1 =? 0) eqn:E2;
    [apply Z.eqb_eq in E2; lia|].
  simpl orb. cbv iota. f_equal.
  unfold slice, slice_bound.
  rewrite !length_app. simpl length. try rewrite !length_app. simpl length.
  destruct (Z.of_nat (length pre) <? 0) eqn:E3; [apply Z.ltb_lt in E3; lia|].
  destruct (Z.of_nat (length pre + S (length mid)) + 1 <? 0) eqn:E4;
    [apply Z.ltb_lt in E4; lia|].
  rewrite !Z.min_l by lia.
  rewrite Nat2Z.id.
  replace (Z.to_nat (Z.of_nat (length pre + S (length mid)) + 1
                     - Z.of_nat (length pre)))
    with (S (length mid + 1)) by lia.
  rewrite <- app_assoc. rewrite skipn_app, Nat.sub_diag, skipn_all. simpl.
  f_equal. rewrite firstn_app.
  replace (length mid + 1 - length mid)%nat with 1%nat by lia.
  rewrite firstn_all2 by lia. reflexivity.
Qed.

Lemma json_span_none (response : str) :
  ~ In "{"%char response \/ ~ In "}"%char response ->
  json_span response = None.
Proof.
  intros [H | H]; unfold json_span.
  - now rewrite find_absent.
  - rewrite rfind_absent by assumption. simpl. now rewrite orb_true_r.
Qed.

Lemma find_nonneg (c : ascii) (s : str) : In c s -> 0 <= find c s.
Proof.
  induction s as [|a s IH]; simpl; [tauto|].
  intros H. destruct (Ascii.eqb a c) eqn:E; [lia|].
  destruct H as [H | H]; [subst; now rewrite Ascii.eqb_refl in E|].
  specialize (IH H).
  destruct (find c s <? 0) eqn:E1; [apply Z.ltb_lt in E1|]; lia.
Qed.

Lemma rfind_nonneg (c : ascii) (s : str) : In c s -> 0 <= rfind c s.
Proof.
  induction s as [|a s IH]; simpl; [tauto|].
  intros H. destruct (0 <=? rfind c s) eqn:E1; [apply Z.leb_le in E1; lia|].
  apply Z.leb_gt in E1.
  destruct H as [H | H]; [subst; now rewrite Ascii.eqb_refl|].
  specialize (IH H). lia.
Qed.

Lemma find_bound (c : ascii) (s : str) : find c s <= Z.of_nat (length s).
Proof.
  induction s as [|a s IH]; simpl length; cbn [find]; [lia|].
  destruct (Ascii.eqb a c); [lia|].
  destruct (find c s <? 0); lia.
Qed.

Lemma existsb_absent (c : ascii) (s : str) :
  existsb (Ascii.eqb c) s = false -> ~ In c s.
Proof.
  intros H Hin.
  assert (existsb (Ascii.eqb c) s = true)
    by (apply existsb_exists; exists c; split; [assumption|apply Ascii.eqb_refl]).
  congruence.
Qed.

(** Without a brace pair the last closing brace, if any, comes before
    the first opening brace. *)
Lemma no_pair_order (s : str) :
  has_brace_pair s = false -> 0 <= find "{"%char s ->
  rfind "}"%char s < find "{"%char s.
Proof.
  induction s as [|a s IH]; cbn [has_brace_pair find rfind]; [lia|].
  intros H Hf. apply orb_false_iff in H. destruct H as [H1 H2].
  destruct (Ascii.eqb a "{"%char) eqn:Ea.
  - simpl in H1. apply existsb_absent in H1.
    rewrite (@rfind_absent "}"%char s H1). simpl.
    apply Ascii.eqb_eq in Ea. subst a. simpl. lia.
  - destruct (find "{"%char s <? 0) eqn:E1; [lia|]. apply Z.ltb_ge in E1.
    specialize (IH H2 E1).
    destruct (0 <=? rfind "}"%char s) eqn:E2; [lia|].
    destruct (Ascii.eqb a "}"%char); lia.
Qed.

Lemma slice_empty (s : str) (i j : Z) :
  0 <= j <= i -> slice s i j = [].
Proof.
  intros H. unfold slice, slice_bound.
  destruct (i <? 0) eqn:Ei; [apply Z.ltb_lt in Ei; lia|].
  destruct (j <? 0) eqn:Ej; [apply Z.ltb_lt in Ej; lia|].
  replace (Z.to_nat (Z.min j (Z.of_nat (length s))
                     - Z.min i (Z.of_nat (length s)))) with 0%nat by lia.
  reflexivity.
Qed.

(** Both braces but no pair: the guard lets the text through and the
    slice is empty. *)
Lemma json_span_no_pair (s : str) :
  has_brace_pair s = false -> In "{"%char s -> In "}"%char s ->
  json_span s = Some [].
Proof.
  intros Hp Ho Hc. unfold json_span.
  pose proof (@find_nonneg _ _ Ho) as Hf.
  pose proof (@rfind_nonneg _ _ Hc) as Hr.
  pose proof (@no_pair_order _ Hp Hf) as Hlt.
  destruct (find "{"%char s =? -1) eqn:E1; [apply Z.eqb_eq in E1; lia|].
  destruct (rfind "}"%char s + 1 =? 0) eqn:E2; [apply Z.eqb_eq in E2; lia|].
  simpl. f_equal. apply slice_empty. lia.
Qed.

(** The first occurrence of a character. *)
Lemma first_occurrence (c : ascii) (s : str) :
  In c s -> exists pre post, s = pre ++ c :: post /\ ~ In c pre.
Proof.
  induction s as [|a s IH]; simpl; [tauto|].
  intros H. destruct (Ascii.eqb a c) eqn:E.
  - apply Ascii.eqb_eq in E. subst a. exists [], s. split; [reflexivity|tauto].
  - apply Ascii.eqb_neq in E.
    destruct H as [H | H]; [contradiction|].
    destruct (IH H) as (pre & post & -> & Hn).
    exists (a :: pre), post. split; [reflexivity|].
    intros [Hin | Hin]; [contradiction|now apply Hn].
Qed.

(** The last occurrence of a character. *)
Lemma last_occurrence (c : ascii) (s : str) :
  In c s -> exists pre post, s = pre ++ c :: post /\ ~ In c post.
Proof.
  induction s as [|a s IH]; simpl; [tauto|].
  intros H.
  destruct (existsb (Ascii.eqb c) s) eqn:E.
  - apply existsb_exists in E. destruct E as (x & Hx & Ex).
    apply Ascii.eqb_eq in Ex. subst x.
    destruct (IH Hx) as (pre & post & -> & Hn).
    now exists (a :: pre), post.
  - apply existsb_absent in E.
    destruct H as [H | H]; [|contradiction].
    subst a. now exists [], s.
Qed.

(** A text with a brace pair splits at its first opening and its last
    closing brace. *)
Lemma brace_pair_split (s : str) :
  has_brace_pair s = true ->
  exists pre mid post,
    s = pre ++ "{"%char :: mid ++ "}"%char :: post /\
    ~ In "{"%char pre /\ ~ In "}"%char post.
Proof.
  induction s as [|a s IH]; cbn [has_brace_pair]; [discriminate|].
  intros H.
  destruct (Ascii.eqb a "{"%char) eqn:Ea.
  - apply Ascii.eqb_eq in Ea. subst a.
    destruct (existsb (Ascii.eqb "}"%char) s) eqn:Ec.
    + apply existsb_exists in Ec. destruct Ec as (x & Hx & Ex).
      apply Ascii.eqb_eq in Ex. subst x.
      destruct (@last_occurrence _ _ Hx) as (mid & post & -> & Hn).
      exists [], mid, post. split; [reflexivity|]. split; [tauto|assumption].
    + simpl in H. destruct (IH H) as (pre & mid & post & -> & Hpre & Hpost).
      exfalso. apply existsb_absent in Ec. apply Ec.
      apply in_or_app. right. right. apply in_or_app. right. now left.
  - simpl in H. destruct (IH H) as (pre & mid & post & -> & Hpre & Hpost).
    exists (a :: pre), mid, post. split; [reflexivity|]. split; [|assumption].
    apply Ascii.eqb_neq in Ea.
    intros [Hin | Hin]; [now apply Ea|now apply Hpre].
Qed.

(** A text whose last closing brace comes before its first opening
    brace has both braces: the guard lets it through and the empty slice
    goes to the decoder. *)
Example reversed_braces : json_span (lit "}{") = Some [].
Proof. reflexivity. Qed.

Section Stage1.
Context {W : Type} {ext : Externals W}.

Lemma parse_no_json (response : str) :
  json_span response = None ->
  parse_categorization_response response
  = Raise (value_error (lit "No JSON found in response")).
Proof. unfold parse_categorization_response. now intros ->. Qed.

Lemma parse_malformed (response js msg : str) :
  json_span response = Some js -> json_loads js = inr msg ->
  parse_categorization_response response
  = Raise (mk_exn JSONDecodeError msg).
Proof.
  unfold parse_categorization_response, loads. now intros -> ->.
Qed.

Lemma category_defaults (d : list (str * pyval)) (c : ExpenseCategory) :
  category_of (PDict d) = Ok c ->
  (dict_lookup d (lit "name") = None -> name c = PStr (lit "Unknown")) /\
  (dict_lookup d (lit "total_amount") = None -> total_amount c = of_Z 0) /\
  (dict_lookup d (lit "count") = None -> count c = 0) /\
  (dict_lookup d (lit "descriptions") = None -> descriptions c = PList []) /\
  (dict_lookup d (lit "patterns") = None -> patterns c = PList []).
Proof.
  unfold category_of. cbn [py_get].
  destruct (py_float_of _) as [ta|e] eqn:Eta; [|discriminate].
  destruct (py_int_of _) as [cn|e] eqn:Ecn; [|discriminate].
  intros H. injection H as <-. cbn [name total_amount count descriptions patterns].
  repeat match goal with |- _ /\ _ => split end; intros Hn;
    cbn in Hn, Eta, Ecn |- *;
    try rewrite Hn; try rewrite Hn in Eta; try rewrite Hn in Ecn;
    try reflexivity.
  - vm_compute in Eta. vm_compute. congruence.
  - vm_compute in Ecn. congruence.
Qed.

(** One iteration of the loop builds the category its entry denotes. *)
Lemma category_of_denotes (entry : pyval) (c : ExpenseCategory) :
  category_of entry = Ok c <-> entry_denotes entry c.
Proof.
  unfold entry_denotes. split.
  - destruct entry as [ |b|z|f|s|l|d]; try discriminate.
    unfold category_of. cbn [py_get].
    intros H. exists d. split; [reflexivity|].
    change (match dict_lookup d (lit "total_amount") with
            | Some x => x | None => PInt 0 end)
      with (field_or d (lit "total_amount") (PInt 0)) in H.
    change (match dict_lookup d (lit "count") with
            | Some x => x | None => PInt 0 end)
      with (field_or d (lit "count") (PInt 0)) in H.
    destruct (py_float_of _) as [ta|e]; [|discriminate].
    destruct (py_int_of _) as [cn|e]; [|discriminate].
    injection H as <-. cbn. repeat split; reflexivity.
  - intros (d & -> & Hn & Ht & Hc & Hd & Hp).
    unfold category_of. cbn [py_get].
    change (match dict_lookup d (lit "total_amount") with
            | Some x => x | None => PInt 0 end)
      with (field_or d (lit "total_amount") (PInt 0)).
    change (match dict_lookup d (lit "count") with
            | Some x => x | None => PInt 0 end)
      with (field_or d (lit "count") (PInt 0)).
    rewrite Ht, Hc. destruct c as [n t k ds ps]. cbn in *.
    unfold field_or in *. now subst.
Qed.

Lemma map_res_denotes (items : list pyval) (cats : list ExpenseCategory) :
  map_res category_of items = Ok cats <-> Forall2 entry_denotes items cats.
Proof.
  revert cats. induction items as [|x items IH]; intros cats; cbn [map_res].
  - split.
    + intros H. injection H as <-. constructor.
    + intros H. inversion H. reflexivity.
  - split.
    + destruct (category_of x) as [c|e] eqn:Ex; [|discriminate].
      destruct (map_res category_of items) as [cs|e] eqn:Er; [|discriminate].
      intros H. injection H as <-. constructor.
      * now apply category_of_denotes.
      * now apply IH.
    + intros H. inversion H as [|? c ? cs Hx Hr]; subst.
      apply category_of_denotes in Hx. rewrite Hx.
      apply IH in Hr. now rewrite Hr.
Qed.

(** The whole of stage-1 parsing on a decodable span. *)
Lemma parse_decoded (response js : str) (data : pyval) :
  json_span response = Some js -> json_loads js = inl data ->
  parse_categorization_response response
  = match py_get data (lit "categories") (PList []) with
    | Raise e => Raise e
    | Ok cs => match py_iter cs with
               | Raise e => Raise e
               | Ok items => map_res category_of items
               end
    end.
Proof.
  unfold parse_categorization_response, loads. now intros -> ->.
Qed.

Lemma parse_entries (response js : str) d items cats :
  json_span response = Some js -> json_loads js = inl (PDict d) ->
  py_iter (field_or d (lit "categories") (PList [])) = Ok items ->
  parse_categorization_response response = Ok cats
  <-> Forall2 entry_denotes items cats.
Proof.
  intros Hs Hl Hi. rewrite (@parse_decoded response js (PDict d) Hs Hl). cbn [py_get].
  fold (field_or d (lit "categories") (PList [])). rewrite Hi.
  apply map_res_denotes.
Qed.

End Stage1.

(** C4 (as amended).  Stage-1 parsing decodes the text from the first
    opening brace to the last closing brace, and every text with a brace
    pair splits that way.  A response without an opening or without a
    closing brace fails with ValueError("No JSON found in response").  A
    response with both braces but no pair, every closing brace coming
    before the first opening one, passes the guard: the empty text goes
    to the decoder, and a decoder that rejects it makes the stage fail
    with JSONDecodeError.  A brace-delimited text the decoder rejects
    fails with the decoder's JSONDecodeError.  When the decoder reads the
    text as an object, the stage returns exactly the categories its
    entries denote, one for each entry of "categories" in order, a
    missing field standing for name = "Unknown", total_amount = 0,
    count = 0, descriptions = [], patterns = [].  The example response,
    if the decoder reads its JSON part as the value it denotes, gives the
    one category "Food" with total 12.5 and count 1. *)
Theorem categorization_parsing (W : Type) (ext : Externals W) :
  (forall pre mid post,
     ~ In "{"%char pre -> ~ In "}"%char post ->
     json_span (pre ++ "{"%char :: mid ++ "}"%char :: post)
     = Some ("{"%char :: mid ++ ["}"%char])) /\
  (forall response,
     has_brace_pair response = true ->
     exists pre mid post,
       response = pre ++ "{"%char :: mid ++ "}"%char :: post /\
       ~ In "{"%char pre /\ ~ In "}"%char post) /\
  (forall response,
     ~ In "{"%char response \/ ~ In "}"%char response ->
     parse_categorization_response response
     = Raise (mk_exn ValueError (lit "No JSON found in response"))) /\
  (forall response,
     has_brace_pair response = false ->
     In "{"%char response -> In "}"%char response ->
     json_span response = Some [] /\
     (forall msg,
        json_loads [] = inr msg ->
        parse_categorization_response response
        = Raise (mk_exn JSONDecodeError msg))) /\
  (forall response js msg,
     json_span response = Some js -> json_loads js = inr msg ->
     parse_categorization_response response
     = Raise (mk_exn JSONDecodeError msg)) /\
  (forall response js d items cats,
     json_span response = Some js -> json_loads js = inl (PDict d) ->
     py_iter (field_or d (lit "categories") (PList [])) = Ok items ->
     (parse_categorization_response response = Ok cats
      <-> Forall2 entry_denotes items cats)) /\
  category_of (PDict [])
  = Ok (mkCategory (PStr (lit "Unknown")) (of_Z 0) 0 (PList []) (PList [])) /\
  (forall d c,
     category_of (PDict d) = Ok c ->
     (dict_lookup d (lit "name") = None -> name c = PStr (lit "Unknown")) /\
     (dict_lookup d (lit "total_amount") = None -> total_amount c = of_Z 0) /\
     (dict_lookup d (lit "count") = None -> count c = 0) /\
     (dict_lookup d (lit "descriptions") = None ->
      descriptions c = PList []) /\
     (dict_lookup d (lit "patterns") = None -> patterns c = PList [])) /\
  (json_span example_response = Some example_json /\
   (json_loads example_json = inl example_value ->
    parse_categorization_response example_response
    = Ok [mkCategory (PStr (lit "Food")) (of_decimal 125 1) 1
            (PList [PStr (lit "coffee")]) (PList [])])).
Proof.
  repeat match goal with |- _ /\ _ => split end.
  - apply json_span_braces.
  - apply brace_pair_split.
  - intros response H. apply parse_no_json. now apply json_span_none.
  - intros response Hp Ho Hc. split; [now apply json_span_no_pair|].
    intros msg Hmsg.
    apply (@parse_malformed W ext response [] msg); [|assumption].
    now apply json_span_no_pair.
  - intros; eapply parse_malformed; eauto.
  - intros response js d items cats Hs Hl Hi.
    now apply (@parse_entries W ext response js d items cats).
  - reflexivity.
  - apply category_defaults.
  - reflexivity.
  - intros H. unfold parse_categorization_response.
    change (json_span example_response) with (Some example_json).
    cbv beta iota. unfold loads. rewrite H. reflexivity.
Qed.

Lemma categorization_parsing_witness :
  parse_categorization_response (ext:=scripted) example_response
  = Ok [mkCategory (PStr (lit "Food")) (of_decimal 125 1) 1
          (PList [PStr (lit "coffee")]) (PList [])].
Proof.
  apply (proj2 (proj2 (proj2 (proj2 (proj2 (proj2 (proj2 (proj2 (proj2
           (categorization_parsing scripted)))))))))).
  vm_compute. reflexivity.
Defined.

(** C4, as stated, fails for a text with both braces but no pair: the
    text "oops }{" has no opening brace with a closing brace after it,
    and the stage fails with the decoder's JSONDecodeError, not with the
    no-JSON ValueError. *)
Lemma no_pair_is_malformed :
  has_brace_pair (lit "oops }{") = false /\
  (exists msg,
     parse_categorization_response (ext:=scripted) (lit "oops }{")
     = Raise (mk_exn JSONDecodeError msg)) /\
  parse_categorization_response (ext:=scripted) (lit "oops }{")
  <> Raise (mk_exn ValueError (lit "No JSON found in response")).
Proof.
  split; [reflexivity|]. split.
  - eexists. vm_compute. reflexivity.
  - vm_compute. discriminate.
Qed.

Section Flows.
Context {W : Type} {ext : Externals W}.
Variable self : MistralAnalyzer.

Lemma get_ai_response_eq p st :
  get_ai_response self p st = chat (model_name self) p st.
Proof. apply log_and_reraise_id. Qed.

Lemma chat_log_step model p st r st' :
  chat model p st = (r, st') -> chat_log st' = chat_log st ++ [p].
Proof.
  unfold chat. destruct (ollama_chat model p (world st)) as [r0 w].
  intros H. injection H as _ <-. reflexivity.
Qed.

(** A category with at most one transaction passes through, and the
    model is not called. *)
Lemma one_skip c st :
  count c <= 1 -> analyze_patterns_one self c st = (Ok c, st).
Proof.
  intros H. unfold analyze_patterns_one.
  assert (E : (count c >? 1) = false) by (rewrite Z.gtb_ltb; now apply Z.ltb_ge).
  now rewrite E.
Qed.

(** A category with several transactions gets what the reply holds,
    whatever the reply is. *)
Lemma one_call c st p reply st1 :
  count c > 1 ->
  create_pattern_analysis_prompt c = Ok p ->
  chat (model_name self) p st = (Ok reply, st1) ->
  analyze_patterns_one self c st
  = (Ok (set_patterns c (extract_patterns_from_response reply)), st1).
Proof.
  intros H Hp Hc. unfold analyze_patterns_one.
  assert (E : (count c >? 1) = true) by (apply Z.gtb_lt; lia).
  rewrite E, Hp. unfold bind at 1. cbn [lift].
  rewrite (bind_ok _ _ _ (eq_trans (get_ai_response_eq p st) Hc)).
  reflexivity.
Qed.

Lemma one_inv c st c' st' :
  analyze_patterns_one self c st = (Ok c', st') ->
  (count c <= 1 /\ c' = c /\ st' = st) \/
  (count c > 1 /\ exists p reply,
     create_pattern_analysis_prompt c = Ok p /\
     chat (model_name self) p st = (Ok reply, st') /\
     c' = set_patterns c (extract_patterns_from_response reply)).
Proof.
  unfold analyze_patterns_one.
  destruct (count c >? 1) eqn:E.
  - intros H. right. split; [apply Z.gtb_lt in E; lia|].
    destruct (create_pattern_analysis_prompt c) as [p|e]; [|discriminate].
    unfold bind at 1 in H. cbn [lift] in H.
    apply bind_ok_inv in H as (reply & st1 & Hc & Hr).
    rewrite get_ai_response_eq in Hc. injection Hr as <- <-.
    now exists p, reply.
  - intros H. injection H as <- <-. left.
    rewrite Z.gtb_ltb in E. apply Z.ltb_ge in E. auto.
Qed.

(** The stage returns exactly on the complete runs. *)
Lemma patterns_flow_run cats : forall st cats' st',
  analyze_patterns_flow self cats st = (Ok cats', st') <->
  patterns_run self cats st cats' st'.
Proof.
  unfold analyze_patterns_flow.
  induction cats as [|c rest IH]; intros st cats' st';
    rewrite log_and_reraise_id; cbn [analyze_patterns_loop].
  - split.
    + intros H. injection H as <- <-. constructor.
    + intros H. inversion H; subst. reflexivity.
  - split.
    + intros H. apply bind_ok_inv in H as (c1 & st1 & H1 & H).
      apply bind_ok_inv in H as (rest1 & st2 & H2 & H).
      injection H as <- <-.
      rewrite <- log_and_reraise_id in H2. apply IH in H2.
      apply one_inv in H1
        as [(Hc & -> & ->) | (Hc & p & reply & Hp & Hch & ->)].
      * now apply run_skip.
      * eapply run_call; eauto.
    + intros H.
      inversion H as [|c0 r0 s0 r1 s1 Hc Hrun|
                      c0 r0 s0 p reply s1 r1 s2 Hc Hp Hch Hrun]; subst.
      * rewrite (bind_ok _ _ _ (one_skip c st Hc)).
        apply IH in Hrun. rewrite log_and_reraise_id in Hrun.
        now rewrite (bind_ok _ _ _ Hrun).
      * rewrite (bind_ok _ _ _ (one_call c st Hc Hp Hch)).
        apply IH in Hrun. rewrite log_and_reraise_id in Hrun.
        now rewrite (bind_ok _ _ _ Hrun).
Qed.

(** A run changes nothing but patterns. *)
Lemma run_keeps_amounts cats st cats' st' :
  patterns_run self cats st cats' st' ->
  map total_amount cats' = map total_amount cats /\
  map count cats' = map count cats /\
  map name cats' = map name cats.
Proof.
  induction 1 as [|? ? ? ? ? ? ? (IH1 & IH2 & IH3)
                  |? ? ? ? ? ? ? ? ? ? ? ? (IH1 & IH2 & IH3)];
    simpl; auto; now rewrite IH1, IH2, IH3.
Qed.

(** A run leaves the categories with at most one transaction alone. *)
Lemma run_keeps_singles cats st cats' st' :
  patterns_run self cats st cats' st' ->
  Forall2 (fun c c' => count c <= 1 -> c' = c) cats cats'.
Proof.
  induction 1; constructor; auto. intros; lia.
Qed.

(** The model is asked the prompts of the categories with several
    transactions, in order, and nothing else. *)
Lemma run_prompts cats st cats' st' :
  patterns_run self cats st cats' st' ->
  chat_log st' = chat_log st ++ pattern_prompts cats.
Proof.
  induction 1 as [st|c rest st rest' st' Hc Hrun IH
                  |c rest st p reply st1 rest' st' Hc Hp Hch Hrun IH];
    unfold pattern_prompts; cbn [flat_map];
    try fold (pattern_prompts rest).
  - now rewrite app_nil_r.
  - assert (E : (count c >? 1) = false)
      by (rewrite Z.gtb_ltb; now apply Z.ltb_ge).
    now rewrite E.
  - assert (E : (count c >? 1) = true) by (apply Z.gtb_lt; lia).
    rewrite E, Hp, IH, (chat_log_step _ _ _ Hch), <- app_assoc.
    reflexivity.
Qed.

Lemma pattern_prompts_cons c rest :
  pattern_prompts (c :: rest) = pattern_prompts [c] ++ pattern_prompts rest.
Proof.
  unfold pattern_prompts. cbn [flat_map]. now rewrite app_nil_r.
Qed.

Lemma one_prompts c st r st' :
  analyze_patterns_one self c st = (r, st') ->
  chat_log st' = chat_log st ++ pattern_prompts [c].
Proof.
  unfold analyze_patterns_one, pattern_prompts. cbn [flat_map].
  destruct (count c >? 1).
  - destruct (create_pattern_analysis_prompt c) as [p|e].
    + rewrite (bind_lift_ok _ _ (a:=p)) by reflexivity.
      destruct (chat (model_name self) p st) as [[reply|e] st1] eqn:Hch.
      * rewrite (bind_ok _ _ _ (eq_trans (get_ai_response_eq p st) Hch)).
        intros H. injection H as _ <-. apply (chat_log_step _ _ _ Hch).
      * rewrite (bind_raise _ _ _ (eq_trans (get_ai_response_eq p st) Hch)).
        intros H. injection H as _ <-. apply (chat_log_step _ _ _ Hch).
    + intros H. injection H as _ <-. now rewrite app_nil_r.
  - intros H. injection H as _ <-. now rewrite app_nil_r.
Qed.

(** Whatever the outcome of the stage, the prompts sent are an initial
    part of those of the categories with several transactions. *)
Lemma flow_prompts cats : forall st r st',
  analyze_patterns_flow self cats st = (r, st') ->
  exists sent unsent,
    chat_log st' = chat_log st ++ sent /\
    pattern_prompts cats = sent ++ unsent.
Proof.
  unfold analyze_patterns_flow.
  induction cats as [|c rest IH]; intros st r st';
    rewrite log_and_reraise_id; cbn [analyze_patterns_loop].
  - intros H. injection H as _ <-. exists [], []. now rewrite app_nil_r.
  - rewrite pattern_prompts_cons.
    destruct (analyze_patterns_one self c st) as [[c'|e] st1] eqn:H1;
      pose proof (one_prompts _ _ H1) as Hl1.
    + rewrite (bind_ok _ _ _ H1).
      destruct (analyze_patterns_loop self rest st1) as [r2 st2] eqn:H2.
      assert (H2' := H2). rewrite <- log_and_reraise_id in H2'.
      destruct (IH _ _ _ H2') as (s2 & u2 & Hl2 & Hp2).
      intros H. assert (st' = st2) as ->.
      { unfold bind in H. rewrite H2 in H. destruct r2; now injection H. }
      exists (pattern_prompts [c] ++ s2), u2. split.
      * now rewrite Hl2, Hl1, app_assoc.
      * now rewrite Hp2, app_assoc.
    + rewrite (bind_raise _ _ _ H1). intros H. injection H as _ <-.
      exists (pattern_prompts [c]), (pattern_prompts rest). auto.
Qed.

End Flows.

Section Pipeline.
Context {W : Type} {ext : Externals W}.
Variable self : MistralAnalyzer.

Lemma insights_flow_ok cats total total_count st p reply st1 :
  create_insights_prompt cats total total_count = Ok p ->
  chat (model_name self) p st = (Ok reply, st1) ->
  generate_insights_flow self cats total total_count st
  = (Ok (parse_insights_response reply), st1).
Proof.
  intros Hp Hc. unfold generate_insights_flow.
  rewrite log_and_reraise_id, Hp.
  rewrite (bind_lift_ok _ _ (a:=p)) by reflexivity.
  now rewrite (bind_ok _ _ _ (eq_trans (get_ai_response_eq self p st) Hc)).
Qed.

Lemma analyze_ok_inv period st r st' :
  analyze_expenses self period st = (Ok r, st') ->
  exists df st1 cats1 st2 cats2 st3 ins recs,
    extract_expense_data self period st = (Ok df, st1) /\
    frame_empty df = false /\
    categorize_expenses_flow self df st1 = (Ok cats1, st2) /\
    analyze_patterns_flow self cats1 st2 = (Ok cats2, st3) /\
    generate_insights_flow self cats2
      (py_sum_floats (map total_amount cats2))
      (py_sum_ints (map count cats2)) st3 = (Ok (ins, recs), st') /\
    r = result_of period cats2 ins recs (now (world st')).
Proof.
  unfold analyze_expenses. rewrite log_and_reraise_id. intros H.
  apply bind_ok_inv in H as (df & st1 & Hdf & H).
  destruct (frame_empty df) eqn:Hempty; [discriminate|].
  apply bind_ok_inv in H as (cats1 & st2 & H1 & H).
  apply bind_ok_inv in H as (cats2 & st3 & H2 & H).
  apply bind_ok_inv in H as ([ins recs] & st4 & H3 & H).
  apply bind_ok_inv in H as (date & st5 & Hclock & H).
  unfold clock in Hclock. injection Hclock as <- <-.
  injection H as <- <-.
  exists df, st1, cats1, st2, cats2, st3, ins, recs. repeat split; auto.
Qed.

Lemma analyze_ok period st df st1 cats1 st2 cats2 st3 ins recs st4 :
  extract_expense_data self period st = (Ok df, st1) ->
  frame_empty df = false ->
  categorize_expenses_flow self df st1 = (Ok cats1, st2) ->
  analyze_patterns_flow self cats1 st2 = (Ok cats2, st3) ->
  generate_insights_flow self cats2
    (py_sum_floats (map total_amount cats2))
    (py_sum_ints (map count cats2)) st3 = (Ok (ins, recs), st4) ->
  analyze_expenses self period st
  = (Ok (result_of period cats2 ins recs (now (world st4))), st4).
Proof.
  intros Hdf Hempty H1 H2 H3.
  unfold analyze_expenses. rewrite log_and_reraise_id.
  rewrite (bind_ok _ _ _ Hdf), Hempty.
  rewrite (bind_ok _ _ _ H1), (bind_ok _ _ _ H2), (bind_ok _ _ _ H3).
  reflexivity.
Qed.

(** A failure of the data extraction or of stage 1 leaves
    [analyze_expenses] by the same exception. *)
Lemma analyze_raises_extract period st e st1 :
  extract_expense_data self period st = (Raise e, st1) ->
  analyze_expenses self period st = (Raise e, st1).
Proof.
  intros H. unfold analyze_expenses.
  now rewrite log_and_reraise_id, (bind_raise _ _ _ H).
Qed.

Lemma analyze_raises_stage1 period st df st1 e st2 :
  extract_expense_data self period st = (Ok df, st1) ->
  frame_empty df = false ->
  categorize_expenses_flow self df st1 = (Raise e, st2) ->
  analyze_expenses self period st = (Raise e, st2).
Proof.
  intros Hdf Hempty H. unfold analyze_expenses.
  rewrite log_and_reraise_id, (bind_ok _ _ _ Hdf), Hempty.
  now rewrite (bind_raise _ _ _ H).
Qed.

End Pipeline.

Section Degrade.
Context {W : Type} {ext : Externals W}.

Lemma extract_no_json reply :
  json_span reply = None -> extract_patterns_from_response reply = PList [].
Proof. unfold extract_patterns_from_response. now intros ->. Qed.

Lemma extract_malformed reply js msg :
  json_span reply = Some js -> json_loads js = inr msg ->
  extract_patterns_from_response reply = PList [].
Proof. unfold extract_patterns_from_response, loads. now intros -> ->. Qed.

Lemma extract_json reply js d :
  json_span reply = Some js -> json_loads js = inl (PDict d) ->
  extract_patterns_from_response reply
  = match dict_lookup d (lit "patterns") with
    | Some ps => ps
    | None => PList []
    end.
Proof. unfold extract_patterns_from_response, loads. now intros -> ->. Qed.

Lemma insights_no_json reply :
  json_span reply = None ->
  parse_insights_response reply = (PList [], PList []).
Proof. unfold parse_insights_response. now intros ->. Qed.

Lemma insights_malformed reply js msg :
  json_span reply = Some js -> json_loads js = inr msg ->
  parse_insights_response reply = (PList [], PList []).
Proof. unfold parse_insights_response, loads. now intros -> ->. Qed.

End Degrade.

Lemma sum_counts_eq (l : list Z) : py_sum_ints l = sum_counts l.
Proof.
  unfold py_sum_ints, sum_counts.
  apply fold_symmetric; intros; lia.
Qed.

Lemma sum_amounts_eq (W : Type) (ext : Externals W) (l : list float) :
  py_sum_floats l = sum_amounts l.
Proof. now destruct l. Qed.

Lemma SFeqb_refl (f : float) :
  SFeqb f f = match f with S754_nan => false | _ => true end.
Proof.
  unfold SFeqb, SFcompare.
  destruct f as [[|]|[|]| |[|] m e]; try reflexivity;
    rewrite Z.compare_refl, ?Pos.compare_refl; reflexivity.
Qed.

Lemma py_num_eq_refl (v : pyval) :
  (exists z, v = PInt z) \/ (exists f, v = PFloat f) ->
  py_num_eq v v = Some (negb (is_nan_value v)).
Proof.
  intros [(z & ->) | (f & ->)]; cbn [py_num_eq is_nan_value].
  - now rewrite Z.eqb_refl.
  - rewrite SFeqb_refl. now destruct f.
Qed.

(** C3 (as amended).  Every result of [analyze_expenses] has
    [total_expenses] the sum of [total_amount] over its categories, the
    int 0 when there is none and the float sum otherwise, and
    [total_transactions] the sum of [count] over them; both are also the
    sums over the categories stage 1 produced.  The count and its sum are
    equal under [==]; the total and its sum are equal under [==] exactly
    when the total is not a NaN. *)
Theorem totals_are_sums (W : Type) (ext : Externals W)
    (self : MistralAnalyzer) (period : str) st r st' :
  analyze_expenses self period st = (Ok r, st') ->
  total_expenses r = sum_amounts (map total_amount (categories r)) /\
  total_transactions r = sum_counts (map count (categories r)) /\
  py_num_eq (total_expenses r)
    (sum_amounts (map total_amount (categories r)))
  = Some (negb (is_nan_value (total_expenses r))) /\
  py_num_eq (PInt (total_transactions r))
    (PInt (sum_counts (map count (categories r)))) = Some true /\
  exists df st1 stage1 st2,
    extract_expense_data self period st = (Ok df, st1) /\
    categorize_expenses_flow self df st1 = (Ok stage1, st2) /\
    total_expenses r = sum_amounts (map total_amount stage1) /\
    total_transactions r = sum_counts (map count stage1).
Proof.
  intros H.
  apply analyze_ok_inv in H
    as (df & st1 & cats1 & st2 & cats2 & st3 & ins & recs
        & Hdf & _ & H1 & H2 & _ & ->).
  cbn [result_of total_expenses total_transactions categories].
  rewrite sum_counts_eq, sum_amounts_eq.
  split; [reflexivity | split; [reflexivity|]].
  split.
  { apply py_num_eq_refl. unfold sum_amounts.
    destruct (map total_amount cats2); [left | right]; eexists; reflexivity. }
  split; [cbn [py_num_eq]; now rewrite Z.eqb_refl|].
  exists df, st1, cats1, st2. split; [exact Hdf | split; [exact H1|]].
  apply patterns_flow_run, run_keeps_amounts in H2 as (-> & -> & _).
  now split.
Qed.

Lemma totals_are_sums_witness :
  exists r st',
    analyze_expenses (ext:=scripted) the_analyzer (lit "monthly")
      (analysis_world (reply "{'insights':['less matcha'],'recommendations':[]}"))
    = (Ok r, st') /\
    total_expenses r
    = sum_amounts (ext:=scripted) (map total_amount (categories r)) /\
    total_transactions r = sum_counts (map count (categories r)).
Proof.
  destruct (analyze_expenses (ext:=scripted) the_analyzer (lit "monthly")
      (analysis_world (reply "{'insights':['less matcha'],'recommendations':[]}")))
    as [[r|e] st'] eqn:E.
  - exists r, st'. split; [reflexivity|].
    destruct (@totals_are_sums _ _ _ _ _ _ _ E) as (H1 & H2 & _). now split.
  - vm_compute in E. discriminate.
Defined.

(** C3, as stated, fails when the total is a NaN: with two categories
    whose amounts are the two infinities the analysis returns a result
    whose total is a NaN, which [==] does not find equal to the sum over
    the categories. *)
Lemma nan_total_unequal :
  exists r st',
    analyze_expenses (ext:=scripted) the_analyzer (lit "monthly")
      opposite_world = (Ok r, st') /\
    map total_amount (categories r)
    = [S754_infinity false; S754_infinity true] /\
    total_expenses r = PFloat S754_nan /\
    py_num_eq (total_expenses r)
      (sum_amounts (ext:=scripted) (map total_amount (categories r)))
    = Some false.
Proof.
  destruct (analyze_expenses (ext:=scripted) the_analyzer (lit "monthly")
              opposite_world) as [[r|e] st'] eqn:E.
  - exists r, st'. split; [reflexivity|].
    vm_compute in E. injection E as <- _.
    vm_compute. repeat split; reflexivity.
  - vm_compute in E. discriminate.
Qed.

(** C5.  In stages 2 and 3 a reply without a brace pair, or whose
    brace-delimited text the decoder rejects, gives empty lists and no
    exception: a category with several transactions gets whatever its own
    reply holds, and the stage returns on every complete run, so that with
    one reply out of several that is no JSON only that category's
    patterns are empty and the others keep the patterns of their replies;
    an insights reply that is no JSON gives empty insights and
    recommendations, and the analysis still returns its result. *)
Theorem local_degradation (W : Type) (ext : Externals W)
    (self : MistralAnalyzer) :
  (forall r, json_span r = None ->
     extract_patterns_from_response r = PList [] /\
     parse_insights_response r = (PList [], PList [])) /\
  (forall r js msg, json_span r = Some js -> json_loads js = inr msg ->
     extract_patterns_from_response r = PList [] /\
     parse_insights_response r = (PList [], PList [])) /\
  (forall r js d, json_span r = Some js -> json_loads js = inl (PDict d) ->
     extract_patterns_from_response r
     = match dict_lookup d (lit "patterns") with
       | Some ps => ps
       | None => PList []
       end) /\
  (forall c st p r st1,
     count c > 1 ->
     create_pattern_analysis_prompt c = Ok p ->
     chat (model_name self) p st = (Ok r, st1) ->
     analyze_patterns_one self c st
     = (Ok (set_patterns c (extract_patterns_from_response r)), st1)) /\
  (forall cats st cats' st',
     analyze_patterns_flow self cats st = (Ok cats', st') <->
     patterns_run self cats st cats' st') /\
  (forall cats total total_count st p r st1,
     create_insights_prompt cats total total_count = Ok p ->
     chat (model_name self) p st = (Ok r, st1) ->
     generate_insights_flow self cats total total_count st
     = (Ok (parse_insights_response r), st1)) /\
  (forall period st df st1 cats1 st2 cats2 st3 p r st4,
     extract_expense_data self period st = (Ok df, st1) ->
     frame_empty df = false ->
     categorize_expenses_flow self df st1 = (Ok cats1, st2) ->
     analyze_patterns_flow self cats1 st2 = (Ok cats2, st3) ->
     create_insights_prompt cats2 (py_sum_floats (map total_amount cats2))
       (py_sum_ints (map count cats2)) = Ok p ->
     chat (model_name self) p st3 = (Ok r, st4) ->
     json_span r = None ->
     analyze_expenses self period st
     = (Ok (result_of period cats2 (PList []) (PList []) (now (world st4))),
        st4)) /\
  fst (analyze_patterns_flow (ext:=scripted) the_analyzer three_categories
         one_bad_reply)
  = Ok [category "Food" 4000 3 ["coffee daily"%string];
        category "Transport" 4500 2 [];
        category "Shopping" 12000 4 ["weekend trips"%string]].
Proof.
  repeat match goal with |- _ /\ _ => split end.
  - intros r Hr. split; [now apply extract_no_json | now apply insights_no_json].
  - intros r js msg Hr Hl.
    split; [eapply extract_malformed | eapply insights_malformed]; eauto.
  - intros; eapply extract_json; eauto.
  - intros; eapply one_call; eauto.
  - apply patterns_flow_run.
  - intros; eapply insights_flow_ok; eauto.
  - intros period st df st1 cats1 st2 cats2 st3 p r st4
           Hdf Hempty H1 H2 Hp Hc Hr.
    eapply analyze_ok; eauto.
    rewrite (insights_flow_ok self _ _ _ _ Hp Hc).
    now rewrite (insights_no_json _ Hr).
  - vm_compute. reflexivity.
Qed.

Lemma local_degradation_witness :
  extract_patterns_from_response (ext:=scripted)
    (lit "Sorry, I cannot answer that.") = PList [] /\
  parse_insights_response (ext:=scripted)
    (lit "Sorry, I cannot answer that.") = (PList [], PList []).
Proof.
  apply (proj1 (local_degradation scripted the_analyzer)). reflexivity.
Defined.

(** An insights reply that is no JSON: the analysis returns, with no
    insights and no recommendations. *)
Example analysis_without_insights :
  exists r st',
    analyze_expenses (ext:=scripted) the_analyzer (lit "monthly")
      (analysis_world (Ok (lit "I would rather not say.")))
    = (Ok r, st') /\
    insights r = PList [] /\ recommendations r = PList [] /\
    map patterns (categories r) = [PList [PStr (lit "matcha 3 times")]].
Proof.
  destruct (analyze_expenses (ext:=scripted) the_analyzer (lit "monthly")
      (analysis_world (Ok (lit "I would rather not say."))))
    as [[r|e] st'] eqn:E; vm_compute in E; [|discriminate].
  exists r, st'. split; [reflexivity|].
  injection E as <- _. repeat split.
Qed.

(** C6 (as amended).  After the pattern-analysis stage every category
    whose count is at most 1 is the category stage 1 produced, with the
    patterns it had there (the empty list when its stage-1 entry has no
    [patterns] field); no model call is made for such categories: the
    prompts sent are those of the categories with count > 1, in order,
    all of them when the stage returns and an initial part of them when
    it raises. *)
Theorem single_transactions_pass (W : Type) (ext : Externals W)
    (self : MistralAnalyzer) :
  (forall cats st cats' st',
     analyze_patterns_flow self cats st = (Ok cats', st') ->
     Forall2 (fun c c' => count c <= 1 -> c' = c) cats cats' /\
     chat_log st' = chat_log st ++ pattern_prompts cats) /\
  (forall cats st r st',
     analyze_patterns_flow self cats st = (r, st') ->
     exists sent unsent,
       chat_log st' = chat_log st ++ sent /\
       pattern_prompts cats = sent ++ unsent) /\
  (forall cats,
     Forall (fun c => count c <= 1) cats -> pattern_prompts cats = []) /\
  (forall c st, count c <= 1 ->
     analyze_patterns_one self c st = (Ok c, st)) /\
  (forall d c,
     category_of (PDict d) = Ok c ->
     dict_lookup d (lit "patterns") = None -> patterns c = PList []).
Proof.
  repeat match goal with |- _ /\ _ => split end.
  - intros cats st cats' st' H. apply patterns_flow_run in H.
    split; [now apply run_keeps_singles in H | now apply run_prompts in H].
  - intros; eapply flow_prompts; eauto.
  - induction 1 as [|c cats Hc _ IH]; [reflexivity|].
    rewrite pattern_prompts_cons, IH, app_nil_r.
    unfold pattern_prompts. cbn [flat_map].
    assert (E : (count c >? 1) = false)
      by (rewrite Z.gtb_ltb; now apply Z.ltb_ge).
    now rewrite E.
  - intros; now apply one_skip.
  - intros d c H. now apply category_defaults in H.
Qed.

Lemma single_transactions_pass_witness :
  analyze_patterns_one (ext:=scripted) the_analyzer
    (category "Rent" 90000 1 []) quiet_world
  = (Ok (category "Rent" 90000 1 []), quiet_world).
Proof.
  apply (proj1 (proj2 (proj2 (proj2
           (single_transactions_pass scripted the_analyzer))))).
  vm_compute. discriminate.
Defined.

(** C6, as stated, fails: a category that stage 1 read with count 1 and
    a pattern leaves the pattern-analysis stage with that pattern. *)
Lemma single_transaction_keeps_patterns :
  exists c,
    parse_categorization_response (ext:=scripted) eager_reply = Ok [c] /\
    count c = 1 /\
    analyze_patterns_flow (ext:=scripted) the_analyzer [c] quiet_world
    = (Ok [c], quiet_world) /\
    patterns c = PList [PStr (lit "monthly")] /\
    patterns c <> PList [].
Proof.
  eexists. split; [vm_compute; reflexivity|].
  repeat split; try reflexivity. discriminate.
Qed.

End Analyzer.

(** ** What the core operations hand to their callers *)

Module Core.

Section Outcome.
Context {W : Type} {ext : Externals W}.
Variable self : MistralAnalyzer.

(** An empty frame stops the analysis. *)
Lemma analyze_raises_empty period st df st1 :
  extract_expense_data self period st = (Ok df, st1) ->
  frame_empty df = true ->
  analyze_expenses self period st
  = (Raise (value_error (lit "No expense data found for " ++ period
                         ++ lit " period")), st1).
Proof.
  intros Hdf Hempty. unfold analyze_expenses.
  now rewrite log_and_reraise_id, (bind_ok _ _ _ Hdf), Hempty.
Qed.

Lemma analyze_raises_stage2 period st df st1 cats1 st2 e st3 :
  extract_expense_data self period st = (Ok df, st1) ->
  frame_empty df = false ->
  categorize_expenses_flow self df st1 = (Ok cats1, st2) ->
  analyze_patterns_flow self cats1 st2 = (Raise e, st3) ->
  analyze_expenses self period st = (Raise e, st3).
Proof.
  intros Hdf Hempty H1 H2. unfold analyze_expenses.
  rewrite log_and_reraise_id, (bind_ok _ _ _ Hdf), Hempty.
  now rewrite (bind_ok _ _ _ H1), (bind_raise _ _ _ H2).
Qed.

Lemma analyze_raises_stage3 period st df st1 cats1 st2 cats2 st3 e st4 :
  extract_expense_data self period st = (Ok df, st1) ->
  frame_empty df = false ->
  categorize_expenses_flow self df st1 = (Ok cats1, st2) ->
  analyze_patterns_flow self cats1 st2 = (Ok cats2, st3) ->
  generate_insights_flow self cats2
    (py_sum_floats (map total_amount cats2))
    (py_sum_ints (map count cats2)) st3 = (Raise e, st4) ->
  analyze_expenses self period st = (Raise e, st4).
Proof.
  intros Hdf Hempty H1 H2 H3. unfold analyze_expenses.
  rewrite log_and_reraise_id, (bind_ok _ _ _ Hdf), Hempty.
  now rewrite (bind_ok _ _ _ H1), (bind_ok _ _ _ H2), (bind_raise _ _ _ H3).
Qed.

(** What a raise of [analyze_expenses] comes from. *)
Lemma analyze_raise_inv period st e st' :
  analyze_expenses self period st = (Raise e, st') ->
  extract_expense_data self period st = (Raise e, st') \/
  (exists df,
     extract_expense_data self period st = (Ok df, st') /\
     frame_empty df = true /\
     e = value_error (lit "No expense data found for " ++ period
                      ++ lit " period")) \/
  (exists df st1,
     extract_expense_data self period st = (Ok df, st1) /\
     frame_empty df = false /\
     categorize_expenses_flow self df st1 = (Raise e, st')) \/
  (exists df st1 cats1 st2,
     extract_expense_data self period st = (Ok df, st1) /\
     frame_empty df = false /\
     categorize_expenses_flow self df st1 = (Ok cats1, st2) /\
     analyze_patterns_flow self cats1 st2 = (Raise e, st')) \/
  (exists df st1 cats1 st2 cats2 st3,
     extract_expense_data self period st = (Ok df, st1) /\
     frame_empty df = false /\
     categorize_expenses_flow self df st1 = (Ok cats1, st2) /\
     analyze_patterns_flow self cats1 st2 = (Ok cats2, st3) /\
     generate_insights_flow self cats2
       (py_sum_floats (map total_amount cats2))
       (py_sum_ints (map count cats2)) st3 = (Raise e, st')).
Proof.
  unfold analyze_expenses. rewrite log_and_reraise_id. unfold bind at 1.
  destruct (extract_expense_data self period st) as [[df|e0] st1] eqn:E0.
  - destruct (frame_empty df) eqn:Eempty.
    + unfold raise. intros H. injection H as <- <-.
      right; left. now exists df.
    + unfold bind at 1.
      destruct (categorize_expenses_flow self df st1) as [[cats1|e1] st2]
        eqn:E1.
      * unfold bind at 1.
        destruct (analyze_patterns_flow self cats1 st2) as [[cats2|e2] st3]
          eqn:E2.
        -- unfold bind at 1.
           destruct (generate_insights_flow self cats2 _ _ st3)
             as [[[ins recs]|e3] st4] eqn:E3.
           ++ unfold bind, clock, ret. discriminate.
           ++ intros H. injection H as <- <-.
              right; right; right; right.
              exists df, st1, cats1, st2, cats2, st3. auto.
        -- intros H. injection H as <- <-.
           right; right; right; left. exists df, st1, cats1, st2. auto.
      * intros H. injection H as <- <-.
        right; right; left. exists df, st1. auto.
  - intros H. injection H as <- <-. now left.
Qed.

End Outcome.

(** C9 (as amended).  Whatever the external services do, expense logging
    (the client's and the facade's [log_expense]), a named web-hook call
    and the facade's data query return a value.  [analyze_expenses] does
    not: it returns a result exactly when the data extraction gives a
    frame that is not empty and the three stages succeed one after the
    other, the result being built from what they return; and it raises
    exactly when one of them fails, with the exception of the one that
    fails: the data extraction, the check for an empty frame
    (ValueError "No expense data found for ... period"), stage 1,
    stage 2 or stage 3. *)
Theorem outcomes_returned (W : Type) (ext : Externals W) :
  (forall (self : SimpleSheetsClient) amount category st,
     exists v st', Client.log_expense self amount category st = (Ok v, st')) /\
  (forall (self : SimpleSheetsClient) function_name params st,
     exists v st',
       call_apps_script_function self function_name params st
       = (Ok v, st')) /\
  (forall (self : SheetOperations) amount category st,
     exists v st',
       Operations.log_expense self amount category st = (Ok v, st')) /\
  (forall (self : SheetOperations) period st,
     exists v st',
       get_expense_data_for_analysis self period st = (Ok v, st')) /\
  (forall (self : MistralAnalyzer) period st r st',
     analyze_expenses self period st = (Ok r, st') <->
     exists df st1 cats1 st2 cats2 st3 ins recs,
       extract_expense_data self period st = (Ok df, st1) /\
       frame_empty df = false /\
       categorize_expenses_flow self df st1 = (Ok cats1, st2) /\
       analyze_patterns_flow self cats1 st2 = (Ok cats2, st3) /\
       generate_insights_flow self cats2
         (py_sum_floats (map total_amount cats2))
         (py_sum_ints (map count cats2)) st3 = (Ok (ins, recs), st') /\
       r = result_of period cats2 ins recs (now (world st'))) /\
  (forall (self : MistralAnalyzer) period st e st',
     analyze_expenses self period st = (Raise e, st') <->
     extract_expense_data self period st = (Raise e, st') \/
     (exists df,
        extract_expense_data self period st = (Ok df, st') /\
        frame_empty df = true /\
        e = value_error (lit "No expense data found for " ++ period
                         ++ lit " period")) \/
     (exists df st1,
        extract_expense_data self period st = (Ok df, st1) /\
        frame_empty df = false /\
        categorize_expenses_flow self df st1 = (Raise e, st')) \/
     (exists df st1 cats1 st2,
        extract_expense_data self period st = (Ok df, st1) /\
        frame_empty df = false /\
        categorize_expenses_flow self df st1 = (Ok cats1, st2) /\
        analyze_patterns_flow self cats1 st2 = (Raise e, st')) \/
     (exists df st1 cats1 st2 cats2 st3,
        extract_expense_data self period st = (Ok df, st1) /\
        frame_empty df = false /\
        categorize_expenses_flow self df st1 = (Ok cats1, st2) /\
        analyze_patterns_flow self cats1 st2 = (Ok cats2, st3) /\
        generate_insights_flow self cats2
          (py_sum_floats (map total_amount cats2))
          (py_sum_ints (map count cats2)) st3 = (Raise e, st'))).
Proof.
  repeat match goal with |- _ /\ _ => split end.
  - intros; apply Ledger.log_expense_returns.
  - intros; apply Ledger.call_returns.
  - intros; apply Ledger.facade_log_expense_returns.
  - intros; apply Ledger.get_expense_data_returns.
  - intros self period st r st'. split.
    + apply Analyzer.analyze_ok_inv.
    + intros (df & st1 & cats1 & st2 & cats2 & st3 & ins & recs
              & Hdf & Hempty & H1 & H2 & H3 & ->).
      eapply Analyzer.analyze_ok; eauto.
  - intros self period st e st'. split.
    + apply analyze_raise_inv.
    + intros [H | [(df & Hdf & Hempty & ->)
               | [(df & st1 & Hdf & Hempty & H1)
               | [(df & st1 & cats1 & st2 & Hdf & Hempty & H1 & H2)
               | (df & st1 & cats1 & st2 & cats2 & st3
                  & Hdf & Hempty & H1 & H2 & H3)]]]].
      * now apply Analyzer.analyze_raises_extract.
      * eapply analyze_raises_empty; eauto.
      * eapply Analyzer.analyze_raises_stage1; eauto.
      * eapply analyze_raises_stage2; eauto.
      * eapply analyze_raises_stage3; eauto.
Qed.

Lemma outcomes_returned_witness :
  analyze_expenses (ext:=scripted) the_analyzer (lit "monthly") quiet_world
  = (Raise (mk_exn ValueError
              (lit "Failed to get expense data: Request failed: connection refused")),
     quiet_world).
Proof.
  apply (proj2 (proj2 (proj2 (proj2 (proj2 (outcomes_returned scripted)))))).
  left. reflexivity.
Defined.

(** C9, as stated, fails for [analyze_expenses]: when the model's stage-1
    text holds no JSON, the call does not return a value but raises
    ValueError("No JSON found in response"). *)
Lemma analyze_expenses_raises :
  fst (analyze_expenses (ext:=scripted) the_analyzer (lit "monthly")
         (mkState
            (mkScript
               [Ok (ok_response (PDict [(lit "success", PBool true);
                                        (lit "data", PList [])]))]
               [Ok (lit "I have no idea.")]) []))
  = Raise (mk_exn ValueError (lit "No JSON found in response")).
Proof. vm_compute. reflexivity. Qed.

End Core.

(** ** More on trimming *)

Module TrimFacts.

Lemma dropwhile_app (p : ascii -> bool) (u v : str) :
  dropwhile p (u ++ v)
  = match dropwhile p u with [] => dropwhile p v | r => r ++ v end.
Proof.
  induction u as [|a u IH]; simpl.
  - now destruct (dropwhile p v).
  - destruct (p a); [exact IH | reflexivity].
Qed.

(** Trailing blanks do not change what [rstrip] gives. *)
Lemma rstrip_app_blank (s w : str) :
  forallb isspace w = true -> rstrip (s ++ w) = rstrip s.
Proof.
  intros H. unfold rstrip. rewrite rev_app_distr.
  rewrite dropwhile_app_all; [reflexivity|].
  rewrite forallb_forall in *. intros x Hx. apply H. now apply in_rev.
Qed.

(** What [rstrip] removes is a run of blanks. *)
Lemma rstrip_split (s : str) :
  exists w, s = rstrip s ++ w /\ forallb isspace w = true.
Proof.
  exists (rev (takewhile isspace (rev s))). split.
  - unfold rstrip. rewrite <- rev_app_distr, takewhile_dropwhile.
    now rewrite rev_involutive.
  - pose proof (takewhile_all isspace (rev s)) as H.
    rewrite forallb_forall in *. intros x Hx. apply H. now apply in_rev.
Qed.

Lemma lstrip_head (s : str) a r : lstrip s = a :: r -> isspace a = false.
Proof. apply dropwhile_head. Qed.

Lemma lstrip_fixed a r : isspace a = false -> lstrip (a :: r) = a :: r.
Proof. apply dropwhile_stop. Qed.

(** A trimmed string starts with a character that is no blank. *)
Lemma strip_head (s : str) a r : strip s = a :: r -> isspace a = false.
Proof.
  unfold strip. intros H.
  destruct (rstrip_split (lstrip s)) as (w & E & _).
  rewrite H in E. simpl in E. eapply lstrip_head; eauto.
Qed.

(** [strip] leaves a string alone when neither end is a blank. *)
Lemma strip_fixed (s : str) :
  (forall a r, s = a :: r -> isspace a = false) ->
  (forall p a, s = p ++ [a] -> isspace a = false) ->
  strip s = s.
Proof.
  intros Hh Hl. destruct s as [|a r]; [reflexivity|].
  unfold strip. rewrite lstrip_fixed by (eapply Hh; eauto).
  destruct (@exists_last _ (a :: r)) as (p & b & E); [discriminate|].
  rewrite E. apply rstrip_last. eapply Hl; eauto.
Qed.

Lemma strip_idem (s : str) : strip (strip s) = strip s.
Proof.
  apply strip_fixed.
  - intros a r E. eapply strip_head; eauto.
  - intros p a E. destruct (strip_last s) as [E0 | (q & b & Eq & Hb)].
    + rewrite E0 in E. now destruct p.
    + rewrite Eq in E. apply app_inj_tail in E as [_ ->]. exact Hb.
Qed.

(** Blanks around a text do not change what [strip] gives. *)
Lemma strip_around (u s v : str) :
  forallb isspace u = true -> forallb isspace v = true ->
  strip (u ++ s ++ v) = strip s.
Proof.
  intros Hu Hv. rewrite strip_app_blank by assumption.
  unfold strip.
  destruct (lstrip s) as [|a r] eqn:E.
  - (* s is all blanks *)
    assert (Hs : forallb isspace s = true).
    { rewrite <- (takewhile_dropwhile isspace s).
      unfold lstrip in E. rewrite E, app_nil_r. apply takewhile_all. }
    unfold lstrip. rewrite dropwhile_app_all by assumption.
    rewrite dropwhile_nil by assumption. reflexivity.
  - unfold lstrip in *. rewrite dropwhile_app, E.
    change ((a :: r) ++ v) with ((a :: r) ++ v).
    now rewrite rstrip_app_blank.
Qed.

(** The characters of a trimmed string are characters of the string. *)
Lemma strip_incl (s : str) c : In c (strip s) -> In c s.
Proof.
  intros H. destruct (rstrip_split (lstrip s)) as (w & E & _).
  fold (strip s) in E.
  rewrite <- (takewhile_dropwhile isspace s). apply in_or_app. right.
  fold (lstrip s). rewrite E. apply in_or_app. now left.
Qed.

Lemma strip_length (s : str) : (length (strip s) <= length s)%nat.
Proof.
  destruct (rstrip_split (lstrip s)) as (w & E & _). fold (strip s) in E.
  rewrite <- (takewhile_dropwhile isspace s) at 2. fold (lstrip s).
  rewrite E, !length_app. lia.
Qed.

End TrimFacts.
Import TrimFacts.

(** ** Floats read from decimal text *)

Module FloatFacts.

Lemma shr_1_nonneg mrs : 0 <= shr_m mrs -> 0 <= shr_m (shr_1 mrs).
Proof.
  destruct mrs as [m r s]. simpl.
  destruct m as [|[p|p|]|p]; simpl; lia.
Qed.

Lemma iter_shr_1_nonneg p : forall mrs,
  0 <= shr_m mrs -> 0 <= shr_m (iter_pos shr_1 p mrs).
Proof.
  induction p as [p IH|p IH|]; intros mrs H; simpl.
  - apply IH, IH, shr_1_nonneg, H.
  - apply IH, IH, H.
  - apply shr_1_nonneg, H.
Qed.

Lemma shr_nonneg mrs e n : 0 <= shr_m mrs -> 0 <= shr_m (fst (shr mrs e n)).
Proof.
  intros H. unfold shr. destruct n; simpl; auto.
  now apply iter_shr_1_nonneg.
Qed.

Lemma shr_record_of_loc_m m l : shr_m (shr_record_of_loc m l) = m.
Proof. destruct l as [|[]]; reflexivity. Qed.

Lemma shr_fexp_nonneg m e l :
  0 <= m -> 0 <= shr_m (fst (shr_fexp prec emax m e l)).
Proof.
  intros H. unfold shr_fexp. apply shr_nonneg.
  now rewrite shr_record_of_loc_m.
Qed.

Lemma round_nearest_even_nonneg m l : 0 <= m -> 0 <= round_nearest_even m l.
Proof.
  intros H. unfold round_nearest_even.
  destruct l as [|[]]; try destruct (Z.even m); lia.
Qed.

(** Rounding a non-negative mantissa never gives NaN. *)
Lemma binary_round_aux_not_nan m e l :
  0 <= m -> binary_round_aux prec emax false m e l <> S754_nan.
Proof.
  intros H. unfold binary_round_aux.
  pose proof (@shr_fexp_nonneg m e l H) as H1.
  destruct (shr_fexp prec emax m e l) as [mrs' e'].
  simpl in H1.
  pose proof (@shr_fexp_nonneg
                (round_nearest_even (shr_m mrs') (loc_of_shr_record mrs'))
                e' loc_Exact (round_nearest_even_nonneg _ H1)) as H2.
  destruct (shr_fexp prec emax _ e' loc_Exact) as [mrs'' e''].
  simpl in H2.
  destruct (shr_m mrs'') as [|p|p]; [discriminate | | lia].
  destruct (e'' <=? emax - prec); discriminate.
Qed.

Lemma of_decimal_not_nan n k : 0 <= n -> of_decimal n k <> S754_nan.
Proof.
  intros H. unfold of_decimal. destruct n as [|p|p]; [discriminate| |lia].
  destruct (SFdiv_core_binary prec emax (Z.pos p) 0 (10 ^ Z.of_nat k) 0)
    as [[q e] l] eqn:E.
  apply binary_round_aux_not_nan.
  unfold SFdiv_core_binary in E.
  set (s := 0 - 0 - _) in E.
  set (m' := match s with Z0 => _ | Z.pos _ => _ | Z.neg _ => _ end) in E.
  assert (Hm : 0 <= m').
  { unfold m'. destruct s; try lia. apply Z.shiftl_nonneg. lia. }
  assert (Hd : 0 < 10 ^ Z.of_nat k) by (apply Z.pow_pos_nonneg; lia).
  pose proof (Z.div_pos m' (10 ^ Z.of_nat k) Hm Hd) as Hq.
  unfold Z.div in Hq.
  destruct (Z.div_eucl m' (10 ^ Z.of_nat k)) as [q' r'].
  injection E as <- _ _. exact Hq.
Qed.

Lemma digits_value_nonneg_from (ds : str) : forall acc,
  forallb isdecimal ds = true -> 0 <= acc ->
  0 <= fold_left (fun acc c => 10 * acc + digit_value c) ds acc.
Proof.
  induction ds as [|d ds IH]; intros acc H Hacc; cbn [fold_left];
    [exact Hacc|].
  simpl in H. apply andb_prop in H as [Hd H].
  apply IH; [exact H|].
  unfold isdecimal in Hd. cbv zeta in Hd. apply andb_prop in Hd as [Hd _].
  apply N.leb_le in Hd. unfold digit_value. lia.
Qed.

Lemma digits_value_nonneg (ds : str) :
  forallb isdecimal ds = true -> 0 <= digits_value ds.
Proof. intros H. apply digits_value_nonneg_from; [exact H | lia]. Qed.

(** [float] of a decimal literal is a number. *)
Lemma py_float_not_nan s a : py_float s = Some a -> a <> S754_nan.
Proof.
  unfold py_float. intros H.
  destruct (dropwhile isdecimal s) as [|c fp] eqn:E.
  - destruct (takewhile isdecimal s) eqn:Et; [discriminate|].
    injection H as <-. apply of_decimal_not_nan.
    apply digits_value_nonneg. rewrite <- Et. apply takewhile_all.
  - destruct (Ascii.eqb c "." && forallb isdecimal fp
              && negb (Nat.eqb (length (takewhile isdecimal s) + length fp) 0))
      eqn:Ec; [|discriminate].
    injection H as <-. apply of_decimal_not_nan.
    apply digits_value_nonneg. rewrite forallb_app, takewhile_all. simpl.
    apply andb_prop in Ec as [Ec _]. now apply andb_prop in Ec as [_ Ec].
Qed.

(** On numbers the order is total. *)
Lemma not_leb_ltb (x y : float) :
  x <> S754_nan -> y <> S754_nan -> leb x y = false -> ltb y x = true.
Proof.
  intros Hx Hy. unfold ltb, leb, SFltb, SFleb. rewrite (compare_antisym x y).
  destruct (SFcompare x y) as [[]|] eqn:E; simpl; try congruence.
  destruct x, y; simpl in E; try congruence;
    repeat match goal with b : bool |- _ => destruct b end; discriminate.
Qed.

Lemma not_ltb_leb (x y : float) :
  x <> S754_nan -> y <> S754_nan -> ltb x y = false -> leb y x = true.
Proof.
  intros Hx Hy. unfold ltb, leb, SFltb, SFleb. rewrite (compare_antisym x y).
  destruct (SFcompare x y) as [[]|] eqn:E; simpl; try congruence.
  destruct x, y; simpl in E; try congruence;
    repeat match goal with b : bool |- _ => destruct b end; discriminate.
Qed.

(** A float above 0 and at most the ceiling is a positive finite
    number. *)
Lemma amount_finite (a : float) :
  ltb (of_Z 0) a = true -> leb a ceiling = true ->
  exists m e, a = S754_finite false m e.
Proof.
  destruct a as [s|s| |s m e]; try discriminate.
  - destruct s; discriminate.
  - destruct s; [discriminate|]. intros _ _. now exists m, e.
Qed.

End FloatFacts.
Import FloatFacts.

(** ** The parser seen from its callers (src/bot/utils.py) *)

Module ParserFacts.

(** The parser on a trimmed message that the regex matches. *)
Lemma parse_groups (m g1 g2 : str) :
  groups_of (strip m) = Some (g1, g2) ->
  parse_expense_message m = after_groups g1 g2.
Proof.
  unfold groups_of, parse_expense_message, after_groups. intros H.
  destruct (re_match pattern (strip m)) as [mm|] eqn:E; [|discriminate].
  assert (Hne : is_empty (strip m) = false).
  { apply Parser.trimmed_match in E
      as (num & ws & text & _ & -> & Hnum & _).
    destruct Hnum as [ds ? ?|ds ? ? ? ? ? ? ?]; destruct ds; simpl; congruence. }
  rewrite Hne.
  destruct (group 1 mm) as [a|]; [|discriminate].
  destruct (group 2 mm) as [c|]; [|discriminate].
  now injection H as -> ->.
Qed.

(** The groups of a line of the expected shape. *)
Lemma groups_of_line (num ws text : str) :
  amount_text num -> ws <> [] -> forallb isspace ws = true ->
  forallb not_newline text = true ->
  (exists p a, text = p ++ [a] /\ isspace a = false) ->
  groups_of (num ++ ws ++ text) = Some (num, lstrip text).
Proof.
  intros Hnum Hws Hall Hnl Hlast. unfold groups_of.
  now rewrite (match_expense_line Hnum Hws Hall Hnl Hlast).
Qed.

(** The parser gives a triple with an amount only on a match. *)
Lemma parse_some_inv (m : str) a c e :
  parse_expense_message m = (Some a, Some c, e) ->
  exists num ws text,
    strip m = num ++ ws ++ text /\ amount_text num /\
    forallb not_newline text = true /\
    py_float (replace ","%char "."%char num) = Some a /\
    leb a (of_Z 0) = false /\ ltb ceiling a = false /\
    c = strip text /\ c <> [] /\ (length c <= 100)%nat /\ e = [].
Proof.
  unfold parse_expense_message. intros H.
  destruct (is_empty (strip m)); [discriminate|].
  destruct (re_match pattern (strip m)) as [mm|] eqn:E; [|discriminate].
  apply Parser.trimmed_match in E
    as (num & ws & text & -> & Es & Hnum & Hws & Hall & Hnl & Hlast).
  cbn [group Nat.eqb] in H.
  destruct (py_float (replace ","%char "."%char num)) as [x|] eqn:Ex;
    [|discriminate].
  destruct (leb x (of_Z 0)) eqn:E0; [discriminate|].
  fold ceiling in H. destruct (ltb ceiling x) eqn:E1; [discriminate|].
  destruct (is_empty (strip text)) eqn:E2; [discriminate|].
  destruct (Nat.ltb 100 (length (strip text))) eqn:E3; [discriminate|].
  injection H as <- <- <-.
  exists num, ws, text. repeat match goal with |- _ /\ _ => split end; auto.
  - intros N. rewrite N in E2. discriminate.
  - now apply Nat.ltb_ge in E3.
Qed.

(** X1.  Whatever the parser accepts is well formed: the error message
    is empty, the amount is a positive finite float above 0 and at most
    1,000,000, and the category is a non-empty single line of at most
    100 characters with no blank at either end. *)
Theorem parsed_expense_wellformed (m : str) a c e :
  parse_expense_message m = (Some a, Some c, e) ->
  e = [] /\
  (exists mant ex, a = S754_finite false mant ex) /\
  ltb (of_Z 0) a = true /\ leb a ceiling = true /\
  c <> [] /\ strip c = c /\ (length c <= 100)%nat /\ ~ In newline c.
Proof.
  intros H. apply parse_some_inv in H
    as (num & ws & text & Es & Hnum & Hnl & Ha & H0 & H1 & -> & Hc & Hlen & ->).
  pose proof (py_float_not_nan _ Ha) as Hnan.
  assert (Hz : of_Z 0 <> S754_nan) by discriminate.
  assert (Hce : ceiling <> S754_nan) by discriminate.
  pose proof (not_leb_ltb Hnan Hz H0) as Hpos.
  pose proof (not_ltb_leb Hce Hnan H1) as Hle.
  repeat match goal with |- _ /\ _ => split end; auto.
  - now apply amount_finite.
  - apply strip_idem.
  - intros Hin. apply strip_incl in Hin.
    rewrite forallb_forall in Hnl. specialize (Hnl _ Hin).
    unfold not_newline in Hnl. now rewrite Ascii.eqb_refl in Hnl.
Qed.

Lemma parsed_expense_wellformed_witness :
  [] = ([] : str) /\
  (exists mant ex, of_decimal 660 2 = S754_finite false mant ex) /\
  ltb (of_Z 0) (of_decimal 660 2) = true /\
  leb (of_decimal 660 2) ceiling = true /\
  lit "food" <> [] /\ strip (lit "food") = lit "food" /\
  (length (lit "food") <= 100)%nat /\ ~ In newline (lit "food").
Proof.
  apply (@parsed_expense_wellformed (lit "6.60 food")). reflexivity.
Defined.

(** X2.  Whatever the parser accepts passes
    [SheetOperations.validate_expense_data]. *)
Theorem parsed_expense_validates (m : str) a c e :
  parse_expense_message m = (Some a, Some c, e) ->
  Validation.validate_expense_data a c = (true, []).
Proof.
  intros H. apply parse_some_inv in H
    as (num & ws & text & Es & Hnum & Hnl & Ha & H0 & H1 & -> & Hc & Hlen & ->).
  unfold Validation.validate_expense_data.
  fold ceiling. rewrite H0, H1, strip_idem.
  destruct (strip text) eqn:E; [congruence|]. simpl orb. cbv iota.
  apply Nat.ltb_ge in Hlen. now rewrite Hlen.
Qed.

Lemma parsed_expense_validates_witness :
  Validation.validate_expense_data (of_decimal 660 2) (lit "food")
  = (true, []).
Proof.
  apply (@parsed_expense_validates (lit "6,60 food") _ _ []). reflexivity.
Defined.

(** A trimmed message that starts with a slash is not empty and the
    regex does not match it. *)
Lemma command_no_match (m : str) :
  is_command m = true ->
  strip m <> [] /\ re_match pattern (strip m) = None.
Proof.
  unfold is_command. intros H.
  destruct (strip m) as [|a r]; [discriminate|].
  change (startswith (lit "/") (a :: r)) with (Ascii.eqb "/" a && true) in H.
  rewrite andb_true_r in H. apply Ascii.eqb_eq in H. subst a.
  split; [discriminate | reflexivity].
Qed.

(** X3.  A command is never read as an expense: a message that
    [is_command] accepts gets the invalid-format error from the parser. *)
Theorem command_is_no_expense (m : str) :
  is_command m = true ->
  parse_expense_message m = (None, None, msg_format).
Proof.
  intros H. destruct (command_no_match m H) as [Hne Hm].
  unfold parse_expense_message. rewrite Hm.
  destruct (strip m); [congruence | reflexivity].
Qed.

Lemma command_is_no_expense_witness :
  parse_expense_message (lit " /stats 2024-08") = (None, None, msg_format).
Proof. apply command_is_no_expense. reflexivity. Defined.

(** X5.  Blanks around a message change nothing: the parser, the command
    test and the command splitter give the same on the message with and
    without them. *)
Theorem surrounding_blanks_ignored (u m v : str) :
  forallb isspace u = true -> forallb isspace v = true ->
  parse_expense_message (u ++ m ++ v) = parse_expense_message m /\
  is_command (u ++ m ++ v) = is_command m /\
  extract_command_args (u ++ m ++ v) = extract_command_args m.
Proof.
  intros Hu Hv.
  unfold parse_expense_message, is_command, extract_command_args.
  now rewrite (@strip_around u m v Hu Hv).
Qed.

Lemma surrounding_blanks_ignored_witness :
  parse_expense_message (lit "  " ++ lit "6.60 food" ++ [newline])
  = parse_expense_message (lit "6.60 food") /\
  is_command (lit "  " ++ lit "6.60 food" ++ [newline])
  = is_command (lit "6.60 food") /\
  extract_command_args (lit "  " ++ lit "6.60 food" ++ [newline])
  = extract_command_args (lit "6.60 food").
Proof.
  apply surrounding_blanks_ignored; reflexivity.
Defined.

End ParserFacts.

(** ** The decimal separator *)

Module SeparatorFacts.

Lemma digit_not_space (a : ascii) : isdecimal a = true -> isspace a = false.
Proof.
  intros H. destruct (isspace a) eqn:E; [|reflexivity].
  apply isspace_not_digit in E. congruence.
Qed.

(** [rstrip] stops at a character that is no blank. *)
Lemma rstrip_app_keep (p : str) (a : ascii) (x : str) :
  isspace a = false -> rstrip (p ++ a :: x) = p ++ a :: rstrip x.
Proof.
  intros Ha. unfold rstrip.
  rewrite rev_app_distr. simpl. rewrite <- app_assoc. simpl.
  rewrite dropwhile_app.
  destruct (dropwhile isspace (rev x)) as [|b r].
  - simpl. rewrite Ha. simpl. now rewrite rev_involutive.
  - rewrite rev_app_distr. simpl. rewrite rev_involutive.
    now rewrite <- app_assoc.
Qed.

(** A trimmed message that starts with digits and a separator. *)
Lemma strip_amount_head (ds : str) (sep : ascii) (x : str) :
  ds <> [] -> forallb isdecimal ds = true -> isspace sep = false ->
  strip (ds ++ sep :: x) = ds ++ sep :: rstrip x.
Proof.
  intros Hne Hds Hsep. unfold strip.
  destruct ds as [|d ds']; [congruence|].
  simpl in Hds. apply andb_prop in Hds as [Hd _].
  change ((d :: ds') ++ sep :: x) with (d :: ds' ++ sep :: x).
  rewrite lstrip_fixed by now apply digit_not_space.
  change (d :: ds' ++ sep :: x) with ((d :: ds') ++ sep :: x).
  now apply rstrip_app_keep.
Qed.

(** A run of digits is determined by the text it starts. *)
Lemma digit_run_unique (u v : str) : forall a b r r',
  forallb isdecimal u = true -> forallb isdecimal v = true ->
  isdecimal a = false -> isdecimal b = false ->
  u ++ a :: r = v ++ b :: r' -> u = v /\ a = b /\ r = r'.
Proof.
  revert v. induction u as [|c u IH]; intros [|d v] a b r r' Hu Hv Ha Hb E;
    simpl in *.
  - now injection E as -> ->.
  - injection E as -> _. apply andb_prop in Hv as [Hv _]. congruence.
  - injection E as -> _. apply andb_prop in Hu as [Hu _]. congruence.
  - injection E as -> E.
    apply andb_prop in Hu as [_ Hu]. apply andb_prop in Hv as [_ Hv].
    destruct (IH v a b r r' Hu Hv Ha Hb E) as (-> & -> & ->). auto.
Qed.

Lemma sep_not_space (sep : ascii) :
  sep = "."%char \/ sep = ","%char -> isspace sep = false.
Proof. intros [-> | ->]; reflexivity. Qed.

Lemma replace_sep (sep : ascii) (ds fs : str) :
  sep = "."%char \/ sep = ","%char ->
  replace ","%char "."%char (ds ++ sep :: fs)
  = replace ","%char "."%char ds ++ "."%char :: replace ","%char "."%char fs.
Proof.
  intros H. unfold replace. rewrite map_app. simpl.
  destruct H as [-> | ->]; reflexivity.
Qed.

(** When the regex matches a message that starts with digits and a
    separator, it matches the message with the other separator too, and
    the groups differ in the separator only. *)
Lemma match_with_other_separator (sep1 sep2 : ascii) (ds x : str) mm :
  sep1 = "."%char \/ sep1 = ","%char ->
  sep2 = "."%char \/ sep2 = ","%char ->
  ds <> [] -> forallb isdecimal ds = true ->
  re_match pattern (strip (ds ++ sep1 :: x)) = Some mm ->
  exists fs g2,
    groups_of (strip (ds ++ sep1 :: x)) = Some (ds ++ sep1 :: fs, g2) /\
    groups_of (strip (ds ++ sep2 :: x)) = Some (ds ++ sep2 :: fs, g2).
Proof.
  intros H1 H2 Hne Hds Hm.
  apply Parser.trimmed_match in Hm
    as (num & ws & text & _ & Es & Hnum & Hws & Hall & Hnl & Hlast).
  rewrite (@strip_amount_head ds sep1 x Hne Hds (sep_not_space H1)) in *.
  rewrite (@strip_amount_head ds sep2 x Hne Hds (sep_not_space H2)).
  destruct ws as [|w ws']; [congruence|].
  pose proof Hall as Hall0.
  simpl in Hall. apply andb_prop in Hall as [Hw _].
  destruct Hnum as [ds0 Hne0 Hds0 | ds0 sep fs Hne0 Hds0 Hsep Hnef Hfs].
  - exfalso. simpl in Es.
    destruct (@digit_run_unique ds ds0 sep1 w (rstrip x) (ws' ++ text)
                Hds Hds0 (sep_not_digit H1) (isspace_not_digit _ Hw) Es)
      as (_ & -> & _).
    rewrite (sep_not_space H1) in Hw. discriminate.
  - rewrite <- app_assoc in Es. simpl in Es.
    destruct (@digit_run_unique ds ds0 sep1 sep (rstrip x)
                (fs ++ (w :: ws') ++ text)
                Hds Hds0 (sep_not_digit H1) (sep_not_digit Hsep) Es)
      as (<- & <- & Ex).
    exists fs, (lstrip text). rewrite Ex.
    split.
    + change (ds ++ sep1 :: fs ++ (w :: ws') ++ text)
        with (ds ++ (sep1 :: fs) ++ (w :: ws') ++ text).
      rewrite app_assoc.
      apply ParserFacts.groups_of_line; auto; try discriminate.
      now apply amount_frac.
    + change (ds ++ sep2 :: fs ++ (w :: ws') ++ text)
        with (ds ++ (sep2 :: fs) ++ (w :: ws') ++ text).
      rewrite app_assoc.
      apply ParserFacts.groups_of_line; auto; try discriminate.
      now apply amount_frac.
Qed.

Lemma parse_no_match (m : str) :
  strip m <> [] -> re_match pattern (strip m) = None ->
  parse_expense_message m = (None, None, msg_format).
Proof.
  intros Hne Hm. unfold parse_expense_message. rewrite Hm.
  destruct (strip m); [congruence | reflexivity].
Qed.

Lemma after_groups_sep (sep1 sep2 : ascii) (ds fs g2 : str) :
  sep1 = "."%char \/ sep1 = ","%char ->
  sep2 = "."%char \/ sep2 = ","%char ->
  after_groups (ds ++ sep1 :: fs) g2 = after_groups (ds ++ sep2 :: fs) g2.
Proof.
  intros H1 H2. unfold after_groups.
  now rewrite (@replace_sep sep1 ds fs H1), (@replace_sep sep2 ds fs H2).
Qed.

(** X4.  The comma and the dot are interchangeable as the decimal
    separator: two messages that start with the same digits and differ
    only in the separator that follows them get the same result from the
    parser, whatever comes after. *)
Theorem separator_interchangeable (ds rest : str) :
  ds <> [] -> forallb isdecimal ds = true ->
  parse_expense_message (ds ++ ","%char :: rest)
  = parse_expense_message (ds ++ "."%char :: rest).
Proof.
  intros Hne Hds.
  assert (Hc : ","%char = "."%char \/ ","%char = ","%char) by now right.
  assert (Hd : "."%char = "."%char \/ "."%char = ","%char) by now left.
  assert (N : forall sep, sep = "."%char \/ sep = ","%char ->
                          strip (ds ++ sep :: rest) <> []).
  { intros sep Hs. rewrite (@strip_amount_head ds sep rest Hne Hds (sep_not_space Hs)).
    destruct ds; discriminate. }
  destruct (re_match pattern (strip (ds ++ ","%char :: rest))) as [mm|] eqn:E1.
  - destruct (@match_with_other_separator _ _ ds rest mm Hc Hd Hne Hds E1)
      as (fs & g2 & G1 & G2).
    rewrite (@ParserFacts.parse_groups _ _ _ G1), (@ParserFacts.parse_groups _ _ _ G2).
    now apply after_groups_sep.
  - destruct (re_match pattern (strip (ds ++ "."%char :: rest))) as [mm|] eqn:E2.
    + destruct (@match_with_other_separator _ _ ds rest mm Hd Hc Hne Hds E2)
        as (fs & g2 & G1 & G2).
      unfold groups_of in G2. rewrite E1 in G2. discriminate.
    + rewrite !parse_no_match; auto.
Qed.

Lemma separator_interchangeable_witness :
  parse_expense_message (lit "6" ++ ","%char :: lit "60 food")
  = parse_expense_message (lit "6" ++ "."%char :: lit "60 food").
Proof.
  apply separator_interchangeable; [discriminate | reflexivity].
Defined.

End SeparatorFacts.

(** ** Commands (src/bot/utils.py) *)

Module CommandFacts.

Lemma lower_char_idem (c : ascii) : lower_char (lower_char c) = lower_char c.
Proof. destruct c as [[] [] [] [] [] [] [] []]; reflexivity. Qed.

Lemma lower_idem (s : str) : lower (lower s) = lower s.
Proof.
  unfold lower. rewrite map_map. apply map_ext. apply lower_char_idem.
Qed.

Lemma lower_char_space (c : ascii) : lower_char c = " "%char -> c = " "%char.
Proof.
  destruct c as [[] [] [] [] [] [] [] []]; vm_compute; congruence.
Qed.

Lemma lower_char_slash (c : ascii) : c = "/"%char -> lower_char c = "/"%char.
Proof. now intros ->. Qed.

(** What [split(sep, 1)] gives: the whole text when [sep] does not occur,
    else the text before its first occurrence and the text after. *)
Lemma split_once_shape (sep : ascii) (s : str) :
  (~ In sep s /\ split_once sep s = [s]) \/
  (exists p r, s = p ++ sep :: r /\ ~ In sep p /\ split_once sep s = [p; r]).
Proof.
  induction s as [|a s IH]; simpl.
  - left. split; [tauto | reflexivity].
  - destruct (Ascii.eqb a sep) eqn:E.
    + apply Ascii.eqb_eq in E. subst a. right. exists [], s.
      repeat split; auto.
    + apply Ascii.eqb_neq in E.
      destruct IH as [[Hn ->] | (p & r & -> & Hn & ->)].
      * left. split; [|reflexivity]. intros [H|H]; [congruence | tauto].
      * right. exists (a :: p), r. repeat split; auto.
        intros [H|H]; [congruence | tauto].
Qed.

Lemma startswith_slash (s : str) :
  startswith (lit "/") s = true <-> exists r, s = "/"%char :: r.
Proof.
  destruct s as [|a r].
  - split; [discriminate | intros (r & H); discriminate].
  - change (startswith (lit "/") (a :: r)) with (Ascii.eqb "/" a && true).
    rewrite andb_true_r, Ascii.eqb_eq. split.
    + intros <-. now exists r.
    + intros (r' & H). now injection H as -> _.
Qed.

(** X6.  [is_command] and [extract_command_args] agree: a message that
    is no command comes back whole (trimmed) as the arguments, with the
    empty command; a command gets a command that is not empty. *)
Theorem command_test_agrees (m : str) :
  (is_command m = false -> extract_command_args m = ([], strip m)) /\
  (is_command m = true -> fst (extract_command_args m) <> []).
Proof.
  unfold is_command, extract_command_args. split; intros H; rewrite H.
  - reflexivity.
  - simpl negb. cbv iota.
    apply startswith_slash in H as (r & ->). cbn [fst].
    destruct (split_once_shape " " ("/"%char :: r))
      as [[_ ->] | (p & r' & E & _ & ->)]; [discriminate|].
    destruct p as [|a p]; [discriminate | discriminate].
Qed.

Lemma command_test_agrees_witness :
  extract_command_args (lit " 6.60 food ") = ([], strip (lit " 6.60 food "))
  /\ fst (extract_command_args (lit "/Stats 2024-08")) <> [].
Proof.
  split.
  - apply (proj1 (command_test_agrees (lit " 6.60 food "))). reflexivity.
  - apply (proj2 (command_test_agrees (lit "/Stats 2024-08"))). reflexivity.
Defined.

(** X7.  The command of a command message is the text up to the first
    space, in lower case: it starts with a slash and holds no space and
    no capital, and the trimmed message is that text alone (with no
    arguments) or that text, one space and the arguments as they are. *)
Theorem command_shape (m command args : str) :
  is_command m = true ->
  extract_command_args m = (command, args) ->
  startswith (lit "/") command = true /\
  ~ In " "%char command /\
  lower command = command /\
  exists c0, command = lower c0 /\
             (strip m = c0 /\ args = [] \/ strip m = c0 ++ " "%char :: args).
Proof.
  unfold is_command, extract_command_args. intros H E. rewrite H in E.
  simpl negb in E. cbv iota in E.
  apply startswith_slash in H as (r & Hs). rewrite Hs in *.
  assert (G : forall c0, ~ In " "%char c0 -> (exists r0, c0 = "/"%char :: r0) ->
                         startswith (lit "/") (lower c0) = true /\
                         ~ In " "%char (lower c0) /\
                         lower (lower c0) = lower c0).
  { intros c0 Hn (r0 & ->). split; [|split].
    - reflexivity.
    - intros Hin. unfold lower in Hin. apply in_map_iff in Hin as (x & Hx & Hin).
      apply lower_char_space in Hx. subst x. contradiction.
    - apply lower_idem. }
  destruct (split_once_shape " " ("/"%char :: r))
    as [[Hn Ep] | (p & r' & Ep & Hn & Esp)].
  - rewrite Ep in E. cbn [nth length Nat.ltb Nat.leb] in E.
    injection E as <- <-.
    destruct (G ("/"%char :: r) Hn) as (G1 & G2 & G3); [now exists r|].
    repeat split; auto. exists ("/"%char :: r). split; auto.
  - rewrite Esp in E. cbn [nth length Nat.ltb Nat.leb] in E.
    injection E as <- <-.
    assert (Hp : exists r0, p = "/"%char :: r0).
    { destruct p as [|a p]; [discriminate|].
      injection Ep as <- _. now exists p. }
    destruct (G p Hn Hp) as (G1 & G2 & G3).
    repeat split; auto. exists p. split; auto.
Qed.

Lemma command_shape_witness :
  startswith (lit "/") (lit "/stats") = true /\
  ~ In " "%char (lit "/stats") /\
  lower (lit "/stats") = lit "/stats" /\
  exists c0, lit "/stats" = lower c0 /\
             (strip (lit " /Stats  2024-08 ") = c0 /\ lit " 2024-08" = [] \/
              strip (lit " /Stats  2024-08 ") = c0 ++ " "%char :: lit " 2024-08").
Proof.
  apply (@command_shape (lit " /Stats  2024-08 ")); reflexivity.
Defined.

End CommandFacts.

(** ** The sanitizer (src/bot/utils.py) *)

Module SanitizerFacts.

Lemma replace_with_flat_map (a : ascii) (r : str) (f : ascii -> str) (s : str) :
  replace_with a r (flat_map f s) = flat_map (fun c => replace_with a r (f c)) s.
Proof.
  unfold replace_with. induction s as [|c s IH]; simpl; [reflexivity|].
  now rewrite flat_map_app, IH.
Qed.

Lemma replace_with_one (a : ascii) (r : str) (s : str) :
  replace_with a r s
  = flat_map (fun c => replace_with a r [c]) s.
Proof.
  unfold replace_with. apply flat_map_ext. intros c. simpl.
  now rewrite app_nil_r.
Qed.

(** The five replacements, on one character. *)
Lemma escape_char (c : ascii) :
  replace_with "'"%char (lit "&#39;")
    (replace_with dquote (lit "&quot;")
       (replace_with "&"%char (lit "&amp;")
          (replace_with ">"%char (lit "&gt;")
             (replace_with "<"%char (lit "&lt;") [c]))))
  = escape c.
Proof. destruct c as [[] [] [] [] [] [] [] []]; reflexivity. Qed.

(** The five replacements, fused into one pass. *)
Lemma replacements_fused (text : str) :
  replace_with "'"%char (lit "&#39;")
    (replace_with dquote (lit "&quot;")
       (replace_with "&"%char (lit "&amp;")
          (replace_with ">"%char (lit "&gt;")
             (replace_with "<"%char (lit "&lt;") text))))
  = flat_map escape text.
Proof.
  rewrite (replace_with_one "<"%char (lit "&lt;") text).
  rewrite !replace_with_flat_map.
  apply flat_map_ext. apply escape_char.
Qed.

Lemma sanitize_fused (text : str) :
  sanitize_text text
  = strip (re_sub_plus Space (lit " ") (flat_map escape text)).
Proof.
  unfold sanitize_text. destruct text as [|a r]; [reflexivity|].
  cbn [is_empty]. now rewrite replacements_fused.
Qed.

Lemma escape_plain (c : ascii) :
  forallb (fun x => negb (special x)) (escape c) = true.
Proof. destruct c as [[] [] [] [] [] [] [] []]; reflexivity. Qed.

Lemma escape_blank (c : ascii) :
  isspace c = false -> forallb (fun x => negb (isspace x)) (escape c) = true.
Proof. destruct c as [[] [] [] [] [] [] [] []]; vm_compute; congruence. Qed.

Lemma forallb_flat_map (p : ascii -> bool) (f : ascii -> str) (s : str) :
  (forall c, In c s -> forallb p (f c) = true) ->
  forallb p (flat_map f s) = true.
Proof.
  induction s as [|c s IH]; intros H; simpl; [reflexivity|].
  rewrite forallb_app, H by now left. apply IH.
  intros x Hx. apply H. now right.
Qed.

Lemma forallb_sub_runs (p : ascii -> bool) (c : cls) (repl : str) (s : str) :
  forallb p repl = true -> forallb p s = true ->
  forall b, forallb p (sub_runs c repl b s) = true.
Proof.
  intros Hr. induction s as [|a s IH]; intros Hs b; simpl; [reflexivity|].
  simpl in Hs. apply andb_prop in Hs as [Ha Hs].
  destruct (cls_match c a).
  - rewrite forallb_app, IH by assumption.
    destruct b; simpl; [reflexivity | now rewrite Hr].
  - simpl. now rewrite Ha, IH.
Qed.

Lemma forallb_strip (p : ascii -> bool) (s : str) :
  forallb p s = true -> forallb p (strip s) = true.
Proof.
  intros H. rewrite forallb_forall in *. intros x Hx.
  apply H. now apply strip_incl.
Qed.

(** X8.  The sanitized text holds no [<], no [>], no double quote and no
    single quote, whatever the input. *)
Theorem sanitized_has_no_markup (text : str) :
  forallb (fun c => negb (special c)) (sanitize_text text) = true.
Proof.
  rewrite sanitize_fused. apply forallb_strip.
  apply forallb_sub_runs; [reflexivity|].
  apply forallb_flat_map. intros c _. apply escape_plain.
Qed.

(** Runs of blanks replaced by one space leave single spaces only. *)
Lemma sub_runs_single_spaced (s : str) : forall b,
  single_spaced b (sub_runs Space (lit " ") b s) = true.
Proof.
  induction s as [|a s IH]; intros b; simpl; [reflexivity|].
  destruct (isspace a) eqn:Ea.
  - destruct b; simpl; [apply IH|]. apply IH.
  - simpl. rewrite Ea. apply IH.
Qed.

Lemma single_spaced_weaken (s : str) :
  single_spaced true s = true -> single_spaced false s = true.
Proof.
  destruct s as [|a s]; simpl; [reflexivity|].
  destruct (isspace a); [|auto].
  simpl. discriminate.
Qed.

Lemma single_spaced_any (b : bool) (s : str) :
  single_spaced b s = true -> single_spaced false s = true.
Proof. destruct b; [apply single_spaced_weaken | auto]. Qed.

Lemma single_spaced_tail (a : ascii) (s : str) (b : bool) :
  single_spaced b (a :: s) = true -> single_spaced false s = true.
Proof.
  simpl. destruct (isspace a).
  - intros H. apply andb_prop in H as [_ H]. now apply single_spaced_weaken.
  - auto.
Qed.

Lemma single_spaced_dropwhile (s : str) : forall b,
  single_spaced b s = true ->
  single_spaced false (dropwhile isspace s) = true.
Proof.
  induction s as [|a s IH]; intros b H; simpl; [reflexivity|].
  destruct (isspace a) eqn:Ea.
  - simpl in H. rewrite Ea in H. apply andb_prop in H as [_ H].
    eapply IH; eauto.
  - eapply single_spaced_any; eauto.
Qed.

Lemma single_spaced_prefix (p w : str) : forall b,
  single_spaced b (p ++ w) = true -> single_spaced b p = true.
Proof.
  induction p as [|a p IH]; intros b H; simpl in *; [reflexivity|].
  destruct (isspace a).
  - apply andb_prop in H as [H1 H]. rewrite H1. simpl. now apply IH.
  - now apply IH.
Qed.

Lemma single_spaced_strip (s : str) (b : bool) :
  single_spaced b s = true -> single_spaced false (strip s) = true.
Proof.
  intros H. apply single_spaced_dropwhile in H. fold (lstrip s) in H.
  destruct (rstrip_split (lstrip s)) as (w & E & _). fold (strip s) in E.
  rewrite E in H. eapply single_spaced_prefix; eauto.
Qed.

(** X9.  In the sanitized text every blank is a single space, no two
    blanks are adjacent, and neither end is a blank. *)
Theorem sanitized_is_single_spaced (text : str) :
  single_spaced false (sanitize_text text) = true /\
  strip (sanitize_text text) = sanitize_text text.
Proof.
  rewrite sanitize_fused. split.
  - eapply single_spaced_strip. apply sub_runs_single_spaced.
  - apply strip_idem.
Qed.

Lemma sub_runs_no_blank (s : str) (repl : str) :
  forallb (fun x => negb (isspace x)) s = true ->
  sub_runs Space repl false s = s.
Proof.
  induction s as [|a s IH]; simpl; [reflexivity|].
  intros H. apply andb_prop in H as [Ha H].
  apply negb_true_iff in Ha. rewrite Ha. now rewrite IH.
Qed.

Lemma strip_no_blank (s : str) :
  forallb (fun x => negb (isspace x)) s = true -> strip s = s.
Proof.
  intros H. rewrite forallb_forall in H. apply strip_fixed.
  - intros a r ->. apply negb_true_iff, H. now left.
  - intros p a ->. apply negb_true_iff, H. apply in_or_app. right. now left.
Qed.

(** X10.  The sanitizer works one character at a time: a [<] comes out
    as [&amp;lt;] and a [>] as [&amp;gt;] (the ampersand of the first
    replacement is escaped by the next one), [&] as [&amp;], the double
    quote as [&quot;] and the single quote as [&#39;]; then runs of
    blanks are collapsed and the ends trimmed.  On a text without blanks
    the result is the escaped characters one after the other. *)
Theorem sanitizer_escapes (text : str) :
  sanitize_text text
  = strip (re_sub_plus Space (lit " ") (flat_map escape text)) /\
  (forallb (fun c => negb (isspace c)) text = true ->
   sanitize_text text = flat_map escape text) /\
  escape "<"%char = lit "&amp;lt;" /\ escape ">"%char = lit "&amp;gt;".
Proof.
  split; [apply sanitize_fused | split; [|split; reflexivity]].
  intros H. rewrite sanitize_fused. unfold re_sub_plus.
  assert (Hb : forallb (fun x => negb (isspace x)) (flat_map escape text)
               = true).
  { apply forallb_flat_map. intros c Hc. apply escape_blank.
    rewrite forallb_forall in H. now apply negb_true_iff, H. }
  rewrite sub_runs_no_blank by assumption. now apply strip_no_blank.
Qed.

Lemma sanitizer_escapes_witness :
  sanitize_text (lit "<b>") = flat_map escape (lit "<b>").
Proof.
  apply (proj1 (proj2 (sanitizer_escapes (lit "<b>")))). reflexivity.
Defined.

(** The sanitizer is not idempotent: a second pass escapes the
    ampersands of the first. *)
Example sanitize_twice :
  sanitize_text (lit "a<b") = lit "a&amp;lt;b" /\
  sanitize_text (sanitize_text (lit "a<b")) = lit "a&amp;amp;lt;b".
Proof. split; reflexivity. Qed.

End SanitizerFacts.

(** ** The validators (src/bot/utils.py, src/sheets/operations.py) *)

Module ValidatorFacts.

Lemma match_ignorecase_lower (p w post : str) :
  lower w = lower p -> match_ignorecase p (w ++ post) = true.
Proof.
  revert w. induction p as [|a p IH]; intros [|b w] H; simpl in *;
    try discriminate; [reflexivity|].
  injection H as Hab H. rewrite Hab, Ascii.eqb_refl. simpl. now apply IH.
Qed.

Lemma search_ignorecase_here (p s : str) :
  match_ignorecase p s = true -> search_ignorecase p s = true.
Proof. intros H. destruct s; simpl search_ignorecase; now rewrite H. Qed.

Lemma search_ignorecase_found (p pre w post : str) :
  lower w = lower p -> search_ignorecase p (pre ++ w ++ post) = true.
Proof.
  intros H. induction pre as [|c pre IH].
  - apply search_ignorecase_here. now apply (@match_ignorecase_lower p w post).
  - change ((c :: pre) ++ w ++ post) with (c :: pre ++ w ++ post).
    simpl search_ignorecase. rewrite IH. apply orb_true_r.
Qed.

Lemma harmful_lower (p : str) : In p harmful_patterns -> lower p = p.
Proof.
  unfold harmful_patterns. simpl.
  intros H. repeat (destruct H as [<- | H]; [reflexivity|]). contradiction.
Qed.

(** X11.  A description that holds one of the ten harmful patterns
    ([<script], [javascript:], [data:], [vbscript:], [onload=],
    [onerror=], [onclick=], [<iframe], [<object], [<embed]) in any mix
    of capitals and small letters, anywhere in it, is never accepted by
    [validate_category]. *)
Theorem harmful_content_rejected (p pre w post : str) :
  In p harmful_patterns -> lower w = p ->
  fst (validate_category (PStr (pre ++ w ++ post))) = false.
Proof.
  intros Hp Hw. unfold validate_category.
  destruct (is_empty _ || is_empty _); [reflexivity|].
  destruct (Nat.ltb 100 _); [reflexivity|].
  assert (E : existsb (fun p0 => search_ignorecase p0 (pre ++ w ++ post))
                harmful_patterns = true).
  { apply existsb_exists. exists p. split; [exact Hp|].
    apply search_ignorecase_found. rewrite Hw. symmetry.
    now apply harmful_lower. }
  now rewrite E.
Qed.

Lemma harmful_content_rejected_witness :
  fst (validate_category
         (PStr (lit "lunch " ++ lit "<ScRiPt" ++ lit ">alert(1)")))
  = false.
Proof.
  apply (@harmful_content_rejected (lit "<script"));
    [now left | reflexivity].
Defined.

(** The parser itself does not look at the content. *)
Example parser_keeps_markup :
  parse_expense_message (lit "5 <script>x")
  = (Some (of_decimal 5 0), Some (lit "<script>x"), []).
Proof. reflexivity. Qed.

(** X12.  The validators of the two layers agree: an amount that
    [validate_amount] accepts and a description that [validate_category]
    accepts are accepted together by
    [SheetOperations.validate_expense_data]. *)
Theorem validators_agree (a : float) (c : str) :
  validate_amount (PFloat a) = (true, []) ->
  validate_category (PStr c) = (true, []) ->
  Validation.validate_expense_data a c = (true, []).
Proof.
  unfold validate_amount, validate_category, Validation.validate_expense_data.
  intros Ha Hc.
  destruct (leb a (of_Z 0)); [discriminate|].
  destruct (ltb (of_Z 1000000) a); [discriminate|].
  destruct (is_empty c || is_empty (strip c)); [discriminate|].
  destruct (Nat.ltb 100 (length (strip c))); [discriminate|].
  reflexivity.
Qed.

Lemma validators_agree_witness :
  Validation.validate_expense_data (of_decimal 660 2) (lit " food ")
  = (true, []).
Proof.
  apply validators_agree; reflexivity.
Defined.

(** The facade's validator is the weaker one: it takes an amount with
    more than two decimal places and a description with markup. *)
Example facade_validator_is_weaker :
  Validation.validate_expense_data (of_decimal 6605 3) (lit "<script>")
  = (true, []) /\
  validate_amount (PFloat (of_decimal 6605 3)) = (false, msg_places) /\
  validate_category (PStr (lit "<script>")) = (false, msg_invalid_content).
Proof. repeat split; reflexivity. Qed.

(** X30.  [validate_amount] accepts no NaN and no infinity: a float it
    accepts is a positive finite number, above 0 and at most 1,000,000,
    that [round(x, 2)] leaves unchanged.  (NaN passes the two
    comparisons, which are false on it, and is stopped by the check on
    the decimal places.) *)
Theorem accepted_amount_is_finite (x : float) :
  validate_amount (PFloat x) = (true, []) ->
  (exists m e, x = S754_finite false m e) /\
  ltb (of_Z 0) x = true /\ leb x ceiling = true /\
  SFeqb (py_round2 x) x = true.
Proof.
  unfold validate_amount. intros H.
  destruct (leb x (of_Z 0)) eqn:H0; [discriminate|].
  destruct (ltb (of_Z 1000000) x) eqn:H1; [discriminate|].
  destruct (SFeqb (py_round2 x) x) eqn:H2; [|discriminate].
  assert (Hn : x <> S754_nan) by (intros ->; discriminate).
  assert (Hpos : ltb (of_Z 0) x = true)
    by (apply not_leb_ltb; [exact Hn | discriminate | exact H0]).
  assert (Hle : leb x ceiling = true)
    by (apply not_ltb_leb; [discriminate | exact Hn | exact H1]).
  repeat split; auto. now apply amount_finite.
Qed.

Lemma accepted_amount_is_finite_witness :
  (exists m e, of_decimal 660 2 = S754_finite false m e) /\
  ltb (of_Z 0) (of_decimal 660 2) = true /\
  leb (of_decimal 660 2) ceiling = true /\
  SFeqb (py_round2 (of_decimal 660 2)) (of_decimal 660 2) = true.
Proof. apply accepted_amount_is_finite. reflexivity. Defined.

(** NaN at the two validators: the one of utils.py stops it at the
    decimal places, the one of the facade lets it through. *)
Example nan_at_the_validators :
  validate_amount (PFloat S754_nan) = (false, msg_places) /\
  Validation.validate_expense_data S754_nan (lit "food") = (true, []).
Proof. split; reflexivity. Qed.

(** X13.  What the parser accepts as a description passes every check
    of [validate_category] but, possibly, the one on harmful content. *)
Theorem parsed_category_validates (m : str) a c e :
  parse_expense_message m = (Some a, Some c, e) ->
  validate_category (PStr c) = (true, []) \/
  validate_category (PStr c) = (false, msg_invalid_content).
Proof.
  intros H. apply ParserFacts.parse_some_inv in H
    as (num & ws & text & Es & Hnum & Hnl & Ha & H0 & H1 & -> & Hc & Hlen & ->).
  unfold validate_category. rewrite strip_idem.
  destruct (strip text) eqn:E; [congruence|]. simpl orb. cbv iota.
  apply Nat.ltb_ge in Hlen. rewrite Hlen.
  destruct (existsb _ harmful_patterns); auto.
Qed.

Lemma parsed_category_validates_witness :
  validate_category (PStr (lit "food")) = (true, []) \/
  validate_category (PStr (lit "food")) = (false, msg_invalid_content).
Proof.
  apply (@parsed_category_validates (lit "6.60 food") (of_decimal 660 2) _ []).
  reflexivity.
Defined.

(** The parser on a line that is written without blanks around it. *)
Lemma parse_line (num ws text : str) :
  amount_text num -> ws <> [] -> forallb isspace ws = true ->
  forallb not_newline text = true ->
  (exists p a, text = p ++ [a] /\ isspace a = false) ->
  parse_expense_message (num ++ ws ++ text) = after_groups num (lstrip text).
Proof.
  intros Hnum Hws Hall Hnl Hlast.
  apply ParserFacts.parse_groups.
  assert (E : strip (num ++ ws ++ text) = num ++ ws ++ text).
  { apply strip_fixed.
    - intros a r Ea. apply SeparatorFacts.digit_not_space.
      destruct Hnum as [ds Hne Hds | ds sep fs Hne Hds _ _ _];
        (destruct ds as [|d ds]; [congruence|]);
        simpl in Ea; injection Ea as <- _;
        simpl in Hds; now apply andb_prop in Hds as [Hd _].
    - intros p a Ea. destruct Hlast as (q & b & -> & Hb).
      rewrite !app_assoc in Ea. apply app_inj_tail in Ea as [_ <-]. exact Hb. }
  rewrite E. now apply ParserFacts.groups_of_line.
Qed.

(** X14.  Every suggested category is a valid description, and sent
    after an amount and one space it is logged under exactly that
    name. *)
Theorem suggestions_are_accepted (c num : str) (a : float) :
  In c get_suggested_categories ->
  amount_text num ->
  py_float (replace ","%char "."%char num) = Some a ->
  ltb (of_Z 0) a = true -> leb a ceiling = true ->
  validate_category (PStr c) = (true, []) /\
  parse_expense_message (num ++ lit " " ++ c) = (Some a, Some c, []).
Proof.
  intros Hc Hnum Ha Hpos Hle.
  assert (P : forall t : str,
    forallb not_newline t = true ->
    (exists p x, t = p ++ [x] /\ isspace x = false) ->
    strip (lstrip t) = t -> Nat.ltb 100 (length t) = false ->
    parse_expense_message (num ++ lit " " ++ t) = (Some a, Some t, [])).
  { intros t Hnl Hlast Hs Hlen.
    rewrite parse_line; auto; [|discriminate].
    unfold after_groups. rewrite Ha, (@ltb_not_leb _ _ Hpos).
    fold ceiling. rewrite (@leb_not_ltb _ _ Hle), Hs, Hlen.
    destruct Hlast as (p & x & -> & _). now destruct p. }
  unfold get_suggested_categories in Hc. simpl in Hc.
  repeat (destruct Hc as [<- | Hc];
          [split; [reflexivity|];
           apply P; try reflexivity;
           match goal with
           | |- exists p x, ?t = _ /\ _ =>
               exists (removelast t), (last t " "%char);
               split; reflexivity
           end |]).
  contradiction.
Qed.

Lemma suggestions_are_accepted_witness :
  validate_category (PStr (lit "coffee")) = (true, []) /\
  parse_expense_message (lit "9,70" ++ lit " " ++ lit "coffee")
  = (Some (of_decimal 970 2), Some (lit "coffee"), []).
Proof.
  apply suggestions_are_accepted.
  - right. now left.
  - apply (@amount_frac (lit "9") ","%char (lit "70"));
      solve [discriminate | reflexivity | now right].
  - reflexivity.
  - reflexivity.
  - reflexivity.
Defined.

End ValidatorFacts.

(** ** Dictionaries *)

Module DictFacts.

Lemma str_eqb_eq (a b : str) : str_eqb a b = true <-> a = b.
Proof.
  revert b. induction a as [|x a IH]; intros [|y b]; simpl;
    try (split; [discriminate | discriminate]); [tauto|].
  rewrite andb_true_iff, Ascii.eqb_eq, IH. split.
  - now intros [-> ->].
  - intros H. injection H as -> ->. auto.
Qed.

Lemma str_eqb_refl (a : str) : str_eqb a a = true.
Proof. now apply str_eqb_eq. Qed.

Lemma str_eqb_neq (a b : str) : str_eqb a b = false <-> a <> b.
Proof.
  rewrite <- str_eqb_eq. destruct (str_eqb a b); split; congruence.
Qed.

Lemma str_eqb_sym (a b : str) : str_eqb a b = str_eqb b a.
Proof.
  destruct (str_eqb a b) eqn:E.
  - apply str_eqb_eq in E. subst. symmetry. apply str_eqb_refl.
  - apply str_eqb_neq in E. symmetry. apply str_eqb_neq. congruence.
Qed.

Lemma lookup_app (d1 d2 : list (str * pyval)) (k : str) :
  dict_lookup (d1 ++ d2) k
  = match dict_lookup d1 k with
    | Some v => Some v
    | None => dict_lookup d2 k
    end.
Proof.
  induction d1 as [|[k' v] d1 IH]; simpl; [reflexivity|].
  now destruct (str_eqb k k').
Qed.

Lemma lookup_absent (d : list (str * pyval)) (k : str) :
  existsb (fun kv' => str_eqb k (fst kv')) d = false ->
  dict_lookup d k = None.
Proof.
  induction d as [|[k' v] d IH]; simpl; [reflexivity|].
  intros H. apply orb_false_iff in H as [H1 H2]. rewrite H1. auto.
Qed.

Lemma lookup_overwrite (d : list (str * pyval)) (k0 k : str) (v : pyval) :
  existsb (fun kv' => str_eqb k0 (fst kv')) d = true ->
  dict_lookup
    (map (fun kv' => if str_eqb k0 (fst kv') then (fst kv', v) else kv') d) k
  = if str_eqb k k0 then Some v else dict_lookup d k.
Proof.
  induction d as [|[k' v'] d IH]; simpl; [discriminate|].
  intros H. destruct (str_eqb k0 k') eqn:E0; simpl.
  - apply str_eqb_eq in E0. subst k'.
    destruct (str_eqb k k0) eqn:E; [reflexivity|].
    destruct (existsb (fun kv' => str_eqb k0 (fst kv')) d) eqn:Ex.
    + now rewrite IH by reflexivity.
    + clear IH H. induction d as [|[k2 v2] d IHd]; simpl; [reflexivity|].
      simpl in Ex. apply orb_false_iff in Ex as [E2 Ex]. rewrite E2.
      destruct (str_eqb k k2); [reflexivity | auto].
  - simpl in H. rewrite IH by exact H.
    destruct (str_eqb k k') eqn:E1; [|reflexivity].
    apply str_eqb_eq in E1. subst k'.
    destruct (str_eqb k k0) eqn:E; [|reflexivity].
    apply str_eqb_eq in E. subst k0. rewrite str_eqb_refl in E0. discriminate.
Qed.

(** [{**d1, **d2}]: a key gets its last binding in [d2], or else its
    binding in [d1]. *)
Lemma lookup_merge (d2 : list (str * pyval)) : forall d1 k,
  dict_lookup (dict_merge d1 d2) k
  = match dict_lookup (rev d2) k with
    | Some v => Some v
    | None => dict_lookup d1 k
    end.
Proof.
  unfold dict_merge.
  induction d2 as [|[k0 v0] d2 IH]; intros d1 k; simpl; [reflexivity|].
  rewrite IH, lookup_app. simpl.
  destruct (dict_lookup (rev d2) k) as [v|]; [reflexivity|].
  destruct (existsb (fun kv' => str_eqb k0 (fst kv')) d1) eqn:Ex.
  - rewrite lookup_overwrite by exact Ex. now destruct (str_eqb k k0).
  - rewrite lookup_app. simpl.
    destruct (str_eqb k k0) eqn:E.
    + apply str_eqb_eq in E. subst k0. now rewrite lookup_absent.
    + now destruct (dict_lookup d1 k).
Qed.

End DictFacts.
Import DictFacts.

(** ** The client and the facade, further (src/sheets) *)

Module FacadeFacts.

Section Facts.
Context {W : Type} {ext : Externals W}.

(** Whatever the web hook does, [log_expense] comes back with a
    dictionary of three keys. *)
Lemma log_expense_is_dict (self : SimpleSheetsClient) amount category st :
  exists b message total st',
    Client.log_expense self amount category st
    = (Ok (PDict [(lit "success", PBool b); (lit "message", message);
                  (lit "running_total", total)]), st').
Proof.
  unfold Client.log_expense, try_except, bind, post, lift, ret,
    failure_with_total.
  destruct (requests_post _ _ _ _) as [[resp|e] w].
  - destruct (status_code resp =? 200); [|eauto].
    destruct (json resp) as [v|e].
    + destruct v; cbn [py_get]; try (destruct (is_request_exception _); eauto).
      destruct (truthy _); eauto.
    + destruct (is_request_exception e); eauto.
  - destruct (is_request_exception e); eauto.
Qed.

Lemma call_is_dict (self : SimpleSheetsClient) function_name params st :
  exists d st',
    call_apps_script_function self function_name params st
    = (Ok (PDict d), st').
Proof.
  unfold call_apps_script_function, try_except, bind, post, lift, ret,
    failure.
  destruct (requests_post _ _ _ _) as [[resp|e] w].
  - destruct (status_code resp =? 200); [|eauto].
    destruct (json resp) as [v|e].
    + destruct v; cbn [py_get]; try (destruct (is_request_exception _); eauto).
      destruct (truthy _); eauto.
    + destruct (is_request_exception e); eauto.
  - destruct (is_request_exception e); eauto.
Qed.

(** X15.  The two requests of the client always come back with a
    dictionary, whatever the web hook does: [log_expense] with one that
    has the keys [success] (a boolean), [message] and [running_total],
    [call_apps_script_function] with some dictionary.  The callers'
    [result['success']] and [result.get(...)] are therefore safe. *)
Theorem client_results_are_dicts (self : SimpleSheetsClient) :
  (forall amount category st,
     exists b message total st',
       Client.log_expense self amount category st
       = (Ok (PDict [(lit "success", PBool b); (lit "message", message);
                     (lit "running_total", total)]), st')) /\
  (forall function_name params st,
     exists d st',
       call_apps_script_function self function_name params st
       = (Ok (PDict d), st')).
Proof.
  split; intros; [apply log_expense_is_dict | apply call_is_dict].
Qed.

(** X16.  The payload of [call_apps_script_function] is
    [{'action': function_name, **params}]: every key of [params] keeps
    its value, and [action] is the function name unless [params] has an
    [action] of its own, which then replaces it. *)
Theorem payload_lookup (function_name : str) (params : list (str * pyval))
    (k : str) :
  py_get (call_payload function_name params) k PNone
  = Ok match dict_lookup (rev params) k with
       | Some v => v
       | None => if str_eqb k (lit "action") then PStr function_name
                 else PNone
       end.
Proof.
  unfold call_payload. cbn [py_get]. rewrite lookup_merge.
  destruct (dict_lookup (rev params) k); [reflexivity|].
  cbn [dict_lookup]. now destruct (str_eqb k (lit "action")).
Qed.

(** A caller's own [action] wins over the function name. *)
Example payload_action_overridden :
  py_get (call_payload (lit "getMonthlyStats")
            [(lit "month", PStr (lit "current"));
             (lit "action", PStr (lit "deleteAll"))])
    (lit "action") PNone
  = Ok (PStr (lit "deleteAll")).
Proof. reflexivity. Qed.

Variable self : SheetOperations.

Lemma month_is_false (month : option str) (s : str) :
  month <> Some s -> month_is month s = false.
Proof.
  destruct month as [m|]; simpl; [|reflexivity].
  intros H. apply str_eqb_neq. congruence.
Qed.

(** X17.  For a month other than "current" and "annual" (no month
    included) [get_monthly_stats] makes no request: the state is left as
    it is, the outcome is a success, and the statistics hold the month
    asked for and the very message returned. *)
Theorem local_stats_make_no_request (month : option str) st :
  month <> Some (lit "current") -> month <> Some (lit "annual") ->
  exists message,
    get_monthly_stats self month st
    = (Ok (true, PStr message,
           PDict [(lit "month", opt_str month);
                  (lit "message", PStr message);
                  (lit "note",
                   PStr (lit "Statistics are available in the Google Sheet"))]),
       st).
Proof.
  intros H1 H2. exists (local_stats_message month).
  unfold get_monthly_stats, monthly_stats_body, try_except.
  now rewrite (month_is_false H1), (month_is_false H2).
Qed.

(** The statistics of a period come back whatever the web hook does. *)
Lemma remote_stats_ok (period : str) st :
  exists r st', remote_stats self period st = (Ok r, st').
Proof.
  unfold remote_stats, bind, lift, ret.
  destruct (call_is_dict (client self) (lit "getMonthlyStats")
              [(lit "month", PStr period)] st) as (d & st' & ->).
  cbn [py_get]. destruct (truthy _); eauto.
Qed.

Lemma monthly_stats_body_ok (month : option str) st :
  exists r st', monthly_stats_body self month st = (Ok r, st').
Proof.
  unfold monthly_stats_body.
  destruct (month_is month (lit "current")); [apply remote_stats_ok|].
  destruct (month_is month (lit "annual")); [apply remote_stats_ok|].
  unfold ret. eauto.
Qed.

Lemma log_ai_analysis_body_ok (data : pyval) st :
  exists b st', log_ai_analysis_body self data st = (Ok b, st').
Proof.
  unfold log_ai_analysis_body, bind, lift, ret.
  destruct (call_is_dict (client self) (lit "logAIAnalysis")
              [(lit "analysisData", data)] st) as (d & st' & ->).
  cbn [py_get]. destruct (truthy _); eauto.
Qed.

(** X18.  [get_monthly_stats] and [log_ai_analysis] never raise, and
    never take their [except] branch either: the outcome is the one of
    the [try] block, a returned value in every case. *)
Theorem stats_and_logging_never_raise :
  (forall month st,
     get_monthly_stats self month st = monthly_stats_body self month st /\
     exists r st', get_monthly_stats self month st = (Ok r, st')) /\
  (forall data st,
     log_ai_analysis self data st = log_ai_analysis_body self data st /\
     exists b st', log_ai_analysis self data st = (Ok b, st')).
Proof.
  split.
  - intros month st. unfold get_monthly_stats, try_except.
    destruct (monthly_stats_body_ok month st) as (r & st' & ->). eauto.
  - intros data st. unfold log_ai_analysis, try_except.
    destruct (log_ai_analysis_body_ok data st) as (b & st' & ->). eauto.
Qed.

(** What the facade makes of a failure dictionary of the client. *)
Lemma remote_stats_failure (period : str) st msg st1 :
  call_apps_script_function (client self) (lit "getMonthlyStats")
    [(lit "month", PStr period)] st = (Ok (failure msg), st1) ->
  remote_stats self period st = (Ok (false, PStr msg, PDict []), st1).
Proof. intros H. unfold remote_stats, bind. now rewrite H. Qed.

Lemma log_ai_analysis_failure (data : pyval) st msg st1 :
  call_apps_script_function (client self) (lit "logAIAnalysis")
    [(lit "analysisData", data)] st = (Ok (failure msg), st1) ->
  log_ai_analysis self data st = (Ok false, st1).
Proof.
  intros H. unfold log_ai_analysis, log_ai_analysis_body, try_except, bind.
  now rewrite H.
Qed.

Lemma stats_current st :
  get_monthly_stats self (Some (lit "current")) st
  = try_except (remote_stats self (lit "current"))
      (fun e => ret (false,
                     PStr (lit "❌ Error getting statistics: " ++ exn_str e),
                     PDict [])) st.
Proof. reflexivity. Qed.

(** X19.  A failure of the transport shows in the outcome of the
    facade: when the request raises a request exception,
    [get_monthly_stats("current")] returns
    [(False, "Request failed: ...", {})] and [log_ai_analysis] returns
    [False]; when the web hook answers with a status other than 200,
    they return [(False, "HTTP error <status>", {})] and [False]. *)
Theorem transport_failures_surface st :
  (forall e w,
     requests_post (webapp_url (client self))
       (call_payload (lit "getMonthlyStats")
          [(lit "month", PStr (lit "current"))]) 30 (world st)
     = (Raise e, w) ->
     is_request_exception e = true ->
     get_monthly_stats self (Some (lit "current")) st
     = (Ok (false, PStr (request_failed_msg e), PDict []),
        mkState w (chat_log st))) /\
  (forall resp w,
     requests_post (webapp_url (client self))
       (call_payload (lit "getMonthlyStats")
          [(lit "month", PStr (lit "current"))]) 30 (world st)
     = (Ok resp, w) ->
     status_code resp <> 200 ->
     get_monthly_stats self (Some (lit "current")) st
     = (Ok (false, PStr (http_error_msg (status_code resp)), PDict []),
        mkState w (chat_log st))) /\
  (forall data e w,
     requests_post (webapp_url (client self))
       (call_payload (lit "logAIAnalysis") [(lit "analysisData", data)]) 30
       (world st) = (Raise e, w) ->
     is_request_exception e = true ->
     log_ai_analysis self data st = (Ok false, mkState w (chat_log st))) /\
  (forall data resp w,
     requests_post (webapp_url (client self))
       (call_payload (lit "logAIAnalysis") [(lit "analysisData", data)]) 30
       (world st) = (Ok resp, w) ->
     status_code resp <> 200 ->
     log_ai_analysis self data st = (Ok false, mkState w (chat_log st))).
Proof.
  repeat match goal with |- _ /\ _ => split end.
  - intros e w Hpost He. rewrite stats_current. unfold try_except.
    now rewrite (remote_stats_failure _ _
                   (Ledger.call_request_failed _ _ _ _ Hpost He)).
  - intros resp w Hpost Hs. rewrite stats_current. unfold try_except.
    now rewrite (remote_stats_failure _ _
                   (Ledger.call_http_error _ _ _ _ Hpost Hs)).
  - intros data e w Hpost He.
    exact (log_ai_analysis_failure _ _
             (Ledger.call_request_failed _ _ _ _ Hpost He)).
  - intros data resp w Hpost Hs.
    exact (log_ai_analysis_failure _ _
             (Ledger.call_http_error _ _ _ _ Hpost Hs)).
Qed.


End Facts.

Lemma local_stats_make_no_request_witness :
  exists message,
    get_monthly_stats (ext:=scripted) the_ops (Some (lit "2024-08"))
      quiet_world
    = (Ok (true, PStr message,
           PDict [(lit "month", PStr (lit "2024-08"));
                  (lit "message", PStr message);
                  (lit "note",
                   PStr (lit "Statistics are available in the Google Sheet"))]),
       quiet_world).
Proof.
  apply (@local_stats_make_no_request script scripted the_ops
           (Some (lit "2024-08")) quiet_world); discriminate.
Defined.

Lemma transport_failures_surface_witness :
  get_monthly_stats (ext:=scripted) the_ops (Some (lit "current"))
    (one_reply (Raise (mk_exn RequestException (lit "timed out"))))
  = (Ok (false, PStr (lit "Request failed: timed out"), PDict []),
     mkState (mkScript [] []) []).
Proof.
  apply (proj1 (@transport_failures_surface script scripted the_ops
                  (one_reply (Raise (mk_exn RequestException
                                       (lit "timed out")))))
           (mk_exn RequestException (lit "timed out")) (mkScript [] []));
    reflexivity.
Defined.

Section More.
Context {W : Type} {ext : Externals W}.
Variable self : SheetOperations.

(** X20.  [log_ai_analysis] returns [True] exactly when the web hook
    answers the request with status 200 and a JSON object whose
    [success] is true; in every other case it returns [False]. *)
Theorem log_ai_analysis_result (data : pyval) st :
  exists b st',
    log_ai_analysis self data st = (Ok b, st') /\
    (b = true <->
     exists resp w d,
       requests_post (webapp_url (client self))
         (call_payload (lit "logAIAnalysis") [(lit "analysisData", data)])
         30 (world st) = (Ok resp, w) /\
       status_code resp = 200 /\ json resp = Ok (PDict d) /\
       truthy (match dict_lookup d (lit "success") with
               | Some x => x | None => PNone end) = true).
Proof.
  unfold log_ai_analysis, log_ai_analysis_body, call_apps_script_function,
    try_except, bind, post, lift, ret, failure.
  destruct (requests_post _ _ _ _) as [[resp|e] w] eqn:Hpost.
  - destruct (status_code resp =? 200) eqn:Hs.
    + apply Z.eqb_eq in Hs.
      destruct (json resp) as [v|e] eqn:Hj.
      * destruct v as [| | | | | |d];
          try (cbn [py_get]; destruct (is_request_exception _); cbn;
               eexists; eexists; (split; [reflexivity|]);
               (split; [discriminate|]);
               intros (resp' & w' & d' & E & _ & Hj' & _);
               injection E as <- _; congruence).
        cbn [py_get].
        destruct (truthy (match dict_lookup d (lit "success") with
                          | Some x => x | None => PNone end)) eqn:Ht.
        -- cbn [py_get]. rewrite Ht. cbn [py_get].
           eexists; eexists; split; [reflexivity|].
           split; [|reflexivity]. intros _. exists resp, w, d. auto.
        -- cbn [py_get]. rewrite Ht. cbn [py_get].
           eexists; eexists; split; [reflexivity|].
           split; [discriminate|].
           intros (resp' & w' & d' & E & _ & Hj' & Ht').
           injection E as <- _. rewrite Hj in Hj'. injection Hj' as <-.
           congruence.
      * destruct (is_request_exception e); cbn;
          (eexists; eexists; split; [reflexivity|]);
          (split; [discriminate|]);
          intros (resp' & w' & d' & E & _ & Hj' & _);
          injection E as <- _; congruence.
    + apply Z.eqb_neq in Hs. cbn.
      eexists; eexists; split; [reflexivity|].
      split; [discriminate|].
      intros (resp' & w' & d' & E & Hs' & _). injection E as <- _. congruence.
  - destruct (is_request_exception e); cbn;
      (eexists; eexists; split; [reflexivity|]);
      (split; [discriminate|]);
      intros (resp' & w' & d' & E & _); discriminate.
Qed.

(** X21.  A logged expense is reported as a failure when the running
    total of the web hook cannot be formatted: on a 200 answer with a
    true [success] whose [runningTotal] makes the [.2f] format raise,
    the facade's [log_expense] returns [False], the message
    "Error logging expense: ..." with the text of that exception, and
    the total 0.0. *)
Theorem unformattable_total_reported_as_failure
    (amount : float) (category : str) st resp w d a e :
  requests_post (webapp_url (client self)) (log_payload amount category) 10
    (world st) = (Ok resp, w) ->
  status_code resp = 200 ->
  json resp = Ok (PDict d) ->
  truthy (match dict_lookup d (lit "success") with
          | Some x => x | None => PNone end) = true ->
  format_2f (PFloat amount) = Ok a ->
  format_2f (match dict_lookup d (lit "runningTotal") with
             | Some x => x | None => PInt 0 end) = Raise e ->
  Operations.log_expense self amount category st
  = (Ok (false, lit "❌ Error logging expense: " ++ exn_str e,
         PFloat (of_Z 0)),
     mkState w (chat_log st)).
Proof.
  intros Hpost Hs Hj Ht Ha He.
  unfold Operations.log_expense, try_except.
  rewrite (bind_ok _ _ _ (Ledger.log_expense_ok _ _ _ _ Hpost Hs Hj Ht)).
  set (t := match dict_lookup d (lit "runningTotal") with
            | Some x => x | None => PInt 0 end) in *.
  set (m := match dict_lookup d (lit "message") with
            | Some x => x | None => PStr (lit "Expense logged successfully")
            end).
  unfold bind, lift, ret. cbn [py_item dict_lookup].
  change (str_eqb (lit "success") (lit "success")) with true.
  change (str_eqb (lit "running_total") (lit "success")) with false.
  change (str_eqb (lit "running_total") (lit "message")) with false.
  change (str_eqb (lit "running_total") (lit "running_total")) with true.
  cbv iota. cbn [truthy]. now rewrite Ha, He.
Qed.

End More.

Lemma unformattable_total_reported_as_failure_witness :
  Operations.log_expense (ext:=scripted) the_ops (of_decimal 660 2)
    (lit "food")
    (one_reply (Ok (ok_response
       (PDict [(lit "success", PBool true);
               (lit "runningTotal", PStr (lit "42.10"))]))))
  = (Ok (false,
         lit "❌ Error logging expense: "
         ++ lit "Unknown format code 'f' for object of type 'str'",
         PFloat (of_Z 0)),
     mkState (mkScript [] []) []).
Proof.
  apply (@unformattable_total_reported_as_failure script scripted the_ops
           (of_decimal 660 2) (lit "food")
           (one_reply (Ok (ok_response
              (PDict [(lit "success", PBool true);
                      (lit "runningTotal", PStr (lit "42.10"))]))))
           (ok_response
              (PDict [(lit "success", PBool true);
                      (lit "runningTotal", PStr (lit "42.10"))]))
           (mkScript [] [])
           [(lit "success", PBool true);
            (lit "runningTotal", PStr (lit "42.10"))]
           (lit "6.60")
           (mk_exn ValueError
              (lit "Unknown format code 'f' for object of type 'str'")));
    reflexivity.
Defined.

End FacadeFacts.

(** ** Where the analyzer gets its data (src/bot/ai_analysis.py) *)

Module IntakeFacts.

Section Facts.
Context {W : Type} {ext : Externals W}.
Variable self : MistralAnalyzer.

(** The facade and the extraction on a failure dictionary of the
    client. *)
Lemma expense_data_failure (period : str) st msg st1 :
  call_apps_script_function (client (sheet_ops self))
    (lit "getExpenseDataForAnalysis") [(lit "period", PStr period)] st
  = (Ok (failure msg), st1) ->
  get_expense_data_for_analysis (sheet_ops self) period st
  = (Ok (false, PStr msg, PList []), st1).
Proof.
  intros H. unfold get_expense_data_for_analysis, try_except, bind.
  now rewrite H.
Qed.

Lemma analysis_failure (period : str) st msg st1 :
  call_apps_script_function (client (sheet_ops self))
    (lit "getExpenseDataForAnalysis") [(lit "period", PStr period)] st
  = (Ok (failure msg), st1) ->
  analyze_expenses self period st
  = (Raise (value_error (lit "Failed to get expense data: " ++ msg)), st1).
Proof.
  intros H. apply Analyzer.analyze_raises_extract.
  unfold extract_expense_data. rewrite log_and_reraise_id.
  now rewrite (bind_ok _ _ _ (@expense_data_failure period st msg st1 H)).
Qed.

(** X22.  When the ledger cannot be reached, the analysis stops before
    any call to the model and raises a [ValueError] that carries the
    reason: "Failed to get expense data: Request failed: ..." for a
    request exception, "Failed to get expense data: HTTP error <status>"
    for a status other than 200. *)
Theorem analysis_reports_transport_failure (period : str) st :
  (forall e w,
     requests_post (webapp_url (client (sheet_ops self)))
       (call_payload (lit "getExpenseDataForAnalysis")
       [(lit "period", PStr period)]) 30 (world st) = (Raise e, w) ->
     is_request_exception e = true ->
     analyze_expenses self period st
     = (Raise (value_error (lit "Failed to get expense data: "
                            ++ request_failed_msg e)),
        mkState w (chat_log st))) /\
  (forall resp w,
     requests_post (webapp_url (client (sheet_ops self)))
       (call_payload (lit "getExpenseDataForAnalysis")
       [(lit "period", PStr period)]) 30 (world st) = (Ok resp, w) ->
     status_code resp <> 200 ->
     analyze_expenses self period st
     = (Raise (value_error (lit "Failed to get expense data: "
                            ++ http_error_msg (status_code resp))),
        mkState w (chat_log st))).
Proof.
  split.
  - intros e w Hpost He. apply analysis_failure.
    exact (Ledger.call_request_failed _ _ _ _ Hpost He).
  - intros resp w Hpost Hs. apply analysis_failure.
    exact (Ledger.call_http_error _ _ _ _ Hpost Hs).
Qed.

(** The facade on a 200 answer with a true [success]. *)
Lemma expense_data_success (period : str) st resp w d :
  requests_post (webapp_url (client (sheet_ops self)))
    (call_payload (lit "getExpenseDataForAnalysis")
       [(lit "period", PStr period)]) 30 (world st) = (Ok resp, w) ->
  status_code resp = 200 ->
  json resp = Ok (PDict d) ->
  truthy (match dict_lookup d (lit "success") with
          | Some x => x | None => PNone end) = true ->
  get_expense_data_for_analysis (sheet_ops self) period st
  = match py_len (match dict_lookup d (lit "data") with
                  | Some x => x | None => PList [] end) with
    | Ok n =>
        (Ok (true,
             match dict_lookup d (lit "message") with
             | Some x => x
             | None => PStr (lit "Retrieved " ++ str_of_Z n
                             ++ lit " expenses for " ++ period
                             ++ lit " period")
             end,
             match dict_lookup d (lit "data") with
             | Some x => x | None => PList [] end),
         mkState w (chat_log st))
    | Raise e =>
        (Ok (false,
             PStr (lit "❌ Error getting expense data for analysis: "
                   ++ exn_str e),
             PList []),
         mkState w (chat_log st))
    end.
Proof.
  intros Hpost Hs Hj Ht.
  unfold get_expense_data_for_analysis, try_except.
  rewrite (bind_ok _ _ _ (Ledger.call_app_result _ _ _ _ Hpost Hs Hj)).
  unfold bind, lift, ret. cbn [py_get]. rewrite Ht.
  now destruct (py_len _).
Qed.

(** X23.  An empty ledger is analysed as the sample data: when the web
    hook answers with a true [success] and no [data], or an empty list
    of rows, the extraction returns the built-in sample frame of the
    period, and no error. *)
Theorem empty_ledger_uses_sample_data (period : str) st resp w d :
  requests_post (webapp_url (client (sheet_ops self)))
    (call_payload (lit "getExpenseDataForAnalysis")
       [(lit "period", PStr period)]) 30 (world st) = (Ok resp, w) ->
  status_code resp = 200 ->
  json resp = Ok (PDict d) ->
  truthy (match dict_lookup d (lit "success") with
          | Some x => x | None => PNone end) = true ->
  dict_lookup d (lit "data") = None \/
  dict_lookup d (lit "data") = Some (PList []) ->
  extract_expense_data self period st
  = (create_sample_data period, mkState w (chat_log st)).
Proof.
  intros Hpost Hs Hj Ht Hd.
  unfold extract_expense_data. rewrite log_and_reraise_id.
  pose proof (@expense_data_success period st resp w d Hpost Hs Hj Ht) as H.
  destruct Hd as [Hd | Hd]; rewrite Hd in H; cbn [py_len length] in H;
    rewrite (bind_ok _ _ _ H); reflexivity.
Qed.

(** X24.  A [data] field that is JSON [null] is not taken for an empty
    ledger: [len] raises on it inside the facade, which reports a
    failure, and the analysis raises
    "Failed to get expense data: ... object of type 'NoneType' has no
    len()". *)
Theorem null_data_is_a_failure (period : str) st resp w d :
  requests_post (webapp_url (client (sheet_ops self)))
    (call_payload (lit "getExpenseDataForAnalysis")
       [(lit "period", PStr period)]) 30 (world st) = (Ok resp, w) ->
  status_code resp = 200 ->
  json resp = Ok (PDict d) ->
  truthy (match dict_lookup d (lit "success") with
          | Some x => x | None => PNone end) = true ->
  dict_lookup d (lit "data") = Some PNone ->
  analyze_expenses self period st
  = (Raise (value_error
              (lit "Failed to get expense data: "
               ++ lit "❌ Error getting expense data for analysis: "
               ++ lit "object of type 'NoneType' has no len()")),
     mkState w (chat_log st)).
Proof.
  intros Hpost Hs Hj Ht Hd. apply Analyzer.analyze_raises_extract.
  unfold extract_expense_data. rewrite log_and_reraise_id.
  pose proof (@expense_data_success period st resp w d Hpost Hs Hj Ht) as H.
  rewrite Hd in H. cbn [py_len] in H.
  rewrite (bind_ok _ _ _ H). reflexivity.
Qed.

End Facts.

Lemma analysis_reports_transport_failure_witness :
  analyze_expenses (ext:=scripted) the_analyzer (lit "monthly")
    (one_reply (Raise (mk_exn RequestException (lit "timed out"))))
  = (Raise (value_error (lit "Failed to get expense data: "
                         ++ lit "Request failed: timed out")),
     mkState (mkScript [] []) []).
Proof.
  apply (proj1 (@analysis_reports_transport_failure script scripted
                  the_analyzer (lit "monthly")
                  (one_reply (Raise (mk_exn RequestException
                                       (lit "timed out")))))
           (mk_exn RequestException (lit "timed out")) (mkScript [] []));
    reflexivity.
Defined.

Lemma empty_ledger_uses_sample_data_witness :
  extract_expense_data (ext:=scripted) the_analyzer (lit "monthly")
    (one_reply (Ok (ok_response (PDict [(lit "success", PBool true);
                                        (lit "data", PList [])]))))
  = (create_sample_data (ext:=scripted) (lit "monthly"),
     mkState (mkScript [] []) []).
Proof.
  apply (@empty_ledger_uses_sample_data script scripted the_analyzer
           (lit "monthly")
           (one_reply (Ok (ok_response (PDict [(lit "success", PBool true);
                                               (lit "data", PList [])]))))
           (ok_response (PDict [(lit "success", PBool true);
                                (lit "data", PList [])]))
           (mkScript [] [])
           [(lit "success", PBool true); (lit "data", PList [])]);
    try reflexivity.
  now right.
Defined.

Lemma null_data_is_a_failure_witness :
  analyze_expenses (ext:=scripted) the_analyzer (lit "monthly")
    (one_reply (Ok (ok_response (PDict [(lit "success", PBool true);
                                        (lit "data", PNone)]))))
  = (Raise (value_error
              (lit "Failed to get expense data: "
               ++ lit "❌ Error getting expense data for analysis: "
               ++ lit "object of type 'NoneType' has no len()")),
     mkState (mkScript [] []) []).
Proof.
  apply (@null_data_is_a_failure script scripted the_analyzer
           (lit "monthly")
           (one_reply (Ok (ok_response (PDict [(lit "success", PBool true);
                                               (lit "data", PNone)]))))
           (ok_response (PDict [(lit "success", PBool true);
                                (lit "data", PNone)]))
           (mkScript [] [])
           [(lit "success", PBool true); (lit "data", PNone)]);
    reflexivity.
Defined.

End IntakeFacts.

(** ** The message handler (src/bot/handlers.py) *)

Module HandlerFacts.

Import ChatDouble.

Section Probing.
Context {W : Type} {ext : Externals W} {chan : Channel W}.
Variable ops : SheetOperations.

(** X25.  The probe never raises: [is_connected] returns [True] exactly
    when the GET on the web hook answers with status 200, and [False]
    on any other status and on any exception; [get_connection_info]
    reports the same as "connected" or "disconnected", next to the
    spreadsheet id and the URL. *)
Theorem probe_result st :
  exists b st',
    Probe.is_connected ops st = (Ok b, st') /\
    (b = true <->
     exists resp w,
       requests_get (webapp_url (client ops)) 10 (world st) = (Ok resp, w) /\
       status_code resp = 200) /\
    Probe.get_connection_info ops st
    = (Ok (PDict [(lit "spreadsheet_id", PStr (spreadsheet_id (client ops)));
                  (lit "webapp_url", PStr (webapp_url (client ops)));
                  (lit "connection_status",
                   PStr (if b then lit "connected"
                         else lit "disconnected"))]), st').
Proof.
  unfold Probe.get_connection_info, Probe.get_spreadsheet_info,
    Probe.is_connected, Probe.client_is_connected, Probe.test_connection,
    try_except, bind, Probe.get, ret.
  destruct (requests_get _ _ _) as [[resp|e] w] eqn:Hget.
  - destruct (status_code resp =? 200) eqn:Hs.
    + exists true. eexists. repeat split; auto.
      intros _. exists resp, w. split; [reflexivity|]. now apply Z.eqb_eq.
    + exists false. eexists. repeat split; auto; [discriminate|].
      intros (resp' & w' & E & Hs'). injection E as <- _.
      apply Z.eqb_neq in Hs. contradiction.
  - exists false. eexists. repeat split; auto; [discriminate|].
    intros (resp' & w' & E & _). discriminate.
Qed.

End Probing.

Section Facts.
Context {W : Type} {ext : Externals W} {chan : Channel W}.
Variable self : Handlers.BotHandlers.


Lemma is_connected_no st r w :
  requests_get (webapp_url (client (Handlers.sheet_ops self))) 10 (world st) = (r, w) ->
  (forall resp, r = Ok resp -> status_code resp <> 200) ->
  Probe.is_connected (Handlers.sheet_ops self) st
  = (Ok false, mkState w (chat_log st)).
Proof.
  intros Hget Hs.
  unfold Probe.is_connected, Probe.client_is_connected, Probe.test_connection,
    try_except, bind, Probe.get.
  rewrite Hget. destruct r as [resp|e]; [|reflexivity].
  specialize (Hs resp eq_refl). apply Z.eqb_neq in Hs. now rewrite Hs.
Qed.

Lemma reply_ok (t : str) st w' :
  reply_text t (world st) = (Ok tt, w') ->
  Handlers.reply t st = (Ok tt, mkState w' (chat_log st)).
Proof. unfold Handlers.reply. now intros ->. Qed.

Lemma is_command_strip (text : str) :
  is_command (strip text) = is_command text.
Proof. unfold is_command. now rewrite strip_idem. Qed.


(** X26.  Messages that are not processed: a command gets no reply and
    causes no request at all; and when the probe of the web hook fails
    (an exception, or a status other than 200) the only thing done is
    the reply that the sheet cannot be reached: nothing is parsed,
    nothing is posted. *)
Theorem message_not_processed (text : str) st :
  (is_command text = true ->
   Handlers.handle_message self text st = (Ok tt, st)) /\
  (forall r w w',
     is_command text = false ->
     requests_get (webapp_url (client (Handlers.sheet_ops self))) 10 (world st) = (r, w) ->
     (forall resp, r = Ok resp -> status_code resp <> 200) ->
     reply_text Handlers.ERROR_SHEETS_API w = (Ok tt, w') ->
     Handlers.handle_message self text st
     = (Ok tt, mkState w' (chat_log st))).
Proof.
  split.
  - intros Hc. unfold Handlers.handle_message, try_except.
    now rewrite is_command_strip, Hc.
  - intros r w w' Hc Hget Hs Hr.
    unfold Handlers.handle_message, try_except.
    rewrite is_command_strip, Hc.
    rewrite (bind_ok _ _ _ (is_connected_no st Hget Hs)). cbn [negb].
    now rewrite (@reply_ok _ (mkState w (chat_log st)) w' Hr).
Qed.



End Facts.

Lemma message_not_processed_witness :
  Handlers.handle_message (ext:=bot_externals) (chan:=bot_channel)
    the_handlers (lit "/total") (online [])
  = (Ok tt, online []).
Proof.
  apply (proj1 (@message_not_processed bot_world bot_externals bot_channel
                  the_handlers (lit "/total") (online []))).
  reflexivity.
Defined.



End HandlerFacts.

(** ** How often the analysis calls the model (src/bot/ai_analysis.py) *)

Module CallFacts.

Section Facts.
Context {W : Type} {ext : Externals W}.
Variable self : MistralAnalyzer.

(** The number of categories with more than one transaction. *)
Lemma several_cons (c : ExpenseCategory) (rest : list ExpenseCategory) :
  length (filter (fun c => count c >? 1) (c :: rest))
  = ((if count c >? 1 then 1 else 0)
     + length (filter (fun c => count c >? 1) rest))%nat.
Proof. simpl. now destruct (count c >? 1). Qed.

(** The client and the facade leave the log of prompts alone. *)
Lemma call_keeps_chat_log (client : SimpleSheetsClient) function_name params
    st r st' :
  call_apps_script_function client function_name params st = (r, st') ->
  chat_log st' = chat_log st.
Proof.
  unfold call_apps_script_function, try_except, bind, post, lift, ret.
  destruct (requests_post _ _ _ _) as [[resp|e] w].
  - destruct (status_code resp =? 200).
    + destruct (json resp) as [v|e].
      * destruct (py_get v (lit "success") PNone) as [ok|e].
        -- destruct (truthy ok); intros H; now injection H as _ <-.
        -- destruct (is_request_exception e); intros H; now injection H as _ <-.
      * destruct (is_request_exception e); intros H; now injection H as _ <-.
    + intros H; now injection H as _ <-.
  - destruct (is_request_exception e); intros H; now injection H as _ <-.
Qed.

Lemma expense_data_keeps_chat_log (ops : SheetOperations) period st r st' :
  get_expense_data_for_analysis ops period st = (r, st') ->
  chat_log st' = chat_log st.
Proof.
  unfold get_expense_data_for_analysis, try_except, bind.
  destruct (call_apps_script_function _ _ _ st) as [[v|e] st1] eqn:E;
    apply call_keeps_chat_log in E; rewrite <- E; unfold lift, ret.
  - destruct (py_get v (lit "success") PNone) as [ok|e];
      [|intros H; now injection H as _ <-].
    destruct (truthy ok).
    + destruct (py_get v (lit "data") (PList [])) as [data|e];
        [|intros H; now injection H as _ <-].
      destruct (py_len data) as [n|e]; [|intros H; now injection H as _ <-].
      destruct (py_get v (lit "message") _) as [m|e];
        intros H; now injection H as _ <-.
    + destruct (py_get v (lit "message") _) as [m|e];
        intros H; now injection H as _ <-.
  - intros H; now injection H as _ <-.
Qed.

Lemma extract_keeps_chat_log period st r st' :
  extract_expense_data self period st = (r, st') ->
  chat_log st' = chat_log st.
Proof.
  unfold extract_expense_data. rewrite log_and_reraise_id. unfold bind.
  destruct (get_expense_data_for_analysis _ _ st) as [[[[ok m] data]|e] st1]
    eqn:E; apply expense_data_keeps_chat_log in E; rewrite <- E;
    unfold lift, raise, ret.
  - destruct (negb ok); [intros H; now injection H as _ <-|].
    destruct (negb (truthy data)); [intros H; now injection H as _ <-|].
    destruct (pd_DataFrame data) as [df|e];
      [|intros H; now injection H as _ <-].
    destruct (_ || _); intros H; now injection H as _ <-.
  - intros H; now injection H as _ <-.
Qed.

(** Stage 1 sends one prompt. *)
Lemma categorize_prompt df st cats st' :
  categorize_expenses_flow self df st = (Ok cats, st') ->
  exists p, chat_log st' = chat_log st ++ [p].
Proof.
  unfold categorize_expenses_flow. rewrite log_and_reraise_id.
  unfold bind at 1. unfold lift at 1.
  destruct (frame_column df (lit "description")) as [descs|e]; [|discriminate].
  unfold bind at 1. unfold lift at 1.
  destruct (frame_column df (lit "amount")) as [amounts|e]; [|discriminate].
  unfold bind at 1. unfold lift at 1.
  destruct (create_categorization_prompt descs amounts) as [p|e];
    [|discriminate].
  intros H. apply bind_ok_inv in H as (reply & st1 & Hc & H).
  rewrite Analyzer.get_ai_response_eq in Hc.
  apply Analyzer.chat_log_step in Hc. exists p.
  unfold lift in H. injection H as _ <-. exact Hc.
Qed.

(** Stage 2 sends one prompt for each category with more than one
    transaction. *)
Lemma run_prompt_count cats st cats' st' :
  patterns_run self cats st cats' st' ->
  exists ps, chat_log st' = chat_log st ++ ps /\
             length ps = length (filter (fun c => count c >? 1) cats').
Proof.
  induction 1 as [st|c rest st rest' st' Hc Hrun IH
                  |c rest st p reply st1 rest' st' Hc Hp Hch Hrun IH].
  - exists []. now rewrite app_nil_r.
  - destruct IH as (ps & E & L). exists ps. split; [exact E|].
    rewrite several_cons.
    assert (E1 : (count c >? 1) = false)
      by (rewrite Z.gtb_ltb; now apply Z.ltb_ge).
    now rewrite E1.
  - destruct IH as (ps & E & L). exists (p :: ps). split.
    + rewrite E, (Analyzer.chat_log_step _ _ _ Hch), <- app_assoc.
      reflexivity.
    + rewrite several_cons. cbn [set_patterns count].
      assert (E1 : (count c >? 1) = true) by (apply Z.gtb_lt; lia).
      rewrite E1. simpl. now rewrite L.
Qed.

(** Stage 3 sends one prompt. *)
Lemma insights_prompt cats total n st r st' :
  generate_insights_flow self cats total n st = (Ok r, st') ->
  exists p, chat_log st' = chat_log st ++ [p].
Proof.
  unfold generate_insights_flow. rewrite log_and_reraise_id.
  unfold bind at 1. unfold lift at 1.
  destruct (create_insights_prompt cats total n) as [p|e]; [|discriminate].
  intros H. apply bind_ok_inv in H as (reply & st1 & Hc & H).
  rewrite Analyzer.get_ai_response_eq in Hc.
  apply Analyzer.chat_log_step in Hc. exists p.
  unfold ret in H. injection H as _ <-. exact Hc.
Qed.

(** Stage 1 sends the categorization prompt of the two columns of the
    frame. *)
Lemma categorize_sends df st cats st' :
  categorize_expenses_flow self df st = (Ok cats, st') ->
  exists descs amounts p,
    frame_column df (lit "description") = Ok descs /\
    frame_column df (lit "amount") = Ok amounts /\
    create_categorization_prompt descs amounts = Ok p /\
    chat_log st' = chat_log st ++ [p].
Proof.
  unfold categorize_expenses_flow. rewrite log_and_reraise_id.
  unfold bind at 1. unfold lift at 1.
  destruct (frame_column df (lit "description")) as [descs|e]; [|discriminate].
  unfold bind at 1. unfold lift at 1.
  destruct (frame_column df (lit "amount")) as [amounts|e]; [|discriminate].
  unfold bind at 1. unfold lift at 1.
  destruct (create_categorization_prompt descs amounts) as [p|e] eqn:Ep;
    [|discriminate].
  intros H. apply bind_ok_inv in H as (reply & st1 & Hc & H).
  rewrite Analyzer.get_ai_response_eq in Hc.
  apply Analyzer.chat_log_step in Hc. exists descs, amounts, p.
  unfold lift in H. injection H as _ <-. auto.
Qed.

(** Stage 2 sends, in order, the pattern prompt of each category with
    more than one transaction. *)
Lemma run_sends cats st cats' st' :
  patterns_run self cats st cats' st' ->
  exists ps,
    chat_log st' = chat_log st ++ ps /\
    Forall2 (fun c p => create_pattern_analysis_prompt c = Ok p)
      (filter (fun c => count c >? 1) cats') ps.
Proof.
  induction 1 as [st|c rest st rest' st' Hc Hrun IH
                  |c rest st p reply st1 rest' st' Hc Hp Hch Hrun IH].
  - exists []. split; [now rewrite app_nil_r|constructor].
  - destruct IH as (ps & E & F). exists ps. split; [exact E|].
    cbn [filter].
    assert (E1 : (count c >? 1) = false)
      by (rewrite Z.gtb_ltb; now apply Z.ltb_ge).
    now rewrite E1.
  - destruct IH as (ps & E & F). exists (p :: ps). split.
    + rewrite E, (Analyzer.chat_log_step _ _ _ Hch), <- app_assoc.
      reflexivity.
    + cbn [filter set_patterns count].
      assert (E1 : (count c >? 1) = true) by (apply Z.gtb_lt; lia).
      rewrite E1. constructor; [exact Hp|exact F].
Qed.

(** Stage 3 sends the insights prompt of the categories and totals it
    is given. *)
Lemma insights_sends cats total n st r st' :
  generate_insights_flow self cats total n st = (Ok r, st') ->
  exists p,
    create_insights_prompt cats total n = Ok p /\
    chat_log st' = chat_log st ++ [p].
Proof.
  unfold generate_insights_flow. rewrite log_and_reraise_id.
  unfold bind at 1. unfold lift at 1.
  destruct (create_insights_prompt cats total n) as [p|e]; [|discriminate].
  intros H. apply bind_ok_inv in H as (reply & st1 & Hc & H).
  rewrite Analyzer.get_ai_response_eq in Hc.
  apply Analyzer.chat_log_step in Hc. exists p.
  unfold ret in H. injection H as _ <-. auto.
Qed.

(** X29.  A successful analysis calls the model 2 + k times, where k is
    the number of categories of the result with more than one
    transaction: fetching the data calls it not at all; then come, in
    this order, the categorization prompt of the descriptions and
    amounts of the data, the pattern prompt of each such category, and
    the insights prompt of the categories and totals of the result. *)
Theorem analysis_model_calls (period : str) st r st' :
  analyze_expenses self period st = (Ok r, st') ->
  exists df st1 descs amounts p1 ps p3,
    extract_expense_data self period st = (Ok df, st1) /\
    chat_log st1 = chat_log st /\
    frame_column df (lit "description") = Ok descs /\
    frame_column df (lit "amount") = Ok amounts /\
    create_categorization_prompt descs amounts = Ok p1 /\
    Forall2 (fun c p => create_pattern_analysis_prompt c = Ok p)
      (filter (fun c => count c >? 1) (categories r)) ps /\
    create_insights_prompt (categories r) (total_expenses r)
      (total_transactions r) = Ok p3 /\
    chat_log st' = chat_log st ++ p1 :: ps ++ [p3] /\
    length (p1 :: ps ++ [p3])
    = (2 + length (filter (fun c => count c >? 1) (categories r)))%nat.
Proof.
  intros H.
  apply Analyzer.analyze_ok_inv in H
    as (df & st1 & cats1 & st2 & cats2 & st3 & ins & recs
        & Hdf & _ & H1 & H2 & H3 & ->).
  pose proof (extract_keeps_chat_log _ _ Hdf) as Hlog.
  apply categorize_sends in H1 as (descs & amounts & p1 & Hd & Ha & Hp1 & E1).
  apply Analyzer.patterns_flow_run, run_sends in H2 as (ps & E2 & F).
  apply insights_sends in H3 as (p3 & Hp3 & E3).
  exists df, st1, descs, amounts, p1, ps, p3.
  cbn [result_of categories total_expenses total_transactions].
  repeat match goal with |- _ /\ _ => split end; try assumption.
  - rewrite E3, E2, E1, Hlog, <- !app_assoc. reflexivity.
  - cbn [length]. rewrite length_app. cbn [length].
    rewrite <- (Forall2_length F). lia.
Qed.

End Facts.

Lemma analysis_model_calls_witness :
  exists r st' p1 ps p3,
    analyze_expenses (ext:=scripted) the_analyzer (lit "monthly")
      (analysis_world (reply "{'insights':['less matcha'],'recommendations':[]}"))
    = (Ok r, st') /\
    Forall2 (fun c p => create_pattern_analysis_prompt (ext:=scripted) c = Ok p)
      (filter (fun c => count c >? 1) (categories r)) ps /\
    create_insights_prompt (ext:=scripted) (categories r) (total_expenses r)
      (total_transactions r) = Ok p3 /\
    chat_log st' = [] ++ p1 :: ps ++ [p3] /\
    length (p1 :: ps ++ [p3])
    = (2 + length (filter (fun c => count c >? 1) (categories r)))%nat.
Proof.
  destruct (analyze_expenses (ext:=scripted) the_analyzer (lit "monthly")
      (analysis_world (reply "{'insights':['less matcha'],'recommendations':[]}")))
    as [[r|e] st'] eqn:E.
  - destruct (@analysis_model_calls _ _ _ _ _ _ _ E)
      as (df & st1 & descs & amounts & p1 & ps & p3
          & _ & _ & _ & _ & _ & F & H3 & H4 & H5).
    exists r, st', p1, ps, p3. repeat split; assumption.
  - vm_compute in E. discriminate.
Defined.

End CallFacts.
